(** * obligator: the authorization engine, embedded and verified

    A shallow embedding of the Go sources of obligator (the OIDC handlers of
    [oidc.go], the upstream OAuth2 login handlers, the PKCE helpers and
    [validate] of [obligator.go]) together with the properties the
    specification states about them.

    Conventions.
    - A Go [string] is a sequence of bytes: [string] of the standard library.
    - A Go function returning [(T, error)] returns [Result T].
    - A Go function that may panic returns [Run T].
    - [http.ResponseWriter] is an explicit value threaded through the
      handlers; what the client receives is read off it with [status] and
      [sentHeaders].
    - Calls that leave the process (storage, signing and parsing of JWTs,
      HTTP requests, the clock, the random source) are fields of a [World]
      record: the handlers are functions of the world they run in. *)

From Stdlib Require Import ZArith List Ascii String Lia.
From stdpp Require Import base option list strings gmap.

Local Open Scope string_scope.
Local Open Scope list_scope.
Local Open Scope Z_scope.

(** ** Results, panics *)

Inductive Result (A : Type) : Type :=
| Ok (a : A)
| Err (msg : string).
Arguments Ok {A} a.
Arguments Err {A} msg.

Inductive Run (A : Type) : Type :=
| Returned (a : A)
| Panicked (msg : string).
Arguments Returned {A} a.
Arguments Panicked {A} msg.

(** ** crypto/sha256 and encoding/base64

    [GeneratePKCECodeChallenge] calls the Go standard library for SHA-256 and
    for the unpadded URL-safe base64 alphabet.  Both are given here as
    executable functions on bytes ([Z] in [0, 256)), following FIPS 180-4 and
    RFC 4648 section 5, so that challenges can be computed. *)

Module Sha256.

Definition mask32 : Z := 0xFFFFFFFF.
Definition wrap (x : Z) : Z := Z.land x mask32.
Definition add32 (x y : Z) : Z := wrap (x + y).
Definition rotr (n x : Z) : Z :=
  wrap (Z.lor (Z.shiftr x n) (Z.shiftl x (32 - n))).
Definition not32 (x : Z) : Z := Z.lxor x mask32.

Definition ch (e f g : Z) : Z := Z.lxor (Z.land e f) (Z.land (not32 e) g).
Definition maj (a b c : Z) : Z :=
  Z.lxor (Z.lxor (Z.land a b) (Z.land a c)) (Z.land b c).
Definition bsig0 (a : Z) : Z := Z.lxor (Z.lxor (rotr 2 a) (rotr 13 a)) (rotr 22 a).
Definition bsig1 (e : Z) : Z := Z.lxor (Z.lxor (rotr 6 e) (rotr 11 e)) (rotr 25 e).
Definition ssig0 (x : Z) : Z := Z.lxor (Z.lxor (rotr 7 x) (rotr 18 x)) (Z.shiftr x 3).
Definition ssig1 (x : Z) : Z := Z.lxor (Z.lxor (rotr 17 x) (rotr 19 x)) (Z.shiftr x 10).

Definition round_constants : list Z :=
  [0x428A2F98; 0x71374491; 0xB5C0FBCF; 0xE9B5DBA5;
   0x3956C25B; 0x59F111F1; 0x923F82A4; 0xAB1C5ED5;
   0xD807AA98; 0x12835B01; 0x243185BE; 0x550C7DC3;
   0x72BE5D74; 0x80DEB1FE; 0x9BDC06A7; 0xC19BF174;
   0xE49B69C1; 0xEFBE4786; 0x0FC19DC6; 0x240CA1CC;
   0x2DE92C6F; 0x4A7484AA; 0x5CB0A9DC; 0x76F988DA;
   0x983E5152; 0xA831C66D; 0xB00327C8; 0xBF597FC7;
   0xC6E00BF3; 0xD5A79147; 0x06CA6351; 0x14292967;
   0x27B70A85; 0x2E1B2138; 0x4D2C6DFC; 0x53380D13;
   0x650A7354; 0x766A0ABB; 0x81C2C92E; 0x92722C85;
   0xA2BFE8A1; 0xA81A664B; 0xC24B8B70; 0xC76C51A3;
   0xD192E819; 0xD6990624; 0xF40E3585; 0x106AA070;
   0x19A4C116; 0x1E376C08; 0x2748774C; 0x34B0BCB5;
   0x391C0CB3; 0x4ED8AA4A; 0x5B9CCA4F; 0x682E6FF3;
   0x748F82EE; 0x78A5636F; 0x84C87814; 0x8CC70208;
   0x90BEFFFA; 0xA4506CEB; 0xBEF9A3F7; 0xC67178F2].

(** The eight working variables, also the chaining value. *)
Record state : Type := State
  { sa : Z; sb : Z; sc : Z; sd : Z; se : Z; sf : Z; sg : Z; sh : Z }.

Definition init : state :=
  State 0x6A09E667 0xBB67AE85 0x3C6EF372 0xA54FF53A
        0x510E527F 0x9B05688C 0x1F83D9AB 0x5BE0CD19.

Definition word_at (ws : list Z) (i : nat) : Z := nth i ws 0.

(** Message schedule: from the sixteen words of a block, the words
    16..63, each from four earlier ones. *)
Fixpoint extend (n : nat) (ws : list Z) : list Z :=
  match n with
  | O => ws
  | S n' =>
      let t := length ws in
      let v := add32 (add32 (ssig1 (word_at ws (t - 2))) (word_at ws (t - 7)))
                     (add32 (ssig0 (word_at ws (t - 15))) (word_at ws (t - 16))) in
      extend n' (ws ++ [v])
  end.

Definition step (s : state) (kw : Z * Z) : state :=
  let t1 := add32 (add32 (add32 (sh s) (bsig1 (se s))) (ch (se s) (sf s) (sg s)))
                  (add32 (fst kw) (snd kw)) in
  let t2 := add32 (bsig0 (sa s)) (maj (sa s) (sb s) (sc s)) in
  State (add32 t1 t2) (sa s) (sb s) (sc s) (add32 (sd s) t1) (se s) (sf s) (sg s).

Definition compress (h : state) (block : list Z) : state :=
  let s := fold_left step (combine round_constants (extend 48 block)) h in
  State (add32 (sa h) (sa s)) (add32 (sb h) (sb s)) (add32 (sc h) (sc s))
        (add32 (sd h) (sd s)) (add32 (se h) (se s)) (add32 (sf h) (sf s))
        (add32 (sg h) (sg s)) (add32 (sh h) (sh s)).

(** Big-endian packing of bytes into 32-bit words. *)
Fixpoint words_of_bytes (bs : list Z) : list Z :=
  match bs with
  | b0 :: b1 :: b2 :: b3 :: rest =>
      (Z.lor (Z.lor (Z.shiftl b0 24) (Z.shiftl b1 16)) (Z.lor (Z.shiftl b2 8) b3))
        :: words_of_bytes rest
  | _ => []
  end.

Definition bytes_of_word (w : Z) : list Z :=
  [Z.land (Z.shiftr w 24) 255; Z.land (Z.shiftr w 16) 255;
   Z.land (Z.shiftr w 8) 255; Z.land w 255].

(** Padding: one bit, zeros up to 56 modulo 64, the bit length on 64 bits. *)
Definition pad (msg : list Z) : list Z :=
  let len := Z.of_nat (length msg) in
  let zeros := Z.to_nat ((55 - len) mod 64) in
  let bits := 8 * len in
  msg ++ [128] ++ repeat 0 zeros
      ++ bytes_of_word (Z.shiftr bits 32) ++ bytes_of_word (wrap bits).

Fixpoint blocks (n : nat) (h : state) (ws : list Z) : state :=
  match n with
  | O => h
  | S n' => blocks n' (compress h (firstn 16 ws)) (skipn 16 ws)
  end.

Definition sum (msg : list Z) : list Z :=
  let ws := words_of_bytes (pad msg) in
  let h := blocks (length ws / 16) init ws in
  concat (map bytes_of_word
            [sa h; sb h; sc h; sd h; se h; sf h; sg h; sh h]).

End Sha256.

Module Base64.

(** [base64.RawURLEncoding]: the URL-safe alphabet, no padding. *)
Definition encodeURL : string :=
  "ABCDEFGHIJKLMNOPQRSTUVWXYZabcdefghijklmnopqrstuvwxyz0123456789-_".

Definition digit (v : Z) : string :=
  match String.get (Z.to_nat v) encodeURL with
  | Some c => String c EmptyString
  | None => EmptyString
  end.

Fixpoint rawURLEncode (bs : list Z) : string :=
  match bs with
  | b0 :: b1 :: b2 :: rest =>
      let v := Z.lor (Z.lor (Z.shiftl b0 16) (Z.shiftl b1 8)) b2 in
      digit (Z.shiftr v 18) +:+ digit (Z.land (Z.shiftr v 12) 63)
        +:+ digit (Z.land (Z.shiftr v 6) 63) +:+ digit (Z.land v 63)
        +:+ rawURLEncode rest
  | [b0; b1] =>
      let v := Z.lor (Z.shiftl b0 16) (Z.shiftl b1 8) in
      digit (Z.shiftr v 18) +:+ digit (Z.land (Z.shiftr v 12) 63)
        +:+ digit (Z.land (Z.shiftr v 6) 63)
  | [b0] =>
      let v := Z.shiftl b0 16 in
      digit (Z.shiftr v 18) +:+ digit (Z.land (Z.shiftr v 12) 63)
  | [] => EmptyString
  end.

End Base64.

Definition bytes_of_string (s : string) : list Z :=
  map (fun c => Z.of_N (N_of_ascii c)) (list_ascii_of_string s).

(** ** PKCE helpers (upstream OAuth2 handler file) *)

(** [GeneratePKCECodeChallenge]: SHA-256 of the verifier, then unpadded
    URL-safe base64. *)
Definition GeneratePKCECodeChallenge (verifier : string) : string :=
  Base64.rawURLEncode (Sha256.sum (bytes_of_string verifier)).

(** The alphabet of [GeneratePKCECodeVerifier]. *)
Definition pkceChars : string :=
  "0123456789abcdefghijklmnopqrstuvwxyzABCDEFGHIJKLMNOPQRSTUVWXYZ-._~".

(** [s[i]] on a Go string: the byte at index [i], a run-time panic when the
    index is out of range. *)
Definition byteAt (s : string) (i : Z) : option ascii :=
  if Z.ltb i 0 then None else String.get (Z.to_nat i) s.

(** The random source of [crypto/rand]: [rnd i max] is what the [i]-th call
    [rand.Int(rand.Reader, max)] of an invocation returns.  Nothing is assumed
    about the value: an index outside the alphabet panics, as in Go. *)
Definition RandInt : Type := nat -> Z -> Result Z.

(** The body of [for i := 0; i < 64; i++ { ... }], with [todo] the number of
    iterations still to run and [i] the loop counter. *)
Fixpoint verifierLoop (rnd : RandInt) (todo i : nat) (verifier : string)
  : Run (Result string) :=
  match todo with
  | O => Returned (Ok verifier)
  | S todo' =>
      match rnd i (Z.of_nat (String.length pkceChars)) with
      | Err e => Returned (Err e)
      | Ok randIndex =>
          match byteAt pkceChars randIndex with
          | None => Panicked "index out of range"
          | Some c => verifierLoop rnd todo' (S i) (verifier +:+ String c EmptyString)
          end
      end
  end.

Definition GeneratePKCECodeVerifier (rnd : RandInt) : Run (Result string) :=
  verifierLoop rnd 64 0 "".

(** [GeneratePKCEData] returns [(challenge, verifier, nil)] or an error. *)
Definition GeneratePKCEData (rnd : RandInt) : Run (Result (string * string)) :=
  match GeneratePKCECodeVerifier rnd with
  | Panicked m => Panicked m
  | Returned (Err e) => Returned (Err e)
  | Returned (Ok verifier) =>
      let challenge := GeneratePKCECodeChallenge verifier in
      Returned (Ok (challenge, verifier))
  end.

(** The unreserved characters of RFC 3986, [A-Za-z0-9-._~], by code point. *)
Definition unreserved (c : ascii) : bool :=
  let n := Z.of_N (N_of_ascii c) in
  ((65 <=? n) && (n <=? 90)) || ((97 <=? n) && (n <=? 122))
  || ((48 <=? n) && (n <=? 57))
  || (n =? 45) || (n =? 46) || (n =? 95) || (n =? 126).

(** ** time

    [time.Time] is a number of nanoseconds since the epoch and
    [time.Duration] a number of nanoseconds, as in Go. *)

Definition Time : Type := Z.
Definition Duration : Type := Z.
Definition Second : Duration := 1000000000.
Definition Minute : Duration := 60 * Second.
Definition Hour : Duration := 60 * Minute.
Definition Time_Add (t : Time) (d : Duration) : Time := t + d.

(** ** net/http *)

(** A cookie: name, value and [MaxAge] in seconds (negative: delete now).
    Every cookie of the server has path [/] and is [HttpOnly], [Secure] and
    [SameSite=Lax]; these attributes are not repeated here. *)
Record Cookie : Type := MkCookie
  { cName : string;
    cValue : string;
    cMaxAge : Z }.

(** [OAuth2TokenResponse] of [obligator.go]. *)
Record OAuth2TokenResponse : Type := MkTokenResponse
  { AccessToken : string;
    TokenType : string;
    ExpiresIn : Z;
    IdToken : string }.

Inductive HeaderValue : Type :=
| HText (v : string)
| HCookie (c : Cookie).

Definition HeaderMap : Type := list (string * HeaderValue).

(** What a handler writes to the body: text, the JSON encoding of a token
    response, or the note [http.Redirect] adds for GET requests. *)
Inductive BodyChunk : Type :=
| BText (s : string)
| BTokenResponse (t : OAuth2TokenResponse)
| BRedirectNote (url : string) (code : Z).

(** The response writer of the Go server.  [header] is the live header map;
    [wrote] is set by the first [WriteHeader] to the status code and a
    snapshot of the header map: later changes of the map are not sent. *)
Record ResponseWriter : Type := MkWriter
  { header : HeaderMap;
    wrote : option (Z * HeaderMap);
    body : list BodyChunk }.

Definition newResponseWriter : ResponseWriter := MkWriter [] None [].

Definition WriteHeader (code : Z) (w : ResponseWriter) : ResponseWriter :=
  match wrote w with
  | Some _ => w
  | None => MkWriter (header w) (Some (code, header w)) (body w)
  end.

(** [w.Write]: the first write sends the header with status 200 if
    [WriteHeader] was not called. *)
Definition Write (chunk : BodyChunk) (w : ResponseWriter) : ResponseWriter :=
  let w' := WriteHeader 200 w in
  MkWriter (header w') (wrote w') (body w' ++ [chunk]).

Definition WriteString (s : string) (w : ResponseWriter) : ResponseWriter :=
  Write (BText s) w.

Definition Header_Add (k : string) (v : HeaderValue) (w : ResponseWriter)
  : ResponseWriter :=
  MkWriter (header w ++ [(k, v)]) (wrote w) (body w).

Definition Header_Set (k : string) (v : HeaderValue) (w : ResponseWriter)
  : ResponseWriter :=
  MkWriter (List.filter (fun kv => negb (String.eqb (fst kv) k)) (header w) ++ [(k, v)])
           (wrote w) (body w).

Definition Header_has (k : string) (h : HeaderMap) : bool :=
  existsb (fun kv => String.eqb (fst kv) k) h.

(** [http.SetCookie]: one more [Set-Cookie] line in the header map.  (The
    library drops a cookie whose name is not a token; the names here are the
    prefix of the server followed by lower-case words.) *)
Definition SetCookie (c : Cookie) (w : ResponseWriter) : ResponseWriter :=
  Header_Add "Set-Cookie" (HCookie c) w.

Definition StatusSeeOther : Z := 303.

(** [http.Redirect]: the [Location] header, a content type and a short note
    for GET (and HEAD) requests that set none, and the status.  The target is
    kept as the handler built it. *)
Definition Redirect (method url : string) (code : Z) (w : ResponseWriter)
  : ResponseWriter :=
  let hadCT := Header_has "Content-Type" (header w) in
  let w1 := Header_Set "Location" (HText url) w in
  let w2 := if negb hadCT && (String.eqb method "GET" || String.eqb method "HEAD")
            then Header_Set "Content-Type" (HText "text/html; charset=utf-8") w1
            else w1 in
  let w3 := WriteHeader code w2 in
  if negb hadCT && String.eqb method "GET"
  then Write (BRedirectNote url code) w3
  else w3.

(** What the client receives. *)
Definition status (w : ResponseWriter) : Z :=
  match wrote w with
  | Some (code, _) => code
  | None => 200
  end.

Definition sentHeaders (w : ResponseWriter) : HeaderMap :=
  match wrote w with
  | Some (_, h) => h
  | None => header w
  end.

Definition cookie_of (kv : string * HeaderValue) : option Cookie :=
  match kv with
  | (_, HCookie c) => Some c
  | (_, HText _) => None
  end.

(** The cookies of the [Set-Cookie] lines the client receives. *)
Definition sentCookies (w : ResponseWriter) : list Cookie :=
  omap cookie_of (sentHeaders w).

Definition sentLocation (w : ResponseWriter) : option string :=
  match List.filter (fun kv => String.eqb (fst kv) "Location") (sentHeaders w) with
  | (_, HText u) :: _ => Some u
  | _ => None
  end.

(** The request: [Form] is what [r.ParseForm()] leaves in [r.Form]; a cookie
    is a name and a value, in the order of the [Cookie] header. *)
Record Request : Type := MkRequest
  { Method : string;
    Host : string;
    URLPath : string;
    RawQuery : string;
    Form : gmap string (list string);
    Cookies : list (string * string) }.

(** [url.Values.Get]: the first value of the key, or the empty string. *)
Definition Form_Get (r : Request) (key : string) : string :=
  match Form r !! key with
  | Some (v :: _) => v
  | _ => ""
  end.

(** [r.Cookie(name)]: the first cookie of that name, [http.ErrNoCookie]
    otherwise. *)
Fixpoint findCookie (name : string) (cs : list (string * string)) : option string :=
  match cs with
  | [] => None
  | (n, v) :: rest => if String.eqb n name then Some v else findCookie name rest
  end.

Definition Request_Cookie (r : Request) (name : string) : Result string :=
  match findCookie name (Cookies r) with
  | Some v => Ok v
  | None => Err "http: named cookie not present"
  end.

(** [strings.Split(s, sep)] for a one-byte separator. *)
Fixpoint Split (s : string) (sep : ascii) : list string :=
  match s with
  | EmptyString => [EmptyString]
  | String c rest =>
      if Ascii.eqb c sep then EmptyString :: Split rest sep
      else match Split rest sep with
           | part :: parts => String c part :: parts
           | [] => [String c EmptyString]
           end
  end.

(** ** Identities, logins and tokens *)

Record Identity : Type := MkIdentity
  { IdType : string;
    Id : string;
    ProviderName : string;
    Name : string;
    Email : string;
    EmailVerified : bool }.

Record Login : Type := MkLogin
  { lIdType : string;
    lId : string;
    lProviderName : string;
    lTimestamp : string }.

(** The value of a claim as [token.Get] returns it: an [interface{}] whose
    dynamic type the handlers test.  [identities], [logins] and [id_token]
    are registered custom fields ([NewServer]) and come back typed. *)
Inductive Value : Type :=
| VStr (s : string)
| VBool (b : bool)
| VNum (n : Z)
| VTime (t : Time)
| VStrs (l : list string)
| VIdents (l : list Identity)
| VLogins (m : gmap string (list Login)).

(** A [jwt.Token]: its claims by name. *)
Abbreviation Token := (gmap string Value).

Definition Token_Get (t : Token) (name : string) : option Value := t !! name.

Definition Token_Subject (t : Token) : string :=
  match t !! "sub" with
  | Some (VStr s) => s
  | _ => ""
  end.

Definition Token_Email (t : Token) : string :=
  match t !! "email" with
  | Some (VStr s) => s
  | _ => ""
  end.

Definition Token_Name (t : Token) : string :=
  match t !! "name" with
  | Some (VStr s) => s
  | _ => ""
  end.

(** The builders of [jwt] and [openid]: every call sets one claim. *)
Definition Claim (name : string) (v : Value) (b : Token) : Token := <[name := v]> b.
Definition IssuedAt (t : Time) (b : Token) : Token := Claim "iat" (VTime t) b.
Definition Expiration (t : Time) (b : Token) : Token := Claim "exp" (VTime t) b.
Definition Subject (s : string) (b : Token) : Token := Claim "sub" (VStr s) b.
Definition Audience (l : list string) (b : Token) : Token := Claim "aud" (VStrs l) b.
Definition Issuer (s : string) (b : Token) : Token := Claim "iss" (VStr s) b.
Definition BEmail (s : string) (b : Token) : Token := Claim "email" (VStr s) b.
Definition BEmailVerified (v : bool) (b : Token) : Token := Claim "email_verified" (VBool v) b.
Definition BName (s : string) (b : Token) : Token := Claim "name" (VStr s) b.
Definition NewBuilder : Token := ∅.

(** [Build()] fails only when a [Set] of a claim failed, which the library
    does for a value of the wrong type; the handlers pass values of the
    types of the claims, so it returns the token. *)
Definition Build (b : Token) : Result Token := Ok b.

(** [ifaceIsString v s]: the Go comparison [v == s] of an [interface{}]
    with a string, true when the dynamic type is [string] and the values
    are equal. *)
Definition ifaceIsString (v : Value) (s : string) : bool :=
  match v with
  | VStr s' => String.eqb s' s
  | _ => false
  end.

(** ** Records of the sources *)

(** [OAuth2AuthRequest] of [oidc.go]. *)
Record OAuth2AuthRequest : Type := MkAuthRequest
  { arClientId : string;
    arRedirectUri : string;
    arScope : string;
    arState : string;
    arResponseType : string;
    arCodeChallenge : string }.

(** [OAuth2ServerMetadata] of [oidc.go]. *)
Record OAuth2ServerMetadata : Type := MkMetadata
  { mIssuer : string;
    mAuthorizationEndpoint : string;
    mTokenEndpoint : string;
    mUserinfoEndpoint : string;
    mJwksUri : string;
    mScopesSupported : list string;
    mResponseTypesSupported : list string;
    mIdTokenSigningAlgValuesSupported : list string;
    mCodeChallengeMethodsSupported : list string;
    mSubjectTypesSupported : list string;
    mRegistrationEndpoint : string;
    mTokenEndpointAuthMethodsSupported : list string;
    mIntrospectionEndpoint : string }.

(** [Validation] of [obligator.go]. *)
Record Validation : Type := MkValidation
  { vId : string;
    vIdType : string }.

(** [GitHubEmail] of the upstream handler file. *)
Record GitHubEmail : Type := MkGitHubEmail
  { gEmail : string;
    gPrimary : bool;
    gVerified : bool }.

(** The fields of [OAuth2Provider], [User] and the configuration that the
    handlers read; the declarations are in files not among the sources.
    Field names carry a letter of their record in front ([pID] for
    [provider.ID], [lId] for [login.Id]) where two records share a name. *)
Record OAuth2Provider : Type := MkProvider
  { pID : string;
    pName : string;
    pURI : string;
    pClientID : string;
    pClientSecret : string;
    pOpenIDConnect : bool;
    pAuthorizationURI : string;
    pTokenURI : string;
    pScope : string }.

Record User : Type := MkUser { uEmail : string }.

Record Config : Type := MkConfig { cfgPublic : bool }.

(** What the handlers read of a parsed [url.URL]. *)
Record URL : Type := MkURL { uHost : string }.

(** Requests to and responses from an upstream provider.  The body of a
    request is the [url.Values] it encodes. *)
Record HttpRequest : Type := MkHttpRequest
  { hMethod : string;
    hURL : string;
    hHeader : list (string * string);
    hBody : list (string * string) }.

Record HttpResponse : Type := MkHttpResponse
  { StatusCode : Z;
    RespBody : string }.

(** The result of [jwt.Parse(..., jwt.WithToken(openid.New()))]: the claims,
    and whether the value is an [openid.Token]. *)
Record ParsedToken : Type := MkParsed
  { ptClaims : Token;
    ptIsOpenID : bool }.

(** The data given to the template [auth.html]. *)
Record AuthTemplateData : Type := MkAuthData
  { tdRootUri : string;
    tdDisplayName : string;
    tdClientId : string;
    tdIdentities : list Identity;
    tdRemainingIdentities : list Identity;
    tdPreviousLogins : list Login;
    tdOAuth2Providers : list OAuth2Provider;
    tdLogoMap : gmap string string;
    tdURL : string;
    tdCanEmail : bool;
    tdReturnUri : string }.

Definition Key : Type := string.
Definition KeySet : Type := list Key.

(** ** The world a handler runs in

    Storage, the JOSE library, the clock, the random source, the network
    and the helpers of the repository that build and sign the session cookie.
    Nothing is assumed about what they return. *)
Record World : Type := MkWorld
  { (* Storage / Database *)
    GetPrefix : string;
    GetRootUri : string;
    GetDisplayName : string;
    GetJWKSet : list Key;
    GetOAuth2Providers : Result (list OAuth2Provider);
    GetSmtpConfig : Result unit;
    GetForwardAuthPassthrough : bool;
    GetOAuth2ProviderByID : string -> Result OAuth2Provider;
    GetUsers : Result (list User);
    GetConfig : Result Config;
    (* jwx *)
    PublicSetOf : list Key -> Result KeySet;
    jwt_Parse : string -> KeySet -> Result Token;
    jwt_ParseOpenID : string -> KeySet -> Result ParsedToken;
    jwt_Sign : Token -> Key -> Result string;
    (* the process *)
    now : Time;
    url_Parse : string -> Result URL;
    ExecuteTemplate : string -> AuthTemplateData -> Result string;
    providerLogoMap : gmap string string;
    rand_Int : RandInt;
    (* the network *)
    http_NewRequestError : string -> string -> option string;
    http_Do : HttpRequest -> Result HttpResponse;
    decodeTokenResponse : string -> Result OAuth2TokenResponse;
    decodeGitHubEmails : string -> Result (list GitHubEmail);
    (* helpers of the repository declared outside the sources *)
    Hash : string -> string;
    ParseJWT : string -> Result Token;
    GetMeta : string -> Result OAuth2ServerMetadata;
    GetKeyset : string -> Result KeySet;
    genRandomKey : nat -> Result string;
    addIdentToCookie : string -> string -> Identity -> Result Cookie;
    addLoginToCookie : string -> string -> Login -> Result Cookie;
    setLoginCookieError : Cookie -> option string;
    returnUriMaxAge : Z }.

(** [GetJWKSet().Key(0)] *)
Definition Key0 (ks : list Key) : option Key := head ks.

Section Handlers.

Variable W : World.

(** *** Helpers of the repository that are not among the sources *)

(** Modelled from the spec: [claimFromToken] is declared in a file that is
    not among the sources.  Its call sites use the result as a [string];
    the model reads the claim of that name and yields the empty string for
    a claim that is absent or not a string. *)
Definition claimFromToken (claim : string) (token : Token) : string :=
  match token !! claim with
  | Some (VStr s) => s
  | _ => ""
  end.

(** Modelled from the spec: [clearCookie] is not among the sources.  Section
    4.6 has the server clear the cookie of a consumed envelope; the model
    sends the cookie of that name with an empty value and a negative
    [MaxAge], which deletes it on the user agent. *)
Definition clearCookie (cookieName : string) (w : ResponseWriter) : ResponseWriter :=
  SetCookie (MkCookie cookieName "" (-1)) w.

(** Modelled from the spec: [setJwtCookie] is not among the sources.  The
    envelope is signed with the first key of the key set and set as a
    cookie that lives as long as the envelope (sections 4.2 and 6); without
    a key, or when signing fails, the status is 500. *)
Definition setJwtCookie (token : Token) (cookieKey : string) (maxAge : Duration)
           (w : ResponseWriter) : ResponseWriter :=
  match Key0 (GetJWKSet W) with
  | None => WriteHeader 500 w
  | Some key =>
      match jwt_Sign W token key with
      | Err _ => WriteHeader 500 w
      | Ok signed => SetCookie (MkCookie cookieKey signed (maxAge / Second)) w
      end
  end.

(** Modelled from the spec: [setReturnUriCookie] is not among the sources.
    The cookie [<prefix>return_uri] holds the URI to come back to after an
    upstream login (sections 4.6 and 6); how long it lives is left to the
    world. *)
Definition setReturnUriCookie (returnUri : string) (w : ResponseWriter)
  : ResponseWriter :=
  SetCookie (MkCookie (GetPrefix W +:+ "return_uri") returnUri (returnUriMaxAge W)) w.

(** Modelled from the spec: [getReturnUriCookie] is not among the sources.
    It reads the cookie [<prefix>return_uri] of the request (section 4.5,
    step 5). *)
Definition getReturnUriCookie (r : Request) : Result string :=
  Request_Cookie r (GetPrefix W +:+ "return_uri").

(** Modelled from the spec: [deleteReturnUriCookie] is not among the
    sources.  The return-URI cookie is consumed (section 4.5, step 5): it is
    cleared like any other cookie. *)
Definition deleteReturnUriCookie (w : ResponseWriter) : ResponseWriter :=
  clearCookie (GetPrefix W +:+ "return_uri") w.

(** Modelled from the spec: [getJwtFromCookie] is not among the sources.
    It reads the cookie of that name from the request and parses it as an
    envelope against the public keys (section 4.2). *)
Definition getJwtFromCookie (cookieKey : string) (publicJwks : KeySet)
           (r : Request) : Result Token :=
  match Request_Cookie r cookieKey with
  | Err e => Err e
  | Ok v => jwt_Parse W v publicJwks
  end.

(** Modelled from the spec: [getLoginCookie] is not among the sources.  The
    session cookie is [<prefix>login_key] (sections 4.3 and 6). *)
Definition getLoginCookie (r : Request) : Result string :=
  Request_Cookie r (GetPrefix W +:+ "login_key").

(** Modelled from the spec: [setLoginCookie] is not among the sources.  It
    returns an error, which the world decides, and writes nothing, or it
    sends the session cookie (section 4.3). *)
Definition setLoginCookie (w : ResponseWriter) (cookie : Cookie)
  : ResponseWriter * option string :=
  match setLoginCookieError W cookie with
  | Some e => (w, Some e)
  | None => (SetCookie cookie w, None)
  end.

(** Modelled from the spec: [validUser] is not among the sources.  Section
    4.5 step 4: the email is in the allow-list of configured users. *)
Definition validUser (email : string) (users : list User) : bool :=
  existsb (fun u => String.eqb (uEmail u) email) users.

(** Modelled from the spec: [domainToUri] is not among the sources; the
    server is reached over https at the host of the request. *)
Definition domainToUri (host : string) : string := "https://" +:+ host.

(** *** [oidc.go] *)

(** [ParseAuthRequest]: the writer after the call, and the request or the
    error. *)
Definition ParseAuthRequest (w : ResponseWriter) (r : Request)
  : ResponseWriter * Result OAuth2AuthRequest :=
  let clientId := Form_Get r "client_id" in
  if String.eqb clientId "" then
    (WriteString "client_id missing" (WriteHeader 400 w), Err "client_id missing")
  else
  let redirectUri := Form_Get r "redirect_uri" in
  if String.eqb redirectUri "" then
    (WriteString "redirect_uri missing" (WriteHeader 400 w), Err "redirect_uri missing")
  else
  match url_Parse W clientId with
  | Err _ =>
      let msg := "client_id is not a valid URI" in
      (WriteString msg (WriteHeader 400 w), Err msg)
  | Ok parsedClientIdUri =>
  match url_Parse W redirectUri with
  | Err _ =>
      let msg := "redirect_uri is not a valid URI" in
      (WriteString msg (WriteHeader 400 w), Err msg)
  | Ok parsedRedirectUri =>
  if negb (String.eqb (uHost parsedClientIdUri) (uHost parsedRedirectUri)) then
    (WriteString "redirect_uri must be on the same domain as client_id"
                 (WriteHeader 400 w),
     Err "redirect_uri must be on the same domain as client_id")
  else
  let scope := Form_Get r "scope" in
  let state := Form_Get r "state" in
  let promptParam := Form_Get r "prompt" in
  if String.eqb promptParam "none" then
    let errUrl := redirectUri +:+ "?error=interaction_required&state=" +:+ state in
    (Redirect (Method r) errUrl StatusSeeOther w, Err "interaction required")
  else
  let responseType := Form_Get r "response_type" in
  if String.eqb responseType "" then
    let errUrl := redirectUri +:+ "?error=unsupported_response_type&state=" +:+ state in
    (Redirect (Method r) errUrl StatusSeeOther w, Err "unsupported_response_type")
  else
  let pkceCodeChallenge := Form_Get r "code_challenge" in
  (w, Ok (MkAuthRequest clientId redirectUri scope state responseType pkceCodeChallenge))
  end end.

(** [sort.Slice(previousLogins, ...)] with [Timestamp] descending; logins
    of equal timestamp keep their order. *)
Fixpoint insertLogin (l : Login) (sorted : list Login) : list Login :=
  match sorted with
  | [] => [l]
  | x :: rest =>
      if String.ltb (lTimestamp x) (lTimestamp l) then l :: x :: rest
      else x :: insertLogin l rest
  end.

Definition sortLogins (ls : list Login) : list Login := foldr insertLogin [] ls.

(** The inner loop of the [/auth] handler: is there a previous login of
    this identity? *)
Definition loggedInBefore (previousLogins : list Login) (ident : Identity) : bool :=
  existsb (fun login => String.eqb (lId login) (Id ident)
                        && String.eqb (lProviderName login) (ProviderName ident))
          previousLogins.

Definition tokenIdentities (parsed : Token) : option (list Identity) :=
  match Token_Get parsed "identities" with
  | Some (VIdents l) => Some l
  | _ => None
  end.

Definition tokenLogins (parsed : Token) : option (gmap string (list Login)) :=
  match Token_Get parsed "logins" with
  | Some (VLogins m) => Some m
  | _ => None
  end.

(** The handler of [/auth]. *)
Definition authHandler (publicJwks : KeySet) (w : ResponseWriter) (r : Request)
  : ResponseWriter :=
  let prefix := GetPrefix W in
  let loginKeyName := prefix +:+ "login_key" in
  match ParseAuthRequest w r with
  | (w, Err _) => w
  | (w, Ok ar) =>
  let '(identities, logins, hashedLoginKey) :=
    match Request_Cookie r loginKeyName with
    | Ok value =>
        if negb (String.eqb value "") then
          let hashed := Hash W value in
          match jwt_Parse W value publicJwks with
          | Err _ => ([], ∅, hashed)
          | Ok parsed =>
              (default [] (tokenIdentities parsed),
               default ∅ (tokenLogins parsed),
               hashed)
          end
        else ([], ∅, "")
    | Err _ => ([], ∅, "")
    end in
  let previousLogins := sortLogins (default [] (logins !! arClientId ar)) in
  let remainingIdents :=
    List.filter (fun ident => negb (loggedInBefore previousLogins ident)) identities in
  let maxAge := 8 * Minute in
  let issuedAt := now W in
  match Build (Claim "response_type" (VStr (arResponseType ar))
              (Claim "pkce_code_challenge" (VStr (Form_Get r "code_challenge"))
              (Claim "nonce" (VStr (Form_Get r "nonce"))
              (Claim "scope" (VStr (Form_Get r "scope"))
              (Claim "state" (VStr (arState ar))
              (Claim "redirect_uri" (VStr (arRedirectUri ar))
              (Claim "client_id" (VStr (arClientId ar))
              (Claim "login_key_hash" (VStr hashedLoginKey)
              (Expiration (Time_Add issuedAt maxAge)
              (IssuedAt issuedAt NewBuilder)))))))))) with
  | Err e => WriteString e (WriteHeader 500 w)
  | Ok authRequestJwt =>
  let w := setJwtCookie authRequestJwt (prefix +:+ "auth_request") maxAge w in
  match GetOAuth2Providers W with
  | Err e => WriteString e (WriteHeader 500 w)
  | Ok providers =>
  let canEmail := match GetSmtpConfig W with Ok _ => true | Err _ => false end in
  match url_Parse W (arClientId ar) with
  | Err e => WriteString e (WriteHeader 400 w)
  | Ok parsedClientId =>
  let returnUri := URLPath r +:+ "?" +:+ RawQuery r in
  let data :=
    MkAuthData (GetRootUri W) (GetDisplayName W) (uHost parsedClientId)
               identities remainingIdents previousLogins providers
               (providerLogoMap W) "" canEmail returnUri in
  let w := setReturnUriCookie returnUri w in
  match ExecuteTemplate W "auth.html" data with
  | Err e => WriteString e (WriteHeader 500 w)
  | Ok page => WriteString page w
  end end end end
  end.

(** The loop over [scopeParts] of the [/approve] handler sets a flag when
    a part is the given word. *)
Definition scopeRequested (word : string) (scopeParts : list string) : bool :=
  existsb (fun scopePart => String.eqb scopePart word) scopeParts.

(** The ID token the [/approve] handler builds (from [scope := ...] to
    the conditional [Name] claim), as a function of the submitted
    [identity_id], the parsed AuthRequest envelope and the identity found
    in the session. *)
Definition approveIdToken (identId : string) (parsedAuthReq : Token)
           (ident : Identity) : Token :=
  let clientId := claimFromToken "client_id" parsedAuthReq in
  let scope := claimFromToken "scope" parsedAuthReq in
  let scopeParts := Split scope " " in
  let emailRequested := scopeRequested "email" scopeParts in
  let profileRequested := scopeRequested "profile" scopeParts in
  let issuedAt := now W in
  let expiresAt := Time_Add issuedAt (24 * Hour) in
  let idTokenBuilder :=
    Claim "nonce" (VStr (claimFromToken "nonce" parsedAuthReq))
      (Expiration expiresAt
      (IssuedAt issuedAt
      (Issuer (GetRootUri W)
      (Audience [clientId]
      (Subject identId NewBuilder))))) in
  let idTokenBuilder :=
    if emailRequested
    then BEmailVerified (EmailVerified ident) (BEmail (Email ident) idTokenBuilder)
    else idTokenBuilder in
  let idTokenBuilder :=
    if profileRequested && negb (String.eqb (Name ident) "")
    then BName (Name ident) idTokenBuilder
    else idTokenBuilder in
  idTokenBuilder.

(** The authorization code the [/approve] handler builds, before it is
    signed. *)
Definition approveCode (parsedAuthReq idToken : Token) (signedIdToken : string)
  : Token :=
  let issuedAt := now W in
  Claim "pkce_code_challenge"
        (VStr (claimFromToken "pkce_code_challenge" parsedAuthReq))
    (Claim "id_token" (VStr signedIdToken)
    (Subject (Token_Email idToken)
    (Expiration (Time_Add issuedAt (16 * Second))
    (IssuedAt issuedAt NewBuilder)))).

(** The handler of [/approve].  [capturedErr] is the variable [err] of
    [NewOIDCHandler] that the closure captures: [nil] unless a request to
    [/register] left an error in it.  The Go variable [identity] is
    [selected] before the [nil] test and [ident] after it; the two tokens
    are built by [approveIdToken] and [approveCode]. *)
Definition approveHandler (publicJwks : KeySet) (capturedErr : option string)
           (w : ResponseWriter) (r : Request) : Run ResponseWriter :=
  let prefix := GetPrefix W in
  let loginKeyName := prefix +:+ "login_key" in
  if negb (String.eqb (Method r) "POST") then
    let w := WriteHeader 405 w in
    match capturedErr with
    | None => Panicked "invalid memory address or nil pointer dereference"
    | Some e => Returned (WriteString e w)
    end
  else
  match Request_Cookie r loginKeyName with
  | Err _ =>
      Returned (WriteString "Only logged-in users can access this endpoint"
                            (WriteHeader 401 w))
  | Ok loginKeyValue =>
  match jwt_Parse W loginKeyValue publicJwks with
  | Err e => Returned (WriteString e (WriteHeader 401 w))
  | Ok parsedLoginKey =>
  let w := clearCookie (prefix +:+ "auth_request") w in
  match getJwtFromCookie (prefix +:+ "auth_request") publicJwks r with
  | Err e => Returned (WriteString e (WriteHeader 401 w))
  | Ok parsedAuthReq =>
  let identId := Form_Get r "identity_id" in
  let selected :=
    match tokenIdentities parsedLoginKey with
    | Some tokIdents => List.find (fun ident => String.eqb (Id ident) identId) tokIdents
    | None => None
    end in
  match selected with
  | None =>
      Returned (WriteString "You don't have permissions for this identity"
                            (WriteHeader 403 w))
  | Some ident =>
  let clientId := claimFromToken "client_id" parsedAuthReq in
  let newLogin := MkLogin "email" (Id ident) (ProviderName ident) "" in
  match addLoginToCookie W loginKeyValue clientId newLogin with
  | Err _ => Returned (WriteHeader 500 w)
  | Ok newLoginCookie =>
  let w := SetCookie newLoginCookie w in
  match Build (approveIdToken identId parsedAuthReq ident) with
  | Err _ => Returned (WriteHeader 500 w)
  | Ok idToken =>
  match Key0 (GetJWKSet W) with
  | None => Returned (WriteHeader 500 w)
  | Some key =>
  match jwt_Sign W idToken key with
  | Err _ => Returned (WriteHeader 500 w)
  | Ok signedIdToken =>
  match Build (approveCode parsedAuthReq idToken signedIdToken) with
  | Err e => Returned (WriteString e (WriteHeader 500 w))
  | Ok codeJwt =>
  match jwt_Sign W codeJwt key with
  | Err e => Returned (WriteString e (WriteHeader 400 w))
  | Ok signedCode =>
  let responseType := claimFromToken "response_type" parsedAuthReq in
  if String.eqb responseType "none" then
    let redirectUri := claimFromToken "redirect_uri" parsedAuthReq in
    Returned (Redirect (Method r) redirectUri StatusSeeOther w)
  else
    let url :=
      claimFromToken "redirect_uri" parsedAuthReq
      +:+ "?client_id=" +:+ claimFromToken "client_id" parsedAuthReq
      +:+ "&redirect_uri=" +:+ claimFromToken "redirect_uri" parsedAuthReq
      +:+ "&code=" +:+ signedCode
      +:+ "&state=" +:+ claimFromToken "state" parsedAuthReq
      +:+ "&scope=" +:+ claimFromToken "scope" parsedAuthReq in
    Returned (Redirect (Method r) url StatusSeeOther w)
  end end end end end end end end end end.

(** The handler of [/token]. *)
Definition tokenHandler (publicJwks : KeySet) (w : ResponseWriter) (r : Request)
  : ResponseWriter :=
  let codeJwt := Form_Get r "code" in
  match jwt_Parse W codeJwt publicJwks with
  | Err e => WriteString e (WriteHeader 401 w)
  | Ok parsedCodeJwt =>
  match Token_Get parsedCodeJwt "id_token" with
  | None => WriteString "Invalid id_token in code" (WriteHeader 401 w)
  | Some signedIdTokenIface =>
  match signedIdTokenIface with
  | VStr signedIdToken =>
  match Token_Get parsedCodeJwt "pkce_code_challenge" with
  | None => WriteString "Invalid pkce_code_challenge in code" (WriteHeader 401 w)
  | Some pkceCodeChallenge =>
  let issue :=
    match Key0 (GetJWKSet W) with
    | None => WriteHeader 500 w
    | Some key =>
    let issuedAt := now W in
    match Build (Subject (Token_Subject parsedCodeJwt)
                (Expiration (Time_Add issuedAt (16 * Second))
                (IssuedAt issuedAt NewBuilder))) with
    | Err e => WriteString e (WriteHeader 400 w)
    | Ok accessTokenJwt =>
    match jwt_Sign W accessTokenJwt key with
    | Err e => WriteString e (WriteHeader 400 w)
    | Ok signedAccessToken =>
    let w := Header_Set "Access-Control-Allow-Origin" (HText "*") w in
    let w := Header_Set "Content-Type" (HText "application/json;charset=UTF-8") w in
    let w := Header_Set "Cache-Control" (HText "no-store") w in
    let tokenRes := MkTokenResponse signedAccessToken "bearer" 3600 signedIdToken in
    Write (BTokenResponse tokenRes) w
    end end end in
  let pkceCodeVerifier := Form_Get r "code_verifier" in
  if negb (ifaceIsString pkceCodeChallenge "") then
    let challenge := GeneratePKCECodeChallenge pkceCodeVerifier in
    if negb (ifaceIsString pkceCodeChallenge challenge) then
      WriteString "Invalid code_verifier" (WriteHeader 401 w)
    else issue
  else
    if negb (String.eqb pkceCodeVerifier "") then
      WriteString
        "code_verifier provided for request that did not include code_challenge"
        (WriteHeader 401 w)
    else issue
  end
  | _ => WriteString "Invalid id_token in code" (WriteHeader 401 w)
  end end end.

(** *** [obligator.go] *)

Definition checkErrPassthrough (err : string) (passthrough : bool)
  : Result (option Validation) :=
  if passthrough then Ok None else Err err.

(** [validate]: [(nil, nil)] is [Ok None]; the index expression
    [tokIdents[0]] panics on an empty slice. *)
Definition validate (r : Request) : Run (Result (option Validation)) :=
  let passthrough := GetForwardAuthPassthrough W in
  let loginKeyName := GetPrefix W +:+ "login_key" in
  match Request_Cookie r loginKeyName with
  | Err e => Returned (checkErrPassthrough e passthrough)
  | Ok loginKeyValue =>
  match PublicSetOf W (GetJWKSet W) with
  | Err e => Returned (checkErrPassthrough e passthrough)
  | Ok publicJwks =>
  match jwt_Parse W loginKeyValue publicJwks with
  | Err e => Returned (checkErrPassthrough e passthrough)
  | Ok parsed =>
  match Token_Get parsed "identities" with
  | None => Returned (checkErrPassthrough "No identities" passthrough)
  | Some tokIdentsInterface =>
  match tokIdentsInterface with
  | VIdents tokIdents =>
      match tokIdents !! 0%nat with
      | None => Panicked "index out of range [0] with length 0"
      | Some ident => Returned (Ok (Some (MkValidation (Id ident) (IdType ident))))
      end
  | _ => Returned (checkErrPassthrough "No identities" passthrough)
  end end end end end.

(** *** The upstream OAuth2 login handlers *)

(** [http.NewRequest]: an error for a method or URL the library refuses,
    the request otherwise. *)
Definition NewRequest (method url : string) (body : list (string * string))
  : Result HttpRequest :=
  match http_NewRequestError W method url with
  | Some e => Err e
  | None => Ok (MkHttpRequest method url [] body)
  end.

Definition Request_Header_Add (k v : string) (req : HttpRequest) : HttpRequest :=
  MkHttpRequest (hMethod req) (hURL req) (hHeader req ++ [(k, v)]) (hBody req).

(** [GetProfile] returns three values: the provider URI, the email and the
    error.  Every error return has the empty string for the first two. *)
Definition GetProfile (provider : OAuth2Provider) (accessToken : string)
  : string * string * option string :=
  let unknown := ("", "", Some "Unknown GetProfile error") in
  if String.eqb (pID provider) "github" then
    match NewRequest "GET" "https://api.github.com/user/emails" [] with
    | Err e => ("", "", Some e)
    | Ok req =>
    let req := Request_Header_Add "Authorization" ("Bearer " +:+ accessToken) req in
    match http_Do W req with
    | Err e => ("", "", Some e)
    | Ok resp =>
    if negb (StatusCode resp =? 200) then ("", "", Some "Bad status getting profile")
    else
    match decodeGitHubEmails W (RespBody resp) with
    | Err e => ("", "", Some e)
    | Ok profileResponse =>
    match List.find gPrimary profileResponse with
    | Some email => (pURI provider, gEmail email, None)
    | None => unknown
    end end end end
  else unknown.

(** The handler of [/login-oauth2]. *)
Definition loginOauth2Handler (w : ResponseWriter) (r : Request)
  : Run ResponseWriter :=
  let prefix := GetPrefix W in
  let oauth2ProviderId := Form_Get r "oauth2_provider_id" in
  match GetOAuth2ProviderByID W oauth2ProviderId with
  | Err e => Returned (WriteString e (WriteHeader 500 w))
  | Ok provider =>
  let scope :=
    if negb (String.eqb (pScope provider) "") then pScope provider
    else "openid email profile" in
  let authURLOrErr :=
    if pOpenIDConnect provider then
      match GetMeta W (pID provider) with
      | Err e => Err e
      | Ok meta => Ok (mAuthorizationEndpoint meta)
      end
    else Ok (pAuthorizationURI provider) in
  match authURLOrErr with
  | Err e => Returned (WriteString e (WriteHeader 500 w))
  | Ok authURL =>
  match GeneratePKCEData (rand_Int W) with
  | Panicked m => Panicked m
  | Returned (Err e) => Returned (WriteString e (WriteHeader 500 w))
  | Returned (Ok (pkceCodeChallenge, pkceCodeVerifier)) =>
  match genRandomKey W 0 with
  | Err _ => Returned (WriteString "Failed to generate state" (WriteHeader 500 w))
  | Ok state =>
  match genRandomKey W 1 with
  | Err _ => Returned (WriteString "Failed to generate nonce" (WriteHeader 500 w))
  | Ok nonce =>
  let issuedAt := now W in
  let maxAge := 8 * Minute in
  match Build (Claim "pkce_code_verifier" (VStr pkceCodeVerifier)
              (Claim "nonce" (VStr nonce)
              (Claim "state" (VStr state)
              (Claim "provider_id" (VStr (pID provider))
              (Expiration (Time_Add issuedAt maxAge)
              (IssuedAt issuedAt NewBuilder)))))) with
  | Err e => Returned (WriteString e (WriteHeader 500 w))
  | Ok reqJwt =>
  let w := setJwtCookie reqJwt (prefix +:+ "upstream_oauth2_request") maxAge w in
  let callbackUri := domainToUri (Host r) +:+ "/callback" in
  let clientId :=
    if negb (String.eqb (pClientID provider) "") then pClientID provider
    else domainToUri (Host r) in
  let url :=
    authURL +:+ "?client_id=" +:+ clientId
    +:+ "&redirect_uri=" +:+ callbackUri
    +:+ "&state=" +:+ state
    +:+ "&scope=" +:+ scope
    +:+ "&response_type=code&code_challenge_method=S256&code_challenge="
    +:+ pkceCodeChallenge
    +:+ "&nonce=" +:+ nonce +:+ "&prompt=consent" in
  Returned (Redirect (Method r) url StatusSeeOther w)
  end end end end end end.

(** The form the [/callback] handler posts to the token endpoint of the
    provider ([body := url.Values{}] and the six [body.Set]). *)
Definition exchangeBody (r : Request) (parsedUpstreamAuthReq : Token)
           (oauth2Provider : OAuth2Provider) : list (string * string) :=
  let providerCode := Form_Get r "code" in
  let callbackUri := domainToUri (Host r) +:+ "/callback" in
  [("code", providerCode);
   ("client_id", pClientID oauth2Provider);
   ("client_secret", pClientSecret oauth2Provider);
   ("redirect_uri", callbackUri);
   ("grant_type", "authorization_code");
   ("code_verifier", claimFromToken "pkce_code_verifier" parsedUpstreamAuthReq)].

(** The choice of [tokenEndpoint] in the [/callback] handler: the metadata
    of an OIDC provider, except for [facebook]; the configured URI
    otherwise. *)
Definition tokenEndpointOf (oauth2Provider : OAuth2Provider) : Result string :=
  if pOpenIDConnect oauth2Provider then
    if String.eqb (pID oauth2Provider) "facebook" then Ok (pTokenURI oauth2Provider)
    else match GetMeta W (pID oauth2Provider) with
         | Err e => Err e
         | Ok meta => Ok (mTokenEndpoint meta)
         end
  else Ok (pTokenURI oauth2Provider).

(** The request of the exchange, with its two headers. *)
Definition exchangeRequest (tokenEndpoint : string) (body : list (string * string))
  : Result HttpRequest :=
  match NewRequest "POST" tokenEndpoint body with
  | Err e => Err e
  | Ok upstreamReq =>
      Ok (Request_Header_Add "Accept" "application/json"
            (Request_Header_Add "Content-Type" "application/x-www-form-urlencoded"
                                upstreamReq))
  end.

(** The handler of [/callback].  [finish] is the part of the handler after
    the [if oauth2Provider.OpenIDConnect { ... } else { ... }] statement,
    with the [email] and [name] that statement leaves; the request to the
    token endpoint is put together by [exchangeBody], [tokenEndpointOf]
    and [exchangeRequest]. *)
Definition callbackHandler (w : ResponseWriter) (r : Request) : ResponseWriter :=
  let prefix := GetPrefix W in
  match Request_Cookie r (prefix +:+ "upstream_oauth2_request") with
  | Err e => WriteString e (WriteHeader 500 w)
  | Ok upstreamAuthReqCookie =>
  match ParseJWT W upstreamAuthReqCookie with
  | Err e => WriteString e (WriteHeader 500 w)
  | Ok parsedUpstreamAuthReq =>
  match GetOAuth2ProviderByID W (claimFromToken "provider_id" parsedUpstreamAuthReq) with
  | Err e => WriteString e (WriteHeader 500 w)
  | Ok oauth2Provider =>
  let body := exchangeBody r parsedUpstreamAuthReq oauth2Provider in
  match tokenEndpointOf oauth2Provider with
  | Err e => WriteString e (WriteHeader 500 w)
  | Ok tokenEndpoint =>
  match exchangeRequest tokenEndpoint body with
  | Err _ => WriteHeader 500 w
  | Ok upstreamReq =>
  match http_Do W upstreamReq with
  | Err _ => WriteHeader 500 w
  | Ok resp =>
  if negb (StatusCode resp =? 200) then WriteHeader 500 w
  else
  match decodeTokenResponse W (RespBody resp) with
  | Err _ => WriteHeader 500 w
  | Ok tokenRes =>
  let finish (email name : string) : ResponseWriter :=
    match GetUsers W with
    | Err _ => WriteHeader 500 w
    | Ok users =>
    match getReturnUriCookie r with
    | Err _ => WriteHeader 500 w
    | Ok returnUri =>
    match GetConfig W with
    | Err _ => WriteHeader 500 w
    | Ok config =>
    if negb (cfgPublic config) && negb (validUser email users) then
      let redirUrl := domainToUri (Host r) +:+ "/no-account?" +:+ returnUri in
      Redirect (Method r) redirUrl StatusSeeOther w
    else
    let w := deleteReturnUriCookie w in
    let cookieValue :=
      match getLoginCookie r with
      | Ok value => value
      | Err _ => ""
      end in
    let newIdent :=
      MkIdentity "email" email (pName oauth2Provider) name email true in
    match addIdentToCookie W (Host r) cookieValue newIdent with
    | Err _ => WriteHeader 500 w
    | Ok cookie =>
    match setLoginCookie w cookie with
    | (w, Some _) => WriteHeader 500 w
    | (w, None) =>
    let redirUrl := returnUri in
    let w := clearCookie (prefix +:+ "upstream_oauth2_request") w in
    Redirect (Method r) redirUrl StatusSeeOther w
    end end end end end in
  if pOpenIDConnect oauth2Provider then
    match GetKeyset W (pID oauth2Provider) with
    | Err _ => WriteHeader 500 w
    | Ok keyset =>
    match jwt_ParseOpenID W (IdToken tokenRes) keyset with
    | Err _ => WriteHeader 500 w
    | Ok providerOauth2Token =>
    if negb (ptIsOpenID providerOauth2Token) then WriteHeader 500 w
    else
    let providerOidcToken := ptClaims providerOauth2Token in
    match Token_Get providerOidcToken "nonce" with
    | None => WriteHeader 400 w
    | Some nonceClaim =>
    match nonceClaim with
    | VStr nonce =>
        if negb (String.eqb (claimFromToken "nonce" parsedUpstreamAuthReq) nonce)
        then WriteHeader 403 w
        else
        let email := Token_Email providerOidcToken in
        let name := Token_Name providerOidcToken in
        finish email name
    | _ => WriteHeader 400 w
    end end end end
  else
    let '(_, email, _) := GetProfile oauth2Provider (AccessToken tokenRes) in
    finish email ""
  end end end end end end end.

End Handlers.

(** ** A small world to run the handlers in

    A server with prefix [obligator_] and one signing key, whose envelopes
    are given as a table from cookie or code strings to their claims, and
    whose upstream providers answer as a table from URLs to responses.  The
    examples at the end of the file run the handlers in it. *)

Module Demo.

Fixpoint assoc {A : Type} (k : string) (table : list (string * A)) : option A :=
  match table with
  | [] => None
  | (k', v) :: rest => if String.eqb k' k then Some v else assoc k rest
  end.

Definition orErr {A : Type} (msg : string) (o : option A) : Result A :=
  match o with
  | Some a => Ok a
  | None => Err msg
  end.

(** The host of an absolute URI: what lies between [://] and the next
    slash. *)
Fixpoint afterScheme (s : string) : string :=
  match s with
  | String ":" (String "/" (String "/" rest)) => rest
  | String _ rest => afterScheme rest
  | EmptyString => EmptyString
  end.

Fixpoint untilSlash (s : string) : string :=
  match s with
  | String "/" _ => EmptyString
  | String c rest => String c (untilSlash rest)
  | EmptyString => EmptyString
  end.

Definition hostOf (uri : string) : string := untilSlash (afterScheme uri).

Definition google : OAuth2Provider :=
  MkProvider "google" "Google" "https://accounts.google.com" "client-1" "secret-1"
             true "" "" "".

Definition github : OAuth2Provider :=
  MkProvider "github" "GitHub" "https://github.com" "client-2" "secret-2"
             false "https://github.com/login/oauth/authorize"
             "https://github.com/login/oauth/access_token" "user:email".

Definition googleMeta : OAuth2ServerMetadata :=
  MkMetadata "https://accounts.google.com" "https://accounts.google.com/auth"
             "https://accounts.google.com/token" "" "https://accounts.google.com/jwks"
             [] [] [] [] [] "" [] "".

Definition alice : Identity :=
  MkIdentity "email" "alice@example.com" "Google" "Alice" "alice@example.com" true.

Definition world (public : bool)
           (envelopes : list (string * Token))
           (providerTokens : list (string * ParsedToken))
           (upstream : list (string * HttpResponse)) : World :=
  {| GetPrefix := "obligator_";
     GetRootUri := "https://auth.example";
     GetDisplayName := "obligator";
     GetJWKSet := ["key-1"];
     GetOAuth2Providers := Ok [google; github];
     GetSmtpConfig := Err "no SMTP configuration";
     GetForwardAuthPassthrough := false;
     GetOAuth2ProviderByID :=
       fun id => orErr "no such provider"
                   (assoc id [("google", google); ("github", github)]);
     GetUsers := Ok [MkUser "alice@example.com"];
     GetConfig := Ok (MkConfig public);
     PublicSetOf := fun ks => Ok ks;
     jwt_Parse := fun s _ => orErr "failed to verify" (assoc s envelopes);
     jwt_ParseOpenID := fun s _ => orErr "failed to verify" (assoc s providerTokens);
     jwt_Sign := fun t k => Ok ("signed(" +:+ Token_Subject t +:+ ")");
     now := 1700000000 * Second;
     url_Parse := fun s => Ok (MkURL (hostOf s));
     ExecuteTemplate := fun _ _ => Ok "<html>";
     providerLogoMap := ∅;
     rand_Int := fun i max => Ok (Z.of_nat i mod max);
     http_NewRequestError := fun _ _ => None;
     http_Do := fun req => orErr "connection refused" (assoc (hURL req) upstream);
     decodeTokenResponse := fun b => Ok (MkTokenResponse "access-1" "bearer" 3600 b);
     decodeGitHubEmails := fun b => Ok [MkGitHubEmail b true true];
     Hash := fun s => "hash(" +:+ s +:+ ")";
     ParseJWT := fun s => orErr "failed to verify" (assoc s envelopes);
     GetMeta := fun id => orErr "no metadata" (assoc id [("google", googleMeta)]);
     GetKeyset := fun _ => Ok ["provider-key"];
     genRandomKey := fun i => Ok (match i with O => "state-1" | _ => "nonce-1" end);
     addIdentToCookie :=
       fun _ cookieValue ident =>
         Ok (MkCookie "obligator_login_key"
                  (cookieValue +:+ "+[" +:+ Id ident +:+ "]") 86400);
     addLoginToCookie :=
       fun cookieValue clientId _ =>
         Ok (MkCookie "obligator_login_key" (cookieValue +:+ "@" +:+ clientId) 86400);
     setLoginCookieError := fun _ => None;
     returnUriMaxAge := 480 |}.

Definition request (method : string) (form : list (string * string))
           (cookies : list (string * string)) : Request :=
  MkRequest method "auth.example" "/" ""
            (list_to_map (map (fun kv => (fst kv, [snd kv])) form)) cookies.

(** The session of Alice, an AuthRequest envelope of the relying party
    [rp.example] with the given scope, and the UpstreamRequest envelopes of
    a login at Google and at GitHub. *)
Definition session : Token := {[ "identities" := VIdents [alice] ]}.
Definition emptySession : Token := {[ "identities" := VIdents [] ]}.

Definition authRequest (scope : string) : Token :=
  list_to_map
    [("client_id", VStr "https://rp.example");
     ("redirect_uri", VStr "https://rp.example/cb");
     ("state", VStr "S1"); ("scope", VStr scope); ("nonce", VStr "N1");
     ("pkce_code_challenge", VStr "C1"); ("response_type", VStr "code")].

Definition upstreamRequest (provider state : string) : Token :=
  Claim "pkce_code_verifier" (VStr "verifier-1")
    (Claim "nonce" (VStr "nonce-1")
    (Claim "state" (VStr state)
    (Claim "provider_id" (VStr provider) NewBuilder))).

Definition providerToken (nonce : Value) : ParsedToken :=
  MkParsed (list_to_map [("nonce", nonce); ("email", VStr "alice@example.com")]) true.

Definition code (challenge : string) : Token :=
  list_to_map
    [("sub", VStr "alice@example.com"); ("id_token", VStr "id-token-1");
     ("pkce_code_challenge", VStr challenge)].

End Demo.

(** ** Predicates of the statements, and tactics *)

(** Every byte of the string is an unreserved character. *)
Definition all_unreserved (s : string) : Prop :=
  forall c, In c (list_ascii_of_string s) -> unreserved c = true.

(** A cookie is queued when it is in the header map of a writer that has
    not sent its header yet; it is then part of whatever response follows. *)
Definition queued (c : Cookie) (w : ResponseWriter) : Prop :=
  wrote w = None /\ In ("Set-Cookie", HCookie c) (header w).

(** The request to [/callback] comes back from an OIDC provider and every
    step before the check of the nonce goes through: the UpstreamRequest
    cookie verifies to [stored], the provider is found and is an OIDC
    provider, the exchange at its token endpoint answers 200 with a token
    response, and the ID token in it verifies against the key set of the
    provider to the claims [idToken]. *)
Definition reachesNonceCheck (W : World) (r : Request) (stored idToken : Token) : Prop :=
  exists cookie provider tokenEndpoint upstreamReq resp tokenRes keyset,
    Request_Cookie r (GetPrefix W +:+ "upstream_oauth2_request") = Ok cookie
    /\ ParseJWT W cookie = Ok stored
    /\ GetOAuth2ProviderByID W (claimFromToken "provider_id" stored) = Ok provider
    /\ pOpenIDConnect provider = true
    /\ tokenEndpointOf W provider = Ok tokenEndpoint
    /\ exchangeRequest W tokenEndpoint (exchangeBody r stored provider) = Ok upstreamReq
    /\ http_Do W upstreamReq = Ok resp
    /\ StatusCode resp = 200
    /\ decodeTokenResponse W (RespBody resp) = Ok tokenRes
    /\ GetKeyset W (pID provider) = Ok keyset
    /\ jwt_ParseOpenID W (IdToken tokenRes) keyset = Ok (MkParsed idToken true).

(** Two envelopes with the same claims, except perhaps [state]. *)
Definition agreeExceptState (t1 t2 : Token) : Prop :=
  forall claim, claim <> "state" -> t1 !! claim = t2 !! claim.

(** The UpstreamRequest cookies of two requests: both absent, or both
    refused with the same error, or both verified, to envelopes that agree
    except on [state]. *)
Definition sameEnvelopeExceptState (W : World) (c1 c2 : Result string) : Prop :=
  match c1, c2 with
  | Ok v1, Ok v2 =>
      match ParseJWT W v1, ParseJWT W v2 with
      | Ok t1, Ok t2 => agreeExceptState t1 t2
      | Err e1, Err e2 => e1 = e2
      | _, _ => False
      end
  | Err e1, Err e2 => e1 = e2
  | _, _ => False
  end.

(** Two requests to [/callback] that are the same except for the value of
    the query parameter [state] and for the [state] claim of the envelope in
    the UpstreamRequest cookie.  (The raw query, which spells the parameter
    out, is left free.) *)
Definition sameExceptState (W : World) (r1 r2 : Request) : Prop :=
  Method r1 = Method r2
  /\ Host r1 = Host r2
  /\ (forall key, key <> "state" -> Form r1 !! key = Form r2 !! key)
  /\ (forall name, name <> GetPrefix W +:+ "upstream_oauth2_request" ->
                   Request_Cookie r1 name = Request_Cookie r2 name)
  /\ sameEnvelopeExceptState W
       (Request_Cookie r1 (GetPrefix W +:+ "upstream_oauth2_request"))
       (Request_Cookie r2 (GetPrefix W +:+ "upstream_oauth2_request")).

(** The claims of the two tokens of [/approve] are read off the builders:
    unfold them, split on the two conditions of the optional claims, and
    look the claim up. *)
Ltac open_id_token ident :=
  unfold approveIdToken, BName, BEmailVerified, BEmail, Expiration, IssuedAt,
    Issuer, Audience, Subject, Claim, NewBuilder, Time_Add;
  destruct (scopeRequested "email" _);
  destruct (scopeRequested "profile" _ && negb (String.eqb (Name ident) ""));
  simplify_map_eq; reflexivity.

Ltac open_code :=
  unfold approveCode, Expiration, IssuedAt, Subject, Claim, NewBuilder, Time_Add;
  simplify_map_eq; reflexivity.

(** ** The rest of the sources

    The handlers and functions of the four files that the sections above
    leave out.  What they need beyond [World] is in [Outside]: the JSON
    codec of the requests and responses, the address of the peer, the
    insecure parse and the key cache of the FedCM login, the helpers that
    read and extend the session, and the two stores of domains. *)

(** [OIDCRegistrationRequest] and [OIDCRegistrationResponse] of [oidc.go],
    [UserinfoResponse] of [obligator.go]. *)
Record OIDCRegistrationRequest : Type := MkRegistrationRequest
  { RedirectUris : list string }.

Record OIDCRegistrationResponse : Type := MkRegistrationResponse
  { rrClientId : string }.

Record UserinfoResponse : Type := MkUserinfo
  { uiSub : string;
    uiEmail : string }.

(** A request with what [Request] leaves out: the header (canonical keys)
    and the body. *)
Record Incoming : Type := MkIncoming
  { inRequest : Request;
    inHeader : list (string * string);
    inBody : string }.

(** [r.Header.Get(key)]: the first value of the key, or the empty string. *)
Fixpoint Header_Get (h : list (string * string)) (key : string) : string :=
  match h with
  | [] => ""
  | (k, v) :: rest => if String.eqb k key then v else Header_Get rest key
  end.

Record Outside : Type := MkOutside
  { (* encoding/json *)
    decodeRegistrationRequest : string -> Result OIDCRegistrationRequest;
    encodeRegistrationResponse : OIDCRegistrationResponse -> string;
    encodeUserinfoResponse : UserinfoResponse -> string;
    decodeMetadata : string -> Result OAuth2ServerMetadata;
    (* net/http and the jwx key cache *)
    http_Get : string -> Result HttpResponse;
    cache_Register : string -> option string;
    cache_Refresh : string -> Result KeySet;
    jwt_ParseInsecure : string -> Result Token;
    (* helpers of the repository declared outside the sources *)
    getRemoteIp : Request -> bool -> Result string;
    getIdentities : Request -> list Identity;
    addIdentityToCookie : string -> string -> string -> string -> bool -> Result Cookie;
    (* the database and the reverse proxy *)
    db_AddDomain : string -> string -> option string;
    proxy_AddDomain : string -> option string }.

(** [token.Issuer()] *)
Definition Token_Issuer (t : Token) : string :=
  match t !! "iss" with
  | Some (VStr s) => s
  | _ => ""
  end.

Section MoreHandlers.

Variable W : World.
Variable O : Outside.

(** *** [oidc.go]: [/register] and [/userinfo] *)

(** The handler of [/register].  The first assignment of the decoding error
    is to the variable [err] of [NewOIDCHandler], which the handler of
    [/approve] reads: the second component is the value the request leaves
    in that variable. *)
Definition registerHandler (w : ResponseWriter) (r : Incoming)
  : ResponseWriter * option string :=
  match decodeRegistrationRequest O (inBody r) with
  | Err e => (WriteHeader 400 w, Some e)
  | Ok regReq =>
  match RedirectUris regReq with
  | [] => (WriteString "Need at least one redirect_uri" (WriteHeader 400 w), None)
  | first :: _ =>
  match url_Parse W first with
  | Err e => (WriteString e (WriteHeader 400 w), None)
  | Ok parsedClientIdUrl =>
  let clientId := "https://" +:+ uHost parsedClientIdUrl in
  let w := Header_Set "Content-Type" (HText "application/json;charset=UTF-8") w in
  let w := WriteHeader 201 w in
  let resp := MkRegistrationResponse clientId in
  (Write (BText (encodeRegistrationResponse O resp)) w, None)
  end end end.

(** The handler of [/userinfo]. *)
Definition userinfoHandler (publicJwks : KeySet) (w : ResponseWriter) (r : Incoming)
  : ResponseWriter :=
  let authHeader := Header_Get (inHeader r) "Authorization" in
  let parts := Split authHeader " " in
  match parts with
  | [_; accessToken] =>
      match jwt_Parse W accessToken publicJwks with
      | Err e => WriteString e (WriteHeader 401 w)
      | Ok parsed =>
      let w := Header_Set "Content-Type" (HText "application/json;charset=UTF-8") w in
      let userResponse := MkUserinfo (Token_Subject parsed) (Token_Subject parsed) in
      Write (BText (encodeUserinfoResponse O userResponse)) w
      end
  | _ => WriteString "Invalid Authorization header" (WriteHeader 400 w)
  end.

(** *** [obligator.go]: the mux and [/add-domain] *)

(** [ObligatorMux.ServeHTTP]: the two headers of every response, the
    address of the peer, then the handler the inner mux finds for the
    request. *)
Definition ObligatorMux_ServeHTTP (behindProxy : bool)
           (mux : ResponseWriter -> Request -> Run ResponseWriter)
           (w : ResponseWriter) (r : Request) : Run ResponseWriter :=
  let w := Header_Set "Content-Security-Policy" (HText "frame-ancestors 'none'") w in
  let w := Header_Set "Referrer-Policy" (HText "no-referrer") w in
  match getRemoteIp O r behindProxy with
  | Err e => Returned (WriteString e (WriteHeader 500 w))
  | Ok remoteIp => mux w r
  end.

(** What the handler of [/add-domain] does outside the response. *)
Inductive DomainCall : Type :=
| DbAddDomain (domain ownerId : string)
| ProxyAddDomain (domain : string).

(** The handler of [/add-domain]: the response, and the calls made to the
    database and to the proxy, in order. *)
Definition addDomainHandler (w : ResponseWriter) (r : Request)
  : ResponseWriter * list DomainCall :=
  let domain := Form_Get r "domain" in
  if String.eqb domain "" then
    (WriteString "Missing domain" (WriteHeader 400 w), [])
  else
  match url_Parse W domain with
  | Err e => (WriteString e (WriteHeader 400 w), [])
  | Ok _ =>
  let ownerId := Form_Get r "owner_id" in
  let idents := getIdentities O r in
  let matched := existsb (fun ident => String.eqb (Id ident) ownerId) idents in
  if negb matched then
    (WriteString "You don't own that ID" (WriteHeader 403 w), [])
  else
  match db_AddDomain O domain ownerId with
  | Some e => (WriteString e (WriteHeader 500 w), [DbAddDomain domain ownerId])
  | None =>
  match proxy_AddDomain O domain with
  | Some e =>
      (WriteString e (WriteHeader 500 w),
       [DbAddDomain domain ownerId; ProxyAddDomain domain])
  | None => (w, [DbAddDomain domain ownerId; ProxyAddDomain domain])
  end end end.

(** *** The upstream handler file: [GetOidcConfiguration] *)

Definition GetOidcConfiguration (baseUrl : string) : Result OAuth2ServerMetadata :=
  let url := baseUrl +:+ "/.well-known/openid-configuration" in
  match http_Get O url with
  | Err e => Err e
  | Ok resp =>
  if negb (StatusCode resp =? 200) then Err "Invalid HTTP response"
  else
  match decodeMetadata O (RespBody resp) with
  | Err e => Err e
  | Ok doc => Ok doc
  end end.

(** *** The FedCM handler file: [/complete-login-fedcm] *)

Definition completeLoginFedCmHandler (w : ResponseWriter) (r : Request)
  : ResponseWriter :=
  let prefix := GetPrefix W in
  let loginKeyName := prefix +:+ "login_key" in
  if negb (String.eqb (Method r) "POST") then
    WriteString "Invalid method" (WriteHeader 405 w)
  else
  let fedCmToken := Form_Get r "fedcm-token" in
  match jwt_ParseInsecure O fedCmToken with
  | Err e => WriteString e (WriteHeader 500 w)
  | Ok unverifiedToken =>
  let issuer := Token_Issuer unverifiedToken in
  match GetOidcConfiguration issuer with
  | Err e => WriteString e (WriteHeader 500 w)
  | Ok oidcMeta =>
  match cache_Register O (mJwksUri oidcMeta) with
  | Some e => WriteString e (WriteHeader 500 w)
  | None =>
  match cache_Refresh O (mJwksUri oidcMeta) with
  | Err e => WriteString e (WriteHeader 500 w)
  | Ok keyset =>
  match jwt_ParseOpenID W fedCmToken keyset with
  | Err e => WriteString e (WriteHeader 500 w)
  | Ok verifiedToken =>
  if negb (ptIsOpenID verifiedToken) then WriteHeader 500 w
  else
  let oidcToken := ptClaims verifiedToken in
  let cookieValue :=
    match Request_Cookie r loginKeyName with
    | Ok value => value
    | Err _ => ""
    end in
  let email := Token_Email oidcToken in
  match addIdentityToCookie O issuer email email cookieValue true with
  | Err _ => WriteHeader 500 w
  | Ok cookie =>
  match getReturnUriCookie W r with
  | Err _ => WriteHeader 500 w
  | Ok returnUri =>
  let w := deleteReturnUriCookie W w in
  let w := Header_Add "Set-Login" (HText "logged-in") w in
  let w := SetCookie cookie w in
  let redirUrl := returnUri in
  Redirect (Method r) redirUrl StatusSeeOther w
  end end end end end end end.

End MoreHandlers.

(** ** More of the small world *)

Module DemoMore.


(** The rest of the world: registrations and FedCM tokens are given as
    tables, the issuer [https://idp.example] publishes its metadata, and the
    session helpers answer like those of [Demo.world]. *)
Definition outside (registrations : list (string * list string))
           (fedCmTokens : list (string * Token))
           (idents : list Identity)
           (dbError proxyError : option string) : Outside :=
  {| decodeRegistrationRequest :=
       fun body => Demo.orErr "unexpected end of JSON input"
                     (option_map MkRegistrationRequest (Demo.assoc body registrations));
     encodeRegistrationResponse := fun resp => "client_id=" +:+ rrClientId resp;
     encodeUserinfoResponse :=
       fun resp => "sub=" +:+ uiSub resp +:+ ";email=" +:+ uiEmail resp;
     decodeMetadata :=
       fun body => Ok (MkMetadata "https://idp.example" "" "" "" body
                                  [] [] [] [] [] "" [] "");
     http_Get :=
       fun url => Demo.orErr "no such host"
                    (Demo.assoc url
                       [("https://idp.example/.well-known/openid-configuration",
                         MkHttpResponse 200 "https://idp.example/jwks")]);
     cache_Register := fun _ => None;
     cache_Refresh := fun _ => Ok ["idp-key"];
     jwt_ParseInsecure :=
       fun s => Demo.orErr "failed to parse" (Demo.assoc s fedCmTokens);
     getRemoteIp := fun _ _ => Ok "203.0.113.7";
     getIdentities := fun _ => idents;
     addIdentityToCookie :=
       fun provider id email cookieValue _ =>
         Ok (MkCookie "obligator_login_key"
                      (cookieValue +:+ "+[" +:+ id +:+ "@" +:+ provider +:+ "]") 86400);
     db_AddDomain := fun _ _ => dbError;
     proxy_AddDomain := fun _ => proxyError |}.

End DemoMore.

(** ** Envelopes, as the handlers build them *)

(** The AuthRequest envelope of the [/auth] handler, for the parsed request
    and the hash of the session cookie. *)
Definition authRequestEnvelope (W : World) (r : Request) (ar : OAuth2AuthRequest)
           (hashedLoginKey : string) : Token :=
  Claim "response_type" (VStr (arResponseType ar))
    (Claim "pkce_code_challenge" (VStr (Form_Get r "code_challenge"))
    (Claim "nonce" (VStr (Form_Get r "nonce"))
    (Claim "scope" (VStr (Form_Get r "scope"))
    (Claim "state" (VStr (arState ar))
    (Claim "redirect_uri" (VStr (arRedirectUri ar))
    (Claim "client_id" (VStr (arClientId ar))
    (Claim "login_key_hash" (VStr hashedLoginKey)
    (Expiration (Time_Add (now W) (8 * Minute))
    (IssuedAt (now W) NewBuilder))))))))).


(** The access token of the [/token] handler. *)
Definition accessTokenOf (W : World) (parsedCodeJwt : Token) : Token :=
  Subject (Token_Subject parsedCodeJwt)
    (Expiration (Time_Add (now W) (16 * Second))
    (IssuedAt (now W) NewBuilder)).

(** The session of the [/auth] handler: the identities and logins of a
    session cookie that verifies, nothing otherwise; and the hash of the
    value of the cookie, verified or not. *)
Definition authSession (W : World) (publicJwks : KeySet) (r : Request)
  : list Identity * gmap string (list Login) * string :=
  match Request_Cookie r (GetPrefix W +:+ "login_key") with
  | Ok value =>
      if negb (String.eqb value "") then
        let hashed := Hash W value in
        match jwt_Parse W value publicJwks with
        | Err _ => ([], ∅, hashed)
        | Ok parsed =>
            (default [] (tokenIdentities parsed),
             default ∅ (tokenLogins parsed),
             hashed)
        end
      else ([], ∅, "")
  | Err _ => ([], ∅, "")
  end.

(** Two envelopes with the same claims, except perhaps the named one. *)
Definition agreeExcept (name : string) (t1 t2 : Token) : Prop :=
  forall claim, claim <> name -> t1 !! claim = t2 !! claim.


(** The string has no space in it. *)
Definition spaceFree (s : string) : Prop :=
  forallb (fun c => negb (Ascii.eqb c " ")) (list_ascii_of_string s) = true.




(** ** The handlers behind [ObligatorMux] *)

(** The handlers of the sources that [NewServer] mounts on the
    [ObligatorMux]. *)
Inductive Route : Type :=
| RouteRegister
| RouteUserinfo
| RouteAuth
| RouteApprove
| RouteToken
| RouteLoginOauth2
| RouteCallback
| RouteAddDomain
| RouteCompleteLoginFedCm.

(** The patterns they are mounted at. *)
Definition routePattern (route : Route) : string :=
  match route with
  | RouteRegister => "/register"
  | RouteUserinfo => "/userinfo"
  | RouteAuth => "/auth"
  | RouteApprove => "/approve"
  | RouteToken => "/token"
  | RouteLoginOauth2 => "/login-oauth2"
  | RouteCallback => "/callback"
  | RouteAddDomain => "/add-domain"
  | RouteCompleteLoginFedCm => "/complete-login-fedcm"
  end.

(** The handler of a route, on the writer it is given. *)
Definition serve (W : World) (O : Outside) (publicJwks : KeySet)
           (capturedErr : option string) (route : Route)
           (w : ResponseWriter) (r : Incoming) : Run ResponseWriter :=
  match route with
  | RouteRegister => Returned (fst (registerHandler W O w r))
  | RouteUserinfo => Returned (userinfoHandler W O publicJwks w r)
  | RouteAuth => Returned (authHandler W publicJwks w (inRequest r))
  | RouteApprove => approveHandler W publicJwks capturedErr w (inRequest r)
  | RouteToken => Returned (tokenHandler W publicJwks w (inRequest r))
  | RouteLoginOauth2 => loginOauth2Handler W w (inRequest r)
  | RouteCallback => Returned (callbackHandler W w (inRequest r))
  | RouteAddDomain => Returned (fst (addDomainHandler W O w (inRequest r)))
  | RouteCompleteLoginFedCm => Returned (completeLoginFedCmHandler W O w (inRequest r))
  end.

(** The two header lines [ObligatorMux.ServeHTTP] sets. *)
Definition securityHeaders : HeaderMap :=
  [("Content-Security-Policy", HText "frame-ancestors 'none'");
   ("Referrer-Policy", HText "no-referrer")].

(** The writer holds the two lines, in its header map and in what it has
    sent or will send. *)
Definition carries (w : ResponseWriter) : Prop :=
  forall line, In line securityHeaders ->
    In line (header w) /\ In line (sentHeaders w).

Definition carriesRun (x : Run ResponseWriter) : Prop :=
  match x with
  | Returned w => carries w
  | Panicked _ => True
  end.

(** * Properties *)

(** ** SHA-256 and base64 against known answers

    The digests of the empty string and of [abc] are those of FIPS 180-4;
    the other inputs straddle the padding boundary of one block. *)

Example challenge_of_empty :
  GeneratePKCECodeChallenge "" = "47DEQpj8HBSa-_TImW-5JCeuQeRkm5NMpJWZG3hSuFU".
Proof. vm_compute. reflexivity. Qed.

Example challenge_of_abc :
  GeneratePKCECodeChallenge "abc" = "ungWv48Bz-pBQUDeXa4iI7ADYaOWF3qctBD_YfIAFa0".
Proof. vm_compute. reflexivity. Qed.

Example challenge_of_55_bytes :
  GeneratePKCECodeChallenge
    "aaaaaaaaaaaaaaaaaaaaaaaaaaaaaaaaaaaaaaaaaaaaaaaaaaaaaaa"
  = "n0OQ-NMMLdkuyfCVtl4rmumwqSWlJY4kHJ8ekQ9zQxg".
Proof. vm_compute. reflexivity. Qed.

Example challenge_of_56_bytes :
  GeneratePKCECodeChallenge
    "aaaaaaaaaaaaaaaaaaaaaaaaaaaaaaaaaaaaaaaaaaaaaaaaaaaaaaaa"
  = "s1Q5pKxvCUi21vnjxq8PX1kM4g8b3nCQ73lwaG7Gc4o".
Proof. vm_compute. reflexivity. Qed.

Example challenge_of_64_bytes :
  GeneratePKCECodeChallenge
    "aaaaaaaaaaaaaaaaaaaaaaaaaaaaaaaaaaaaaaaaaaaaaaaaaaaaaaaaaaaaaaaa"
  = "_-BU_nrgy23GXDr5th1SCfQ5hR20PQulmXM33xVGaOs".
Proof. vm_compute. reflexivity. Qed.

(** The example of RFC 7636, appendix B. *)
Example challenge_of_rfc7636 :
  GeneratePKCECodeChallenge "dBjftJeZ4CVP-mB92K27uhbUJU1p1r_wW1gFWFOEjXk"
  = "E9Melhoa2OwvFrEMTJguCHaoeK1t8URWbuGJSstw-cM".
Proof. vm_compute. reflexivity. Qed.

(** ** Strings *)

Lemma length_append (s t : string) :
  String.length (s +:+ t) = (String.length s + String.length t)%nat.
Proof. induction s as [|c s IH]; simpl; [reflexivity | now rewrite IH]. Qed.

Lemma chars_append (s t : string) :
  list_ascii_of_string (s +:+ t) = list_ascii_of_string s ++ list_ascii_of_string t.
Proof. induction s as [|c s IH]; simpl; [reflexivity | now rewrite IH]. Qed.

Lemma get_In (s : string) : forall (n : nat) (c : ascii),
  String.get n s = Some c -> In c (list_ascii_of_string s).
Proof.
  induction s as [|a s IH]; intros n c H; simpl in *.
  - discriminate.
  - destruct n as [|n].
    + injection H as ->. now left.
    + right. eapply IH. exact H.
Qed.

Lemma append_inj_l (p a b : string) : p +:+ a = p +:+ b -> a = b.
Proof.
  induction p as [|c p IH]; simpl; intros H; [exact H|].
  injection H as H. now apply IH.
Qed.

Lemma eqb_false_of_ne (a b : string) : a <> b -> String.eqb a b = false.
Proof. intros H. now apply String.eqb_neq. Qed.

(** ** PKCE *)

Lemma pkceChars_unreserved :
  forallb unreserved (list_ascii_of_string pkceChars) = true.
Proof. vm_compute. reflexivity. Qed.

Lemma byteAt_unreserved (i : Z) (c : ascii) :
  byteAt pkceChars i = Some c -> unreserved c = true.
Proof.
  unfold byteAt. destruct (i <? 0); [discriminate|]. intros H.
  apply get_In in H.
  pose proof pkceChars_unreserved as Hall.
  rewrite forallb_forall in Hall. now apply Hall.
Qed.

(** The loop adds one unreserved byte per iteration. *)
Lemma verifierLoop_spec (rnd : RandInt) : forall (todo i : nat) (acc result : string),
  verifierLoop rnd todo i acc = Returned (Ok result) ->
  String.length result = (String.length acc + todo)%nat
  /\ (all_unreserved acc -> all_unreserved result).
Proof.
  induction todo as [|todo IH]; intros i acc result H; simpl in H.
  - injection H as ->. split; [lia | auto].
  - destruct (rnd i _) as [idx|e]; [|discriminate].
    destruct (byteAt pkceChars idx) as [c|] eqn:Hc; [|discriminate].
    apply IH in H. destruct H as [Hlen Hall].
    rewrite length_append in Hlen. simpl in Hlen. split; [lia|].
    intros Hacc. apply Hall. intros c' Hin.
    rewrite chars_append in Hin. apply in_app_or in Hin.
    destruct Hin as [Hin | [<- | []]]; [now apply Hacc | now apply byteAt_unreserved in Hc].
Qed.

(** With a random source that answers within the bound it is given, the
    loop runs to its end: the verifier is returned. *)
Lemma verifierLoop_returns (rnd : RandInt) : forall (todo i : nat) (acc : string),
  (forall j, exists v, rnd j 66 = Ok v /\ 0 <= v < 66) ->
  exists result, verifierLoop rnd todo i acc = Returned (Ok result).
Proof.
  induction todo as [|todo IH]; intros i acc Hrnd; simpl.
  - now exists acc.
  - destruct (Hrnd i) as (v & Hv & Hrange).
    change (Z.of_nat 66) with 66. rewrite Hv.
    destruct (byteAt pkceChars v) as [c|] eqn:Hc.
    + now apply IH.
    + exfalso. unfold byteAt in Hc.
      destruct (Z.ltb_spec v 0) as [?|_]; [lia|].
      assert (Hn : (Z.to_nat v < 66)%nat) by lia.
      revert Hc. generalize (Z.to_nat v) Hn. clear.
      intros n Hn.
      do 66 (destruct n as [|n]; [discriminate|]). lia.
Qed.

Lemma GeneratePKCEData_returns (rnd : RandInt) :
  (forall j, exists v, rnd j 66 = Ok v /\ 0 <= v < 66) ->
  exists challenge verifier, GeneratePKCEData rnd = Returned (Ok (challenge, verifier)).
Proof.
  intros Hrnd. unfold GeneratePKCEData, GeneratePKCECodeVerifier.
  destruct (verifierLoop_returns rnd 64 0 "" Hrnd) as [v ->]. eauto.
Qed.

(** C6. Every pair [(challenge, verifier)] that [GeneratePKCEData] returns
    has [challenge] the unpadded URL-safe base64 of the SHA-256 of
    [verifier], a verifier of exactly 64 bytes, and only unreserved
    characters [A-Za-z0-9-._~] in the verifier. *)
Theorem GeneratePKCEData_pair (rnd : RandInt) (challenge verifier : string) :
  GeneratePKCEData rnd = Returned (Ok (challenge, verifier)) ->
  challenge = Base64.rawURLEncode (Sha256.sum (bytes_of_string verifier))
  /\ String.length verifier = 64%nat
  /\ (forall c, In c (list_ascii_of_string verifier) -> unreserved c = true).
Proof.
  unfold GeneratePKCEData, GeneratePKCECodeVerifier.
  destruct (verifierLoop rnd 64 0 "") as [[v|e]|m] eqn:Hloop; try discriminate.
  intros H. injection H as <- <-.
  apply verifierLoop_spec in Hloop. destruct Hloop as [Hlen Hall].
  split; [reflexivity|]. split; [exact Hlen|].
  apply Hall. intros c [].
Qed.

Lemma GeneratePKCEData_pair_witness :
  let rnd : RandInt := fun i max => Ok (Z.of_nat (7 * i) mod max) in
  exists challenge verifier,
    GeneratePKCEData rnd = Returned (Ok (challenge, verifier))
    /\ challenge = Base64.rawURLEncode (Sha256.sum (bytes_of_string verifier))
    /\ String.length verifier = 64%nat
    /\ (forall c, In c (list_ascii_of_string verifier) -> unreserved c = true).
Proof.
  intros rnd.
  exists "_vBhuoLQZblHuixV_ntrAkHZ6TSiWWUr75q2C4I6I2w".
  exists "07elszGNU.4bipwDKRY18fmtAHOV_5cjqxELSZ29gnuBIPW~6dkryFMT-3ahovCJ".
  split; [vm_compute; reflexivity|].
  apply (GeneratePKCEData_pair rnd). vm_compute. reflexivity.
Defined.

(** ** The response writer *)

Lemma status_Write (chunk : BodyChunk) (w : ResponseWriter) :
  status (Write chunk w) = status w.
Proof. unfold status, Write, WriteHeader. destruct (wrote w) as [[? ?]|] eqn:E; simpl; rewrite ?E; reflexivity. Qed.

Lemma sentHeaders_Write (chunk : BodyChunk) (w : ResponseWriter) :
  sentHeaders (Write chunk w) = sentHeaders w.
Proof. unfold sentHeaders, Write, WriteHeader. destruct (wrote w) as [[? ?]|] eqn:E; simpl; rewrite ?E; reflexivity. Qed.

Lemma sentHeaders_WriteHeader (code : Z) (w : ResponseWriter) :
  sentHeaders (WriteHeader code w) = sentHeaders w.
Proof. unfold sentHeaders, WriteHeader. destruct (wrote w) as [[? ?]|] eqn:E; simpl; rewrite ?E; reflexivity. Qed.

Lemma status_WriteHeader (code : Z) (w : ResponseWriter) :
  wrote w = None -> status (WriteHeader code w) = code.
Proof. unfold status, WriteHeader. now intros ->. Qed.

Lemma sentCookies_Write (chunk : BodyChunk) (w : ResponseWriter) :
  sentCookies (Write chunk w) = sentCookies w.
Proof. unfold sentCookies. now rewrite sentHeaders_Write. Qed.

Lemma sentCookies_WriteHeader (code : Z) (w : ResponseWriter) :
  sentCookies (WriteHeader code w) = sentCookies w.
Proof. unfold sentCookies. now rewrite sentHeaders_WriteHeader. Qed.

Lemma In_sentCookies (c : Cookie) (w : ResponseWriter) :
  In ("Set-Cookie", HCookie c) (sentHeaders w) -> In c (sentCookies w).
Proof.
  intros H. unfold sentCookies. apply list_elem_of_In.
  apply list_elem_of_omap. exists ("Set-Cookie", HCookie c).
  split; [now apply list_elem_of_In | reflexivity].
Qed.

Lemma queued_sent (c : Cookie) (w : ResponseWriter) :
  queued c w -> In c (sentCookies w).
Proof.
  intros [Hw Hin]. apply In_sentCookies. unfold sentHeaders. now rewrite Hw.
Qed.

Lemma queued_clearCookie (W : World) (name : string) (w : ResponseWriter) :
  wrote w = None -> queued (MkCookie name "" (-1)) (clearCookie name w).
Proof.
  intros Hw. split; [exact Hw|]. simpl. apply in_or_app. right. now left.
Qed.

Lemma queued_SetCookie (c c' : Cookie) (w : ResponseWriter) :
  queued c w -> queued c (SetCookie c' w).
Proof.
  intros [Hw Hin]. split; [exact Hw|]. simpl. apply in_or_app. now left.
Qed.

Lemma queued_Header_Set (c : Cookie) (k : string) (v : HeaderValue) (w : ResponseWriter) :
  k <> "Set-Cookie" -> queued c w -> queued c (Header_Set k v w).
Proof.
  intros Hk [Hw Hin]. split; [exact Hw|]. simpl. apply in_or_app. left.
  apply filter_In. split; [exact Hin|].
  change (negb (String.eqb "Set-Cookie" k) = true).
  rewrite eqb_false_of_ne; [reflexivity | congruence].
Qed.

Lemma sent_WriteHeader (c : Cookie) (code : Z) (w : ResponseWriter) :
  queued c w -> In c (sentCookies (WriteHeader code w)).
Proof. intros H. rewrite sentCookies_WriteHeader. now apply queued_sent. Qed.

Lemma sent_respond (c : Cookie) (code : Z) (msg : string) (w : ResponseWriter) :
  queued c w -> In c (sentCookies (WriteString msg (WriteHeader code w))).
Proof.
  intros H. unfold WriteString. rewrite sentCookies_Write. now apply sent_WriteHeader.
Qed.

Lemma sent_Redirect (c : Cookie) (method url : string) (code : Z) (w : ResponseWriter) :
  queued c w -> In c (sentCookies (Redirect method url code w)).
Proof.
  intros H. unfold Redirect.
  assert (H1 : queued c (Header_Set "Location" (HText url) w))
    by (apply queued_Header_Set; [discriminate | exact H]).
  assert (H2 : queued c (Header_Set "Content-Type" (HText "text/html; charset=utf-8")
                                    (Header_Set "Location" (HText url) w)))
    by (apply queued_Header_Set; [discriminate | exact H1]).
  destruct (negb (Header_has "Content-Type" (header w))); simpl.
  - destruct (String.eqb method "GET"); simpl.
    + rewrite sentCookies_Write. now apply sent_WriteHeader.
    + destruct (String.eqb method "HEAD"); now apply sent_WriteHeader.
  - now apply sent_WriteHeader.
Qed.

Lemma status_respond (code : Z) (msg : string) (w : ResponseWriter) :
  wrote w = None -> status (WriteString msg (WriteHeader code w)) = code.
Proof. intros H. unfold WriteString. rewrite status_Write. now apply status_WriteHeader. Qed.

(** ** [/auth] *)

(** C4. A request to [/auth] whose [client_id] and [redirect_uri] are
    present and parse as URIs with different hosts is answered 400, and the
    response sets no cookie: neither the AuthRequest cookie nor the
    return-URI cookie. *)
Theorem auth_host_mismatch (W : World) (publicJwks : KeySet) (r : Request)
        (clientUri redirectUri : URL) :
  Form_Get r "client_id" <> "" ->
  Form_Get r "redirect_uri" <> "" ->
  url_Parse W (Form_Get r "client_id") = Ok clientUri ->
  url_Parse W (Form_Get r "redirect_uri") = Ok redirectUri ->
  uHost clientUri <> uHost redirectUri ->
  status (authHandler W publicJwks newResponseWriter r) = 400
  /\ sentCookies (authHandler W publicJwks newResponseWriter r) = [].
Proof.
  intros Hc Hr Hpc Hpr Hhost.
  unfold authHandler, ParseAuthRequest.
  rewrite (eqb_false_of_ne _ _ Hc), (eqb_false_of_ne _ _ Hr), Hpc, Hpr.
  rewrite (eqb_false_of_ne _ _ Hhost). simpl. split; reflexivity.
Qed.

Lemma auth_host_mismatch_witness :
  let W := Demo.world true [] [] [] in
  let r := Demo.request "GET"
             [("client_id", "https://rp.example");
              ("redirect_uri", "https://evil.example/cb");
              ("response_type", "code")] [] in
  status (authHandler W ["key-1"] newResponseWriter r) = 400
  /\ sentCookies (authHandler W ["key-1"] newResponseWriter r) = [].
Proof.
  intros W r.
  apply (auth_host_mismatch W ["key-1"] r (MkURL "rp.example") (MkURL "evil.example")).
  - vm_compute. discriminate.
  - vm_compute. discriminate.
  - vm_compute. reflexivity.
  - vm_compute. reflexivity.
  - simpl. discriminate.
Defined.

(** With equal hosts the same request is let through: both cookies are set
    and the consent page is served. *)
Example auth_same_host :
  let W := Demo.world true [] [] [] in
  let r := Demo.request "GET"
             [("client_id", "https://rp.example");
              ("redirect_uri", "https://rp.example/cb");
              ("response_type", "code")] [] in
  status (authHandler W ["key-1"] newResponseWriter r) = 200
  /\ map cName (sentCookies (authHandler W ["key-1"] newResponseWriter r))
     = ["obligator_auth_request"; "obligator_return_uri"].
Proof. vm_compute. split; reflexivity. Qed.

(** ** [validate] *)

(** C9. When the session cookie is present and verifies but its
    [identities] claim is the empty list, [validate] indexes the list at 0
    with no test of its length: the call panics, whatever the pass-through
    setting. *)
Theorem validate_empty_identities (W : World) (r : Request)
        (value : string) (publicJwks : KeySet) (parsed : Token) :
  Request_Cookie r (GetPrefix W +:+ "login_key") = Ok value ->
  PublicSetOf W (GetJWKSet W) = Ok publicJwks ->
  jwt_Parse W value publicJwks = Ok parsed ->
  Token_Get parsed "identities" = Some (VIdents []) ->
  validate W r = Panicked "index out of range [0] with length 0".
Proof.
  intros Hcookie Hks Hparse Hids. unfold validate.
  now rewrite Hcookie, Hks, Hparse, Hids.
Qed.

Lemma validate_empty_identities_witness :
  let W := Demo.world true [("session-0", Demo.emptySession)] [] [] in
  let r := Demo.request "GET" [] [("obligator_login_key", "session-0")] in
  validate W r = Panicked "index out of range [0] with length 0".
Proof.
  intros W r.
  apply (validate_empty_identities W r "session-0" ["key-1"] Demo.emptySession);
    vm_compute; reflexivity.
Defined.

(** A session with an identity validates to the first one. *)
Example validate_first_identity :
  let W := Demo.world true [("session-1", Demo.session)] [] [] in
  let r := Demo.request "GET" [] [("obligator_login_key", "session-1")] in
  validate W r = Returned (Ok (Some (MkValidation "alice@example.com" "email"))).
Proof. vm_compute. reflexivity. Qed.

Lemma status_Redirect (method url : string) (code : Z) (w : ResponseWriter) :
  wrote w = None -> status (Redirect method url code w) = code.
Proof.
  intros Hw. unfold Redirect.
  destruct (negb (Header_has "Content-Type" (header w))); simpl.
  - destruct (String.eqb method "GET"); simpl.
    + rewrite status_Write. now apply status_WriteHeader.
    + destruct (String.eqb method "HEAD"); now apply status_WriteHeader.
  - now apply status_WriteHeader.
Qed.

(** ** [/approve] *)

Lemma scopeRequested_In (word : string) (scopeParts : list string) :
  scopeRequested word scopeParts = true <-> In word scopeParts.
Proof.
  unfold scopeRequested. rewrite existsb_exists. split.
  - intros (x & Hin & Heq). apply String.eqb_eq in Heq. now subst.
  - intros Hin. exists word. split; [exact Hin | apply String.eqb_refl].
Qed.

(** C10. A POST to [/approve] with a session cookie that verifies always
    returns with the deletion of the AuthRequest cookie among the cookies
    of the response: the cookie is cleared before the identity is looked up,
    so the response 403 for an identity the session does not hold carries
    the deletion too. *)
Theorem approve_clears_auth_request (W : World) (publicJwks : KeySet)
        (capturedErr : option string) (r : Request) (value : string) (session : Token) :
  Method r = "POST" ->
  Request_Cookie r (GetPrefix W +:+ "login_key") = Ok value ->
  jwt_Parse W value publicJwks = Ok session ->
  exists res,
    approveHandler W publicJwks capturedErr newResponseWriter r = Returned res
    /\ In (MkCookie (GetPrefix W +:+ "auth_request") "" (-1)) (sentCookies res)
    /\ (forall authReq,
          getJwtFromCookie W (GetPrefix W +:+ "auth_request") publicJwks r = Ok authReq ->
          (forall ident, In ident (default [] (tokenIdentities session)) ->
                         Id ident <> Form_Get r "identity_id") ->
          status res = 403).
Proof.
  intros Hpost Hcookie Hparse. unfold approveHandler.
  rewrite Hpost, Hcookie, Hparse. simpl negb. cbv iota.
  set (del := MkCookie (GetPrefix W +:+ "auth_request") "" (-1)).
  set (w1 := clearCookie (GetPrefix W +:+ "auth_request") newResponseWriter).
  assert (Hq : queued del w1) by (apply (queued_clearCookie W); reflexivity).
  destruct (getJwtFromCookie W _ publicJwks r) as [authReq|e] eqn:Hreq.
  2:{ eexists. split; [reflexivity|]. split; [now apply sent_respond|].
      intros a Ha. discriminate. }
  set (selected := match tokenIdentities session with
                   | Some tokIdents => List.find _ tokIdents
                   | None => None
                   end).
  destruct selected as [ident|] eqn:Hsel.
  2:{ eexists. split; [reflexivity|]. split; [now apply sent_respond|].
      intros _ _ _. now apply status_respond. }
  assert (Hown : forall a : Token,
             (forall i, In i (default [] (tokenIdentities session)) ->
                        Id i <> Form_Get r "identity_id") -> False).
  { intros _ Hnone. subst selected.
    destruct (tokenIdentities session) as [idents|]; [|discriminate].
    apply find_some in Hsel. destruct Hsel as [Hin Heq].
    apply String.eqb_eq in Heq. now apply (Hnone ident). }
  destruct (addLoginToCookie W _ _ _) as [newLoginCookie|e].
  2:{ eexists. split; [reflexivity|]. split; [now apply sent_WriteHeader|].
      intros a _ Hn. now destruct (Hown a Hn). }
  assert (Hq2 : queued del (SetCookie newLoginCookie w1)) by now apply queued_SetCookie.
  unfold Build.
  destruct (Key0 (GetJWKSet W)) as [key|].
  2:{ eexists. split; [reflexivity|]. split; [now apply sent_WriteHeader|].
      intros a _ Hn. now destruct (Hown a Hn). }
  destruct (jwt_Sign W (approveIdToken _ _ _ _) key) as [signedIdToken|e].
  2:{ eexists. split; [reflexivity|]. split; [now apply sent_WriteHeader|].
      intros a _ Hn. now destruct (Hown a Hn). }
  destruct (jwt_Sign W (approveCode _ _ _ _) key) as [signedCode|e].
  2:{ eexists. split; [reflexivity|]. split; [now apply sent_respond|].
      intros a _ Hn. now destruct (Hown a Hn). }
  destruct (String.eqb (claimFromToken "response_type" authReq) "none");
    (eexists; split; [reflexivity|]; split; [now apply sent_Redirect|];
     intros a _ Hn; now destruct (Hown a Hn)).
Qed.

Lemma approve_clears_auth_request_witness :
  let W := Demo.world true [("session-1", Demo.session);
                            ("auth-1", Demo.authRequest "openid email")] [] [] in
  let r := Demo.request "POST" [("identity_id", "mallory@example.com")]
             [("obligator_login_key", "session-1");
              ("obligator_auth_request", "auth-1")] in
  exists res,
    approveHandler W ["key-1"] None newResponseWriter r = Returned res
    /\ In (MkCookie "obligator_auth_request" "" (-1)) (sentCookies res)
    /\ status res = 403.
Proof.
  intros W r.
  destruct (approve_clears_auth_request W ["key-1"] None r "session-1" Demo.session)
    as (res & Hres & Hsent & Hstatus); [reflexivity | reflexivity | reflexivity |].
  exists res. split; [exact Hres|]. split; [exact Hsent|].
  apply (Hstatus (Demo.authRequest "openid email")); [reflexivity|].
  intros ident [<- | []]. vm_compute. discriminate.
Defined.

(** The same request, run: status 403, and the only cookie of the response
    is the deletion of the AuthRequest cookie. *)
Example approve_403_run :
  let W := Demo.world true [("session-1", Demo.session);
                            ("auth-1", Demo.authRequest "openid email")] [] [] in
  let r := Demo.request "POST" [("identity_id", "mallory@example.com")]
             [("obligator_login_key", "session-1");
              ("obligator_auth_request", "auth-1")] in
  exists res,
    approveHandler W ["key-1"] None newResponseWriter r = Returned res
    /\ status res = 403
    /\ sentCookies res = [MkCookie "obligator_auth_request" "" (-1)].
Proof. eexists. split; [vm_compute; reflexivity|]. split; reflexivity. Qed.

(** What a response 303 of [/approve] tells: every step before the redirect
    went through. *)
Lemma approve_success (W : World) (publicJwks : KeySet) (capturedErr : option string)
      (r : Request) (res : ResponseWriter) :
  approveHandler W publicJwks capturedErr newResponseWriter r = Returned res ->
  status res = 303 ->
  exists value session authReq idents ident key signedIdToken signedCode,
    Request_Cookie r (GetPrefix W +:+ "login_key") = Ok value
    /\ jwt_Parse W value publicJwks = Ok session
    /\ getJwtFromCookie W (GetPrefix W +:+ "auth_request") publicJwks r = Ok authReq
    /\ tokenIdentities session = Some idents
    /\ List.find (fun i => String.eqb (Id i) (Form_Get r "identity_id")) idents
       = Some ident
    /\ Key0 (GetJWKSet W) = Some key
    /\ jwt_Sign W (approveIdToken W (Form_Get r "identity_id") authReq ident) key
       = Ok signedIdToken
    /\ jwt_Sign W (approveCode W authReq
                     (approveIdToken W (Form_Get r "identity_id") authReq ident)
                     signedIdToken) key
       = Ok signedCode.
Proof.
  unfold approveHandler. intros Hrun Hstatus.
  destruct (negb (String.eqb (Method r) "POST")).
  { destruct capturedErr; [|discriminate]. injection Hrun as <-.
    rewrite status_respond in Hstatus by reflexivity. discriminate. }
  destruct (Request_Cookie r _) as [value|e] eqn:Hcookie.
  2:{ injection Hrun as <-. rewrite status_respond in Hstatus by reflexivity.
      discriminate. }
  destruct (jwt_Parse W value publicJwks) as [session|e] eqn:Hparse.
  2:{ injection Hrun as <-. rewrite status_respond in Hstatus by reflexivity.
      discriminate. }
  destruct (getJwtFromCookie W _ publicJwks r) as [authReq|e] eqn:Hreq.
  2:{ injection Hrun as <-. rewrite status_respond in Hstatus by reflexivity.
      discriminate. }
  destruct (tokenIdentities session) as [idents|] eqn:Hids.
  2:{ injection Hrun as <-. rewrite status_respond in Hstatus by reflexivity.
      discriminate. }
  destruct (List.find _ idents) as [ident|] eqn:Hfind.
  2:{ injection Hrun as <-. rewrite status_respond in Hstatus by reflexivity.
      discriminate. }
  destruct (addLoginToCookie W _ _ _) as [newLoginCookie|e].
  2:{ injection Hrun as <-. rewrite status_WriteHeader in Hstatus by reflexivity.
      discriminate. }
  unfold Build in Hrun.
  destruct (Key0 (GetJWKSet W)) as [key|] eqn:Hkey.
  2:{ injection Hrun as <-. rewrite status_WriteHeader in Hstatus by reflexivity.
      discriminate. }
  destruct (jwt_Sign W (approveIdToken _ _ _ _) key) as [signedIdToken|e] eqn:Hsid.
  2:{ injection Hrun as <-. rewrite status_WriteHeader in Hstatus by reflexivity.
      discriminate. }
  destruct (jwt_Sign W (approveCode _ _ _ _) key) as [signedCode|e] eqn:Hscode.
  2:{ injection Hrun as <-. rewrite status_respond in Hstatus by reflexivity.
      discriminate. }
  exists value, session, authReq, idents, ident, key, signedIdToken, signedCode.
  repeat split; assumption.
Qed.

Lemma find_Id (identId : string) (idents : list Identity) (ident : Identity) :
  List.find (fun i => String.eqb (Id i) identId) idents = Some ident ->
  In ident idents /\ Id ident = identId.
Proof.
  intros H. apply find_some in H. destruct H as [Hin Heq].
  apply String.eqb_eq in Heq. now split.
Qed.

Section IdToken.

Variable W : World.
Variables (identId : string) (authReq : Token) (ident : Identity).

Lemma idToken_sub :
approveIdToken W identId authReq ident !! "sub" = Some (VStr identId).
Proof. open_id_token ident. Qed.

Lemma idToken_aud :
approveIdToken W identId authReq ident !! "aud"
= Some (VStrs [claimFromToken "client_id" authReq]).
Proof. open_id_token ident. Qed.

Lemma idToken_iat :
approveIdToken W identId authReq ident !! "iat" = Some (VTime (now W)).
Proof. open_id_token ident. Qed.

Lemma idToken_exp :
approveIdToken W identId authReq ident !! "exp" = Some (VTime (now W + 24 * Hour)).
Proof. open_id_token ident. Qed.

Lemma idToken_nonce :
approveIdToken W identId authReq ident !! "nonce"
= Some (VStr (claimFromToken "nonce" authReq)).
Proof. open_id_token ident. Qed.

Lemma idToken_email :
approveIdToken W identId authReq ident !! "email"
= if scopeRequested "email" (Split (claimFromToken "scope" authReq) " ")
  then Some (VStr (Email ident)) else None.
Proof. open_id_token ident. Qed.

Lemma idToken_email_verified :
approveIdToken W identId authReq ident !! "email_verified"
= if scopeRequested "email" (Split (claimFromToken "scope" authReq) " ")
  then Some (VBool (EmailVerified ident)) else None.
Proof. open_id_token ident. Qed.

Lemma idToken_name :
approveIdToken W identId authReq ident !! "name"
= if scopeRequested "profile" (Split (claimFromToken "scope" authReq) " ")
     && negb (String.eqb (Name ident) "")
  then Some (VStr (Name ident)) else None.
Proof. open_id_token ident. Qed.

End IdToken.

(** C7. After a successful POST to [/approve] (the response is the redirect
    303), the ID token that was built and signed has [sub] the submitted
    [identity_id], [aud] the one-element list of the [client_id] of the
    AuthRequest envelope, [exp] 24 hours after [iat], [nonce] that of the
    envelope; it has [email] and [email_verified] exactly when [email] is one
    of the space-separated parts of the scope, and [name] exactly when
    [profile] is one of them and the name of the identity is not empty. *)
Theorem approve_id_token (W : World) (publicJwks : KeySet)
        (capturedErr : option string) (r : Request) (res : ResponseWriter) :
  approveHandler W publicJwks capturedErr newResponseWriter r = Returned res ->
  status res = 303 ->
  exists (authReq : Token) (ident : Identity) (key : Key) (signedIdToken : string),
    getJwtFromCookie W (GetPrefix W +:+ "auth_request") publicJwks r = Ok authReq
    /\ Id ident = Form_Get r "identity_id"
    /\ let idToken := approveIdToken W (Form_Get r "identity_id") authReq ident in
       let scopeParts := Split (claimFromToken "scope" authReq) " " in
       jwt_Sign W idToken key = Ok signedIdToken
       /\ idToken !! "sub" = Some (VStr (Form_Get r "identity_id"))
       /\ idToken !! "aud" = Some (VStrs [claimFromToken "client_id" authReq])
       /\ (exists iat, idToken !! "iat" = Some (VTime iat)
                       /\ idToken !! "exp" = Some (VTime (iat + 24 * Hour)))
       /\ idToken !! "nonce" = Some (VStr (claimFromToken "nonce" authReq))
       /\ (is_Some (idToken !! "email") <-> In "email" scopeParts)
       /\ (is_Some (idToken !! "email_verified") <-> In "email" scopeParts)
       /\ (is_Some (idToken !! "name")
           <-> In "profile" scopeParts /\ Name ident <> "").
Proof.
  intros Hrun Hstatus.
  destruct (approve_success W publicJwks capturedErr r res Hrun Hstatus)
    as (value & session & authReq & idents & ident & key & signedIdToken & signedCode
        & _ & _ & Hreq & _ & Hfind & _ & Hsid & _).
  apply find_Id in Hfind. destruct Hfind as [_ HId].
  exists authReq, ident, key, signedIdToken.
  split; [exact Hreq|]. split; [exact HId|]. cbv zeta.
  split; [exact Hsid|].
  split; [apply idToken_sub|].
  split; [apply idToken_aud|].
  split; [exists (now W); split; [apply idToken_iat | apply idToken_exp]|].
  split; [apply idToken_nonce|].
  rewrite idToken_email, idToken_email_verified, idToken_name.
  rewrite <- !scopeRequested_In.
  split; [|split].
  - destruct (scopeRequested "email" _); split; intros H;
      first [reflexivity | eexists; reflexivity | destruct H; discriminate | discriminate].
  - destruct (scopeRequested "email" _); split; intros H;
      first [reflexivity | eexists; reflexivity | destruct H; discriminate | discriminate].
  - destruct (scopeRequested "profile" _); simpl.
    + destruct (String.eqb_spec (Name ident) "") as [Hn|Hn]; simpl; split.
      * intros [x Hx]. discriminate.
      * intros [_ Hne]. now destruct Hne.
      * intros _. now split.
      * intros _. eexists. reflexivity.
    + split; [intros [x Hx]; discriminate | intros [Hf _]; discriminate].
Qed.

Lemma approve_id_token_witness :
  let W := Demo.world true [("session-1", Demo.session);
                            ("auth-1", Demo.authRequest "openid email")] [] [] in
  let r := Demo.request "POST" [("identity_id", "alice@example.com")]
             [("obligator_login_key", "session-1");
              ("obligator_auth_request", "auth-1")] in
  exists res,
    approveHandler W ["key-1"] None newResponseWriter r = Returned res
    /\ status res = 303
    /\ exists (authReq : Token) (ident : Identity) (key : Key) (signedIdToken : string),
         getJwtFromCookie W "obligator_auth_request" ["key-1"] r = Ok authReq
         /\ Id ident = "alice@example.com"
         /\ let idToken := approveIdToken W "alice@example.com" authReq ident in
            let scopeParts := Split (claimFromToken "scope" authReq) " " in
            jwt_Sign W idToken key = Ok signedIdToken
            /\ idToken !! "sub" = Some (VStr "alice@example.com")
            /\ idToken !! "aud" = Some (VStrs [claimFromToken "client_id" authReq])
            /\ (exists iat, idToken !! "iat" = Some (VTime iat)
                            /\ idToken !! "exp" = Some (VTime (iat + 24 * Hour)))
            /\ idToken !! "nonce" = Some (VStr (claimFromToken "nonce" authReq))
            /\ (is_Some (idToken !! "email") <-> In "email" scopeParts)
            /\ (is_Some (idToken !! "email_verified") <-> In "email" scopeParts)
            /\ (is_Some (idToken !! "name")
                <-> In "profile" scopeParts /\ Name ident <> "").
Proof.
  intros W r. eexists.
  split; [vm_compute; reflexivity|]. split; [reflexivity|].
  eapply (approve_id_token W ["key-1"] None r); [vm_compute; reflexivity | reflexivity].
Defined.

(** The ID token of that request, claim by claim: scope [openid email] gives
    the email claims and no name. *)
Example approve_id_token_run :
  let W := Demo.world true [] [] [] in
  approveIdToken W "alice@example.com" (Demo.authRequest "openid email") Demo.alice
  = list_to_map
     [("sub", VStr "alice@example.com");
      ("aud", VStrs ["https://rp.example"]);
      ("iss", VStr "https://auth.example");
      ("iat", VTime (1700000000 * Second));
      ("exp", VTime (1700086400 * Second));
      ("nonce", VStr "N1");
      ("email", VStr "alice@example.com");
      ("email_verified", VBool true)].
Proof. vm_compute. reflexivity. Qed.

Section Code.

Variable W : World.
Variables (authReq idToken : Token) (signedIdToken : string).

Lemma code_sub :
approveCode W authReq idToken signedIdToken !! "sub"
= Some (VStr (Token_Email idToken)).
Proof. open_code. Qed.

Lemma code_id_token :
approveCode W authReq idToken signedIdToken !! "id_token"
= Some (VStr signedIdToken).
Proof. open_code. Qed.

Lemma code_challenge :
approveCode W authReq idToken signedIdToken !! "pkce_code_challenge"
= Some (VStr (claimFromToken "pkce_code_challenge" authReq)).
Proof. open_code. Qed.

Lemma code_iat :
approveCode W authReq idToken signedIdToken !! "iat" = Some (VTime (now W)).
Proof. open_code. Qed.

Lemma code_exp :
approveCode W authReq idToken signedIdToken !! "exp"
= Some (VTime (now W + 16 * Second)).
Proof. open_code. Qed.

End Code.

(** The email the code takes as its subject is read back from the ID token:
    it is the email of the identity when the scope has [email], and the
    empty string otherwise. *)
Lemma Token_Email_approveIdToken (W : World) (identId : string) (authReq : Token)
      (ident : Identity) :
  Token_Email (approveIdToken W identId authReq ident)
  = if scopeRequested "email" (Split (claimFromToken "scope" authReq) " ")
    then Email ident else "".
Proof.
  unfold Token_Email. rewrite idToken_email.
  now destruct (scopeRequested "email" _).
Qed.

(** What the code envelope of a successful [/approve] holds. *)
Lemma approve_code_envelope (W : World) (publicJwks : KeySet)
      (capturedErr : option string) (r : Request) (res : ResponseWriter) :
  approveHandler W publicJwks capturedErr newResponseWriter r = Returned res ->
  status res = 303 ->
  exists (authReq : Token) (ident : Identity) (key : Key)
         (signedIdToken signedCode : string),
    getJwtFromCookie W (GetPrefix W +:+ "auth_request") publicJwks r = Ok authReq
    /\ Id ident = Form_Get r "identity_id"
    /\ let idToken := approveIdToken W (Form_Get r "identity_id") authReq ident in
       let code := approveCode W authReq idToken signedIdToken in
       jwt_Sign W idToken key = Ok signedIdToken
       /\ jwt_Sign W code key = Ok signedCode
       /\ code !! "sub"
          = Some (VStr (if scopeRequested "email"
                             (Split (claimFromToken "scope" authReq) " ")
                        then Email ident else ""))
       /\ code !! "id_token" = Some (VStr signedIdToken)
       /\ code !! "pkce_code_challenge"
          = Some (VStr (claimFromToken "pkce_code_challenge" authReq))
       /\ (exists iat, code !! "iat" = Some (VTime iat)
                       /\ code !! "exp" = Some (VTime (iat + 16 * Second))).
Proof.
  intros Hrun Hstatus.
  destruct (approve_success W publicJwks capturedErr r res Hrun Hstatus)
    as (value & session & authReq & idents & ident & key & signedIdToken & signedCode
        & _ & _ & Hreq & _ & Hfind & _ & Hsid & Hscode).
  apply find_Id in Hfind. destruct Hfind as [_ HId].
  exists authReq, ident, key, signedIdToken, signedCode.
  split; [exact Hreq|]. split; [exact HId|]. cbv zeta.
  split; [exact Hsid|]. split; [exact Hscode|].
  split; [rewrite code_sub, Token_Email_approveIdToken; reflexivity|].
  split; [apply code_id_token|].
  split; [apply code_challenge|].
  exists (now W). split; [apply code_iat | apply code_exp].
Qed.

(** C8, at an input where the code departs from it.  Alice approves a
    request whose scope is [openid]: the response is the redirect 303, the
    authorization code that was built carries the signed ID token, the
    challenge of the AuthRequest envelope and [exp] 16 seconds after [iat],
    but its [sub] is the empty string and not the email of Alice, because the
    handler takes the subject from the email claim of the ID token, which
    this scope leaves out. *)
Theorem approve_code_sub_without_email_scope :
  let W := Demo.world true [("session-1", Demo.session);
                            ("auth-1", Demo.authRequest "openid")] [] [] in
  let r := Demo.request "POST" [("identity_id", "alice@example.com")]
             [("obligator_login_key", "session-1");
              ("obligator_auth_request", "auth-1")] in
  let idToken := approveIdToken W "alice@example.com" (Demo.authRequest "openid")
                                Demo.alice in
  let code := approveCode W (Demo.authRequest "openid") idToken
                          "signed(alice@example.com)" in
  (exists res,
      approveHandler W ["key-1"] None newResponseWriter r = Returned res
      /\ status res = 303
      /\ sentLocation res
         = Some ("https://rp.example/cb?client_id=https://rp.example"
                 +:+ "&redirect_uri=https://rp.example/cb"
                 +:+ "&code=signed()&state=S1&scope=openid"))
  /\ jwt_Sign W idToken "key-1" = Ok "signed(alice@example.com)"
  /\ jwt_Sign W code "key-1" = Ok "signed()"
  /\ code !! "sub" = Some (VStr "")
  /\ Email Demo.alice = "alice@example.com"
  /\ code !! "id_token" = Some (VStr "signed(alice@example.com)")
  /\ code !! "pkce_code_challenge" = Some (VStr "C1")
  /\ code !! "iat" = Some (VTime (now W))
  /\ code !! "exp" = Some (VTime (now W + 16 * Second)).
Proof.
  intros W r idToken code.
  split.
  { eexists. split; [vm_compute; reflexivity|]. split; vm_compute; reflexivity. }
  repeat split; vm_compute; reflexivity.
Qed.

(** With [email] in the scope the subject of the code is the email. *)
Example approve_code_sub_with_email_scope :
  let W := Demo.world true [] [] [] in
  let idToken := approveIdToken W "alice@example.com" (Demo.authRequest "openid email")
                                Demo.alice in
  approveCode W (Demo.authRequest "openid email") idToken "signed" !! "sub"
  = Some (VStr "alice@example.com").
Proof. vm_compute. reflexivity. Qed.

(** ** [/token] *)

Lemma ifaceIsString_true (v : Value) (s : string) :
  ifaceIsString v s = true <-> v = VStr s.
Proof.
  destruct v; simpl; try (split; [discriminate | intros H; discriminate]).
  rewrite String.eqb_eq. split; [now intros -> | now intros [= ->]].
Qed.

Lemma ifaceIsString_false (v : Value) (s : string) :
  ifaceIsString v s = false <-> v <> VStr s.
Proof.
  rewrite <- ifaceIsString_true. destruct (ifaceIsString v s); split; congruence.
Qed.

(** C1. A POST to [/token] whose code verifies and carries the claim
    [pkce_code_challenge].  The verifier is the form value [code_verifier],
    which Go reads as the empty string when the field is absent.
    - When the challenge is not the empty string, the request succeeds
      (status 200) only if the challenge is the unpadded URL-safe base64 of
      the SHA-256 of the verifier, and any other verifier is answered 401.
    - When the challenge is the empty string, a verifier that is not empty
      is answered 401. *)
Theorem token_pkce (W : World) (publicJwks : KeySet) (r : Request)
        (code : Token) (challenge : Value) :
  jwt_Parse W (Form_Get r "code") publicJwks = Ok code ->
  Token_Get code "pkce_code_challenge" = Some challenge ->
  let res := tokenHandler W publicJwks newResponseWriter r in
  let verifier := Form_Get r "code_verifier" in
  (challenge <> VStr "" ->
     (status res = 200 ->
      challenge = VStr (Base64.rawURLEncode (Sha256.sum (bytes_of_string verifier))))
     /\ (challenge <> VStr (Base64.rawURLEncode (Sha256.sum (bytes_of_string verifier))) ->
         status res = 401))
  /\ (challenge = VStr "" -> verifier <> "" -> status res = 401).
Proof.
  intros Hparse Hch res verifier. subst res verifier.
  change (Base64.rawURLEncode (Sha256.sum (bytes_of_string (Form_Get r "code_verifier"))))
    with (GeneratePKCECodeChallenge (Form_Get r "code_verifier")).
  assert (H401 : forall msg, status (WriteString msg (WriteHeader 401 newResponseWriter)) = 401)
    by reflexivity.
  unfold tokenHandler. rewrite Hparse.
  generalize (GeneratePKCECodeChallenge (Form_Get r "code_verifier")). intros hash.
  destruct (Token_Get code "id_token") as [signedIdTokenIface|].
  2:{ rewrite H401. repeat split; congruence. }
  destruct signedIdTokenIface as [signedIdToken| | | | | |];
    try (rewrite H401; repeat split; congruence).
  rewrite Hch. split.
  - intros Hne. apply ifaceIsString_false in Hne. rewrite Hne. simpl negb. cbv iota.
    destruct (ifaceIsString challenge hash) eqn:Hcmp; simpl negb; cbv iota.
    + apply ifaceIsString_true in Hcmp. split; [intros _; exact Hcmp | intros H; contradiction].
    + rewrite H401. split; congruence.
  - intros -> Hv. simpl ifaceIsString. simpl negb. cbv iota.
    rewrite (eqb_false_of_ne _ _ Hv). simpl negb. cbv iota.
    apply H401.
Qed.

Lemma token_pkce_witness :
  let verifier := "dBjftJeZ4CVP-mB92K27uhbUJU1p1r_wW1gFWFOEjXk" in
  let challenge := "E9Melhoa2OwvFrEMTJguCHaoeK1t8URWbuGJSstw-cM" in
  let W := Demo.world true [("code-1", Demo.code challenge);
                            ("code-2", Demo.code "")] [] [] in
  let wrong := Demo.request "POST" [("code", "code-1"); ("code_verifier", "guess")] [] in
  let extra := Demo.request "POST" [("code", "code-2"); ("code_verifier", verifier)] [] in
  status (tokenHandler W ["key-1"] newResponseWriter wrong) = 401
  /\ status (tokenHandler W ["key-1"] newResponseWriter extra) = 401.
Proof.
  intros verifier challenge W wrong extra. split.
  - assert (Hparse : jwt_Parse W (Form_Get wrong "code") ["key-1"]
                     = Ok (Demo.code challenge)) by (vm_compute; reflexivity).
    assert (Hch : Token_Get (Demo.code challenge) "pkce_code_challenge"
                  = Some (VStr challenge)) by (vm_compute; reflexivity).
    destruct (token_pkce W ["key-1"] wrong (Demo.code challenge) (VStr challenge)
                         Hparse Hch) as [Hnonempty _].
    apply Hnonempty.
    + intros H. discriminate H.
    + intros H. vm_compute in H. discriminate H.
  - assert (Hparse : jwt_Parse W (Form_Get extra "code") ["key-1"]
                     = Ok (Demo.code "")) by (vm_compute; reflexivity).
    assert (Hch : Token_Get (Demo.code "") "pkce_code_challenge"
                  = Some (VStr "")) by (vm_compute; reflexivity).
    destruct (token_pkce W ["key-1"] extra (Demo.code "") (VStr "") Hparse Hch)
      as [_ Hempty].
    apply Hempty.
    + reflexivity.
    + intros H. vm_compute in H. discriminate H.
Defined.

(** The exchange of RFC 7636, appendix B, run: the right verifier is
    answered with the token response, a wrong one and a missing one with 401. *)
Example token_run :
  let challenge := "E9Melhoa2OwvFrEMTJguCHaoeK1t8URWbuGJSstw-cM" in
  let W := Demo.world true [("code-1", Demo.code challenge)] [] [] in
  let send verifier :=
    tokenHandler W ["key-1"] newResponseWriter
                 (Demo.request "POST" (("code", "code-1") :: verifier) []) in
  (status (send [("code_verifier", "dBjftJeZ4CVP-mB92K27uhbUJU1p1r_wW1gFWFOEjXk")]) = 200
   /\ body (send [("code_verifier", "dBjftJeZ4CVP-mB92K27uhbUJU1p1r_wW1gFWFOEjXk")])
      = [BTokenResponse
           (MkTokenResponse "signed(alice@example.com)" "bearer" 3600 "id-token-1")])
  /\ status (send [("code_verifier", "dBjftJeZ4CVP-mB92K27uhbUJU1p1r_wW1gFWFOEjXj")]) = 401
  /\ status (send []) = 401.
Proof. vm_compute. repeat split; reflexivity. Qed.

(** ** [/callback] *)

(** C2. In an OIDC upstream flow that reaches the check of the nonce: when
    the nonce of the verified ID token of the provider differs from the
    nonce stored in the UpstreamRequest envelope the answer is 403 and the
    response sets no cookie, so none for the session; when the nonce claim
    is missing, or is not a string, the answer is 400. *)
Theorem callback_nonce (W : World) (r : Request) (stored idToken : Token) :
  reachesNonceCheck W r stored idToken ->
  let res := callbackHandler W newResponseWriter r in
  (forall nonce, Token_Get idToken "nonce" = Some (VStr nonce) ->
                 nonce <> claimFromToken "nonce" stored ->
                 status res = 403 /\ sentCookies res = [])
  /\ (Token_Get idToken "nonce" = None -> status res = 400)
  /\ (forall v, Token_Get idToken "nonce" = Some v ->
                (forall s, v <> VStr s) -> status res = 400).
Proof.
  intros (cookie & provider & tokenEndpoint & upstreamReq & resp & tokenRes & keyset
          & Hcookie & Hstored & Hprov & Hoidc & Hend & Hreq & Hdo & H200 & Hdec
          & Hks & Hparse).
  intros res. subst res. unfold callbackHandler.
  rewrite Hcookie, Hstored, Hprov, Hend, Hreq, Hdo, H200, Hdec, Hoidc, Hks, Hparse.
  change (200 =? 200) with true. simpl negb. cbv iota.
  change (ptIsOpenID (MkParsed idToken true)) with true.
  change (ptClaims (MkParsed idToken true)) with idToken.
  simpl negb. cbv iota.
  split; [|split].
  - intros nonce Hn Hne. rewrite Hn.
    rewrite eqb_false_of_ne by congruence. simpl negb. cbv iota.
    split; reflexivity.
  - intros Hn. rewrite Hn. reflexivity.
  - intros v Hn Hv. rewrite Hn. destruct v; try reflexivity.
    now destruct (Hv s).
Qed.

Lemma callback_nonce_witness :
  let W := Demo.world true
             [("up-1", Demo.upstreamRequest "google" "state-1")]
             [("id-token-g", Demo.providerToken (VStr "nonce-2"))]
             [("https://accounts.google.com/token", MkHttpResponse 200 "id-token-g")] in
  let r := Demo.request "GET" [("code", "c-1"); ("state", "state-1")]
             [("obligator_upstream_oauth2_request", "up-1");
              ("obligator_return_uri", "/auth?client_id=https://rp.example")] in
  status (callbackHandler W newResponseWriter r) = 403
  /\ sentCookies (callbackHandler W newResponseWriter r) = [].
Proof.
  intros W r.
  assert (Hreach : reachesNonceCheck W r (Demo.upstreamRequest "google" "state-1")
                     (ptClaims (Demo.providerToken (VStr "nonce-2")))).
  { unfold reachesNonceCheck. do 7 eexists.
    repeat split; vm_compute; reflexivity. }
  destruct (callback_nonce W r _ _ Hreach) as [Hmismatch _].
  apply (Hmismatch "nonce-2"); [vm_compute; reflexivity|].
  intros H. vm_compute in H. discriminate H.
Defined.

(** The same flow, run with the nonce the envelope stores, with another
    nonce, with a number for a nonce and with no nonce. *)
Example callback_run :
  let W nonce :=
    Demo.world true
      [("up-1", Demo.upstreamRequest "google" "state-1")]
      [("id-token-g", nonce)]
      [("https://accounts.google.com/token", MkHttpResponse 200 "id-token-g")] in
  let r := Demo.request "GET" [("code", "c-1"); ("state", "state-1")]
             [("obligator_upstream_oauth2_request", "up-1");
              ("obligator_return_uri", "/auth?client_id=https://rp.example")] in
  let res nonce := callbackHandler (W nonce) newResponseWriter r in
  (status (res (Demo.providerToken (VStr "nonce-1"))) = 303
   /\ sentCookies (res (Demo.providerToken (VStr "nonce-1")))
      = [MkCookie "obligator_return_uri" "" (-1);
         MkCookie "obligator_login_key" "+[alice@example.com]" 86400;
         MkCookie "obligator_upstream_oauth2_request" "" (-1)])
  /\ status (res (Demo.providerToken (VStr "nonce-2"))) = 403
  /\ status (res (Demo.providerToken (VNum 7))) = 400
  /\ status (res (MkParsed ∅ true)) = 400.
Proof. vm_compute. repeat split; reflexivity. Qed.

Lemma claimFromToken_agree (t1 t2 : Token) (claim : string) :
  agreeExceptState t1 t2 -> claim <> "state" ->
  claimFromToken claim t1 = claimFromToken claim t2.
Proof. intros H Hne. unfold claimFromToken. now rewrite (H claim Hne). Qed.

Lemma Form_Get_agree (r1 r2 : Request) (key : string) :
  (forall k, k <> "state" -> Form r1 !! k = Form r2 !! k) -> key <> "state" ->
  Form_Get r1 key = Form_Get r2 key.
Proof. intros H Hne. unfold Form_Get. now rewrite (H key Hne). Qed.

(** C5. The [state] of the upstream flow is never read at [/callback]: two
    requests that are the same except for the value of the query parameter
    [state] and for the [state] claim of the UpstreamRequest envelope get
    the same response, whatever the writer and the world. *)
Theorem callback_ignores_state (W : World) (w : ResponseWriter) (r1 r2 : Request) :
  sameExceptState W r1 r2 ->
  callbackHandler W w r1 = callbackHandler W w r2.
Proof.
  intros (Hmethod & Hhost & Hform & Hcookies & Henv).
  assert (Hcode : Form_Get r1 "code" = Form_Get r2 "code")
    by (apply Form_Get_agree; [exact Hform | discriminate]).
  assert (Hret : getReturnUriCookie W r1 = getReturnUriCookie W r2).
  { apply Hcookies. intros H. apply append_inj_l in H. discriminate H. }
  assert (Hlogin : getLoginCookie W r1 = getLoginCookie W r2).
  { apply Hcookies. intros H. apply append_inj_l in H. discriminate H. }
  unfold callbackHandler, sameEnvelopeExceptState in *.
  rewrite Hret, Hlogin.
  destruct (Request_Cookie r1 _) as [v1|e1], (Request_Cookie r2 _) as [v2|e2];
    try contradiction; [|now subst].
  destruct (ParseJWT W v1) as [t1|e1], (ParseJWT W v2) as [t2|e2];
    try contradiction; [|now subst].
  assert (Hbody : forall p, exchangeBody r1 t1 p = exchangeBody r2 t2 p).
  { intros p. unfold exchangeBody.
    rewrite Hcode, Hhost.
    now rewrite (claimFromToken_agree t1 t2 "pkce_code_verifier" Henv) by discriminate. }
  rewrite (claimFromToken_agree t1 t2 "provider_id" Henv) by discriminate.
  rewrite (claimFromToken_agree t1 t2 "nonce" Henv) by discriminate.
  destruct (GetOAuth2ProviderByID W _) as [provider|e]; [|reflexivity].
  rewrite Hbody, Hmethod, Hhost. reflexivity.
Qed.

Lemma callback_ignores_state_witness :
  let W := Demo.world true
             [("up-1", Demo.upstreamRequest "google" "state-1");
              ("up-2", Demo.upstreamRequest "google" "state-2")]
             [("id-token-g", Demo.providerToken (VStr "nonce-1"))]
             [("https://accounts.google.com/token", MkHttpResponse 200 "id-token-g")] in
  let r1 := Demo.request "GET" [("code", "c-1"); ("state", "state-1")]
              [("obligator_upstream_oauth2_request", "up-1");
               ("obligator_return_uri", "/auth?client_id=https://rp.example")] in
  let r2 := Demo.request "GET" [("code", "c-1"); ("state", "forged")]
              [("obligator_upstream_oauth2_request", "up-2");
               ("obligator_return_uri", "/auth?client_id=https://rp.example")] in
  callbackHandler W newResponseWriter r1 = callbackHandler W newResponseWriter r2.
Proof.
  intros W r1 r2. apply (callback_ignores_state W newResponseWriter r1 r2).
  split; [reflexivity|]. split; [reflexivity|]. split; [|split].
  - intros key Hkey.
    change (Form r1) with (<["code" := ["c-1"]]> (<["state" := ["state-1"]]> ∅)
                           : gmap string (list string)).
    change (Form r2) with (<["code" := ["c-1"]]> (<["state" := ["forged"]]> ∅)
                           : gmap string (list string)).
    destruct (decide (key = "code")) as [->|Hc]; [reflexivity|].
    rewrite !(lookup_insert_ne _ "code") by congruence.
    rewrite !(lookup_insert_ne _ "state") by congruence. reflexivity.
  - intros name Hname. unfold Request_Cookie.
    change (Cookies r1) with [("obligator_upstream_oauth2_request", "up-1");
                              ("obligator_return_uri", "/auth?client_id=https://rp.example")].
    change (Cookies r2) with [("obligator_upstream_oauth2_request", "up-2");
                              ("obligator_return_uri", "/auth?client_id=https://rp.example")].
    change (GetPrefix W +:+ "upstream_oauth2_request")
      with "obligator_upstream_oauth2_request" in Hname.
    unfold findCookie.
    rewrite (eqb_false_of_ne "obligator_upstream_oauth2_request" name) by congruence.
    reflexivity.
  - change (Request_Cookie r1 (GetPrefix W +:+ "upstream_oauth2_request"))
      with (@Ok string "up-1").
    change (Request_Cookie r2 (GetPrefix W +:+ "upstream_oauth2_request"))
      with (@Ok string "up-2").
    unfold sameEnvelopeExceptState.
    change (ParseJWT W "up-1") with (Ok (Demo.upstreamRequest "google" "state-1")).
    change (ParseJWT W "up-2") with (Ok (Demo.upstreamRequest "google" "state-2")).
    intros claim Hclaim. unfold Demo.upstreamRequest, Claim.
    destruct (decide (claim = "pkce_code_verifier")) as [->|H1]; [reflexivity|].
    rewrite !(lookup_insert_ne _ "pkce_code_verifier") by congruence.
    destruct (decide (claim = "nonce")) as [->|H2]; [reflexivity|].
    rewrite !(lookup_insert_ne _ "nonce") by congruence.
    rewrite !(lookup_insert_ne _ "state") by congruence. reflexivity.
Defined.

(** The two requests of the witness, run: the forged [state] is let through
    and the identity is added to the session. *)
Example callback_forged_state_run :
  let W := Demo.world true
             [("up-1", Demo.upstreamRequest "google" "state-1")]
             [("id-token-g", Demo.providerToken (VStr "nonce-1"))]
             [("https://accounts.google.com/token", MkHttpResponse 200 "id-token-g")] in
  let r := Demo.request "GET" [("code", "c-1"); ("state", "forged")]
             [("obligator_upstream_oauth2_request", "up-1");
              ("obligator_return_uri", "/auth?client_id=https://rp.example")] in
  claimFromToken "state" (Demo.upstreamRequest "google" "state-1") = "state-1"
  /\ status (callbackHandler W newResponseWriter r) = 303
  /\ In (MkCookie "obligator_login_key" "+[alice@example.com]" 86400)
        (sentCookies (callbackHandler W newResponseWriter r)).
Proof. vm_compute. repeat split. right. left. reflexivity. Qed.

(** Every error return of [GetProfile] has the empty string for the email. *)
Lemma GetProfile_error_email (W : World) (provider : OAuth2Provider)
      (accessToken uri email e : string) :
  GetProfile W provider accessToken = (uri, email, Some e) -> email = "".
Proof.
  unfold GetProfile.
  destruct (String.eqb (pID provider) "github"); [|now intros [= <- <- <-]].
  destruct (NewRequest W _ _ _) as [req|e0]; [|now intros [= <- <- <-]].
  destruct (http_Do W _) as [resp|e0]; [|now intros [= <- <- <-]].
  destruct (negb (StatusCode resp =? 200)); [now intros [= <- <- <-]|].
  destruct (decodeGitHubEmails W _) as [emails|e0]; [|now intros [= <- <- <-]].
  destruct (List.find gPrimary emails); [discriminate | now intros [= <- <- <-]].
Qed.

(** The [/callback] handler drops the error of [GetProfile].  For a provider
    that is not an OIDC provider, when the exchange of the code goes through
    and the fetch of the profile fails, a server configured as public goes
    on with the empty email: it asks for a session cookie with an identity
    whose [Id] is empty, sends it, and redirects with 303. *)
Lemma callback_profile_error_ignored (W : World) (r : Request)
      (cookie : string) (stored : Token) (provider : OAuth2Provider)
      (upstreamReq : HttpRequest) (resp : HttpResponse) (tokenRes : OAuth2TokenResponse)
      (uri email e : string) (users : list User) (returnUri : string) (config : Config)
      (sessionCookie : Cookie) :
  Request_Cookie r (GetPrefix W +:+ "upstream_oauth2_request") = Ok cookie ->
  ParseJWT W cookie = Ok stored ->
  GetOAuth2ProviderByID W (claimFromToken "provider_id" stored) = Ok provider ->
  pOpenIDConnect provider = false ->
  exchangeRequest W (pTokenURI provider) (exchangeBody r stored provider)
  = Ok upstreamReq ->
  http_Do W upstreamReq = Ok resp ->
  StatusCode resp = 200 ->
  decodeTokenResponse W (RespBody resp) = Ok tokenRes ->
  GetProfile W provider (AccessToken tokenRes) = (uri, email, Some e) ->
  GetUsers W = Ok users ->
  getReturnUriCookie W r = Ok returnUri ->
  GetConfig W = Ok config ->
  cfgPublic config = true ->
  addIdentToCookie W (Host r)
    (match getLoginCookie W r with Ok value => value | Err _ => "" end)
    (MkIdentity "email" "" (pName provider) "" "" true) = Ok sessionCookie ->
  setLoginCookieError W sessionCookie = None ->
  status (callbackHandler W newResponseWriter r) = 303
  /\ In sessionCookie (sentCookies (callbackHandler W newResponseWriter r)).
Proof.
  intros Hcookie Hstored Hprov Hoidc Hreq Hdo H200 Hdec Hprofile Husers Hret Hcfg
         Hpublic Hadd Hset.
  pose proof (GetProfile_error_email W _ _ _ _ _ Hprofile) as ->.
  unfold callbackHandler, tokenEndpointOf.
  rewrite Hcookie, Hstored, Hprov, Hoidc, Hreq, Hdo, H200, Hdec, Hprofile.
  change (200 =? 200) with true. simpl negb. cbv iota beta.
  rewrite Husers, Hret, Hcfg, Hpublic. simpl negb. simpl andb. cbv iota.
  rewrite Hadd. unfold setLoginCookie. rewrite Hset.
  split.
  - now apply status_Redirect.
  - apply sent_Redirect. apply queued_SetCookie.
    split; [reflexivity|]. simpl. right. now left.
Qed.

(** C3, at an input where the code departs from it.  A login at GitHub (a
    plain OAuth2 provider) on a public server: the exchange of the code
    answers 200, the fetch of the emails fails, [GetProfile] returns an
    error; yet the response is the redirect 303, and it sets a session
    cookie to which an identity with an empty [Id] was added. *)
Theorem callback_profile_error_run :
  let W := Demo.world true
             [("up-1", Demo.upstreamRequest "github" "state-1")] []
             [("https://github.com/login/oauth/access_token", MkHttpResponse 200 "{}")] in
  let r := Demo.request "GET" [("code", "c-1"); ("state", "state-1")]
             [("obligator_upstream_oauth2_request", "up-1");
              ("obligator_return_uri", "/auth?client_id=https://rp.example")] in
  let res := callbackHandler W newResponseWriter r in
  GetProfile W Demo.github "access-1" = ("", "", Some "connection refused")
  /\ addIdentToCookie W "auth.example" ""
       (MkIdentity "email" "" "GitHub" "" "" true)
     = Ok (MkCookie "obligator_login_key" "+[]" 86400)
  /\ status res = 303
  /\ sentLocation res = Some "/auth?client_id=https://rp.example"
  /\ sentCookies res
     = [MkCookie "obligator_return_uri" "" (-1);
        MkCookie "obligator_login_key" "+[]" 86400;
        MkCookie "obligator_upstream_oauth2_request" "" (-1)].
Proof. vm_compute. repeat split; reflexivity. Qed.

(** When the fetch of the emails answers, the identity has the primary
    email. *)
Example callback_profile_run :
  let W := Demo.world true
             [("up-1", Demo.upstreamRequest "github" "state-1")] []
             [("https://github.com/login/oauth/access_token", MkHttpResponse 200 "{}");
              ("https://api.github.com/user/emails",
               MkHttpResponse 200 "alice@example.com")] in
  let r := Demo.request "GET" [("code", "c-1"); ("state", "state-1")]
             [("obligator_upstream_oauth2_request", "up-1");
              ("obligator_return_uri", "/auth?client_id=https://rp.example")] in
  let res := callbackHandler W newResponseWriter r in
  status res = 303
  /\ sentCookies res
     = [MkCookie "obligator_return_uri" "" (-1);
        MkCookie "obligator_login_key" "+[alice@example.com]" 86400;
        MkCookie "obligator_upstream_oauth2_request" "" (-1)].
Proof. vm_compute. repeat split; reflexivity. Qed.

(** The upstream flow starts at [/login-oauth2]: the envelope it sets holds
    the state, the nonce and the verifier, and the redirect carries the
    challenge of that verifier. *)
Example login_oauth2_run :
  let W := Demo.world true [] [] [] in
  let r := Demo.request "GET" [("oauth2_provider_id", "google")] [] in
  exists res,
    loginOauth2Handler W newResponseWriter r = Returned res
    /\ status res = 303
    /\ map cName (sentCookies res) = ["obligator_upstream_oauth2_request"]
    /\ sentLocation res
       = Some ("https://accounts.google.com/auth?client_id=client-1"
               +:+ "&redirect_uri=https://auth.example/callback"
               +:+ "&state=state-1&scope=openid email profile"
               +:+ "&response_type=code&code_challenge_method=S256"
               +:+ "&code_challenge=aIvau3ndcAe9_iM1ADlIcVlcudWGuhxW51yx26LjINM"
               +:+ "&nonce=nonce-1&prompt=consent").
Proof. eexists. vm_compute. repeat split; reflexivity. Qed.

(** * More properties of the sources *)

(** ** [validate] and [checkErrPassthrough] *)



(** X2. A validation that [validate] returns is read off the first identity
    of the [identities] claim of a session cookie that verified against the
    public keys of the server. *)
Theorem validate_first_identity_only (W : World) (r : Request) (v : Validation) :
  validate W r = Returned (Ok (Some v)) ->
  exists value publicJwks parsed ident rest,
    Request_Cookie r (GetPrefix W +:+ "login_key") = Ok value
    /\ PublicSetOf W (GetJWKSet W) = Ok publicJwks
    /\ jwt_Parse W value publicJwks = Ok parsed
    /\ Token_Get parsed "identities" = Some (VIdents (ident :: rest))
    /\ v = MkValidation (Id ident) (IdType ident).
Proof.
  unfold validate, checkErrPassthrough.
  destruct (Request_Cookie r _) as [value|] eqn:Hc;
    [|destruct (GetForwardAuthPassthrough W); discriminate].
  destruct (PublicSetOf W _) as [ks|] eqn:Hks;
    [|destruct (GetForwardAuthPassthrough W); discriminate].
  destruct (jwt_Parse W _ _) as [parsed|] eqn:Hp;
    [|destruct (GetForwardAuthPassthrough W); discriminate].
  destruct (Token_Get parsed "identities") as [[| | | | |l|]|] eqn:Hi;
    try (destruct (GetForwardAuthPassthrough W); discriminate).
  destruct l as [|ident rest]; [discriminate|].
  intros [= <-]. exists value, ks, parsed, ident, rest. repeat split; assumption.
Qed.

Lemma validate_first_identity_only_witness :
  let second := MkIdentity "email" "bob@example.com" "GitHub" "" "bob@example.com" true in
  let W := Demo.world true
             [("session-2", {[ "identities" := VIdents [Demo.alice; second] ]})] [] [] in
  let r := Demo.request "GET" [] [("obligator_login_key", "session-2")] in
  exists value publicJwks parsed ident rest,
    Request_Cookie r (GetPrefix W +:+ "login_key") = Ok value
    /\ PublicSetOf W (GetJWKSet W) = Ok publicJwks
    /\ jwt_Parse W value publicJwks = Ok parsed
    /\ Token_Get parsed "identities" = Some (VIdents (ident :: rest))
    /\ MkValidation "alice@example.com" "email" = MkValidation (Id ident) (IdType ident).
Proof.
  intros second W r.
  apply (validate_first_identity_only W r (MkValidation "alice@example.com" "email")).
  vm_compute. reflexivity.
Defined.


(** ** The PKCE verifier, draw by draw *)

Lemma get_append_new (s : string) (c : ascii) :
  String.get (String.length s) (s +:+ String c EmptyString) = Some c.
Proof. induction s as [|a s IH]; simpl; [reflexivity | exact IH]. Qed.

Lemma get_append_old (s t : string) (n : nat) :
  (n < String.length s)%nat -> String.get n (s +:+ t) = String.get n s.
Proof.
  revert n. induction s as [|a s IH]; intros n Hn; simpl in *; [lia|].
  destruct n as [|n]; [reflexivity | apply IH; lia].
Qed.

(** The loop keeps what it has and puts the character of draw [i + k] at
    offset [k] after it. *)
Lemma verifierLoop_chars (rnd : RandInt) : forall (todo i : nat) (acc result : string),
  verifierLoop rnd todo i acc = Returned (Ok result) ->
  (forall n, (n < String.length acc)%nat -> String.get n result = String.get n acc)
  /\ (forall k, (k < todo)%nat ->
        exists v, rnd (i + k)%nat 66 = Ok v
                  /\ String.get (String.length acc + k) result = byteAt pkceChars v
                  /\ byteAt pkceChars v <> None).
Proof.
  induction todo as [|todo IH]; intros i acc result H; simpl in H.
  - injection H as <-. split; [reflexivity | intros k Hk; lia].
  - change (Z.of_nat 66) with 66 in H.
    destruct (rnd i 66) as [idx|e] eqn:Hdraw; [|discriminate].
    destruct (byteAt pkceChars idx) as [c|] eqn:Hc; [|discriminate].
    apply IH in H. destruct H as [Hold Hnew].
    rewrite length_append in Hold, Hnew. simpl in Hold, Hnew.
    split.
    + intros n Hn. rewrite Hold by lia. now apply get_append_old.
    + intros [|k] Hk.
      * exists idx. rewrite Nat.add_0_r. split; [exact Hdraw|].
        rewrite Nat.add_0_r, Hold by lia. rewrite get_append_new, Hc.
        split; [reflexivity | discriminate].
      * destruct (Hnew k) as (v & Hv & Hget & Hsome); [lia|].
        exists v. replace (i + S k)%nat with (S i + k)%nat by lia.
        split; [exact Hv|].
        replace (String.length acc + S k)%nat
          with (String.length acc + 1 + k)%nat by lia.
        now split.
Qed.

Lemma verifierLoop_error (rnd : RandInt) (e : string) :
  forall (j todo i : nat) (acc : string),
    (j < todo)%nat ->
    (forall k, (k < j)%nat -> exists v, rnd (i + k)%nat 66 = Ok v /\ 0 <= v < 66) ->
    rnd (i + j)%nat 66 = Err e ->
    verifierLoop rnd todo i acc = Returned (Err e).
Proof.
  induction j as [|j IH]; intros todo i acc Hj Hbefore Herr;
    (destruct todo as [|todo]; [lia|]); simpl; change (Z.of_nat 66) with 66.
  - rewrite Nat.add_0_r in Herr. now rewrite Herr.
  - destruct (Hbefore 0%nat) as (v & Hv & Hrange); [lia|].
    rewrite Nat.add_0_r in Hv. rewrite Hv.
    destruct (byteAt pkceChars v) as [c|] eqn:Hc.
    + apply IH; [lia| |].
      * intros k Hk. destruct (Hbefore (S k)) as (v' & Hv' & Hr'); [lia|].
        exists v'. replace (S i + k)%nat with (i + S k)%nat by lia. now split.
      * now replace (S i + j)%nat with (i + S j)%nat by lia.
    + exfalso. unfold byteAt in Hc.
      destruct (Z.ltb_spec v 0) as [?|_]; [lia|].
      assert (Hn : (Z.to_nat v < 66)%nat) by lia.
      revert Hc. generalize (Z.to_nat v) Hn. clear.
      intros n Hn. do 66 (destruct n as [|n]; [discriminate|]). lia.
Qed.

(** X3. The verifier spells the draws: the pair that [GeneratePKCEData]
    returns has, at each of its 64 positions, the character of the alphabet
    at the index the random source gave for that position. *)
Theorem GeneratePKCEData_spells_draws (rnd : RandInt) (challenge verifier : string) :
  GeneratePKCEData rnd = Returned (Ok (challenge, verifier)) ->
  forall i, (i < 64)%nat ->
    exists v, rnd i 66 = Ok v
              /\ 0 <= v < 66
              /\ String.get i verifier = String.get (Z.to_nat v) pkceChars.
Proof.
  unfold GeneratePKCEData, GeneratePKCECodeVerifier.
  destruct (verifierLoop rnd 64 0 "") as [[result|e]|m] eqn:Hloop; try discriminate.
  intros [= _ <-] i Hi.
  apply verifierLoop_chars in Hloop. destruct Hloop as [_ Hnew].
  destruct (Hnew i Hi) as (v & Hv & Hget & Hsome).
  exists v. simpl in Hv, Hget. split; [exact Hv|].
  unfold byteAt in Hget, Hsome.
  destruct (Z.ltb_spec v 0) as [Hneg|Hpos]; [now destruct Hsome|].
  split; [|exact Hget]. split; [exact Hpos|].
  destruct (Z.lt_ge_cases v 66) as [Hlt|Hge]; [exact Hlt|].
  exfalso. apply Hsome. clear - Hge Hpos.
  assert (Hn : (66 <= Z.to_nat v)%nat) by lia.
  revert Hn. generalize (Z.to_nat v). intros n Hn.
  do 66 (destruct n as [|n]; [lia|]). reflexivity.
Qed.

Lemma GeneratePKCEData_spells_draws_witness :
  let rnd : RandInt := fun i max => Ok (Z.of_nat (7 * i) mod max) in
  exists v, rnd 10%nat 66 = Ok v
            /\ 0 <= v < 66
            /\ String.get 10 "07elszGNU.4bipwDKRY18fmtAHOV_5cjqxELSZ29gnuBIPW~6dkryFMT-3ahovCJ"
               = String.get (Z.to_nat v) pkceChars.
Proof.
  intros rnd.
  apply (GeneratePKCEData_spells_draws rnd
           "_vBhuoLQZblHuixV_ntrAkHZ6TSiWWUr75q2C4I6I2w"
           "07elszGNU.4bipwDKRY18fmtAHOV_5cjqxELSZ29gnuBIPW~6dkryFMT-3ahovCJ").
  - vm_compute. reflexivity.
  - lia.
Defined.

(** X4. When a draw of the random source fails, after draws that were in
    range, [GeneratePKCEData] returns that error: no pair, and no partial
    verifier. *)
Theorem GeneratePKCEData_draw_error (rnd : RandInt) (j : nat) (e : string) :
  (j < 64)%nat ->
  (forall k, (k < j)%nat -> exists v, rnd k 66 = Ok v /\ 0 <= v < 66) ->
  rnd j 66 = Err e ->
  GeneratePKCEData rnd = Returned (Err e).
Proof.
  intros Hj Hbefore Herr. unfold GeneratePKCEData, GeneratePKCECodeVerifier.
  now rewrite (verifierLoop_error rnd e j 64 0 "" Hj Hbefore Herr).
Qed.

Lemma GeneratePKCEData_draw_error_witness :
  let rnd : RandInt :=
    fun i max => if (i <? 3)%nat then Ok (Z.of_nat i) else Err "entropy source closed" in
  GeneratePKCEData rnd = Returned (Err "entropy source closed").
Proof.
  intros rnd. apply (GeneratePKCEData_draw_error rnd 3 "entropy source closed").
  - lia.
  - intros k Hk. exists (Z.of_nat k). split; [|lia].
    unfold rnd. destruct (Nat.ltb_spec k 3); [reflexivity | lia].
  - reflexivity.
Defined.

(** ** [GetProfile] *)

Lemma find_first {A : Type} (f : A -> bool) (l : list A) (x : A) :
  List.find f l = Some x ->
  exists before after,
    l = before ++ x :: after /\ f x = true /\ Forall (fun y => f y = false) before.
Proof.
  induction l as [|a l IH]; simpl; [discriminate|].
  destruct (f a) eqn:Hfa.
  - intros [= ->]. exists [], l. repeat split; [exact Hfa | constructor].
  - intros H. destruct (IH H) as (before & after & -> & Hx & Hall).
    exists (a :: before), after. repeat split; [exact Hx | now constructor].
Qed.

(** X5. [GetProfile] succeeds only for the provider [github], and then only
    when the request to the emails endpoint, sent with the access token as
    bearer, is answered 200 with a list that has a primary email: it returns
    the URI of the provider and the first email marked primary, whether or
    not that email is marked verified.  Every error return has the empty
    string for the URI and for the email. *)
Theorem GetProfile_outcome (W : World) (provider : OAuth2Provider)
        (accessToken uri email : string) (err : option string) :
  GetProfile W provider accessToken = (uri, email, err) ->
  match err with
  | Some _ => uri = "" /\ email = ""
  | None =>
      pID provider = "github" /\ uri = pURI provider
      /\ exists resp emails before primary after,
           http_Do W (MkHttpRequest "GET" "https://api.github.com/user/emails"
                                    [("Authorization", "Bearer " +:+ accessToken)] [])
           = Ok resp
           /\ StatusCode resp = 200
           /\ decodeGitHubEmails W (RespBody resp) = Ok emails
           /\ emails = before ++ primary :: after
           /\ gPrimary primary = true
           /\ Forall (fun e => gPrimary e = false) before
           /\ email = gEmail primary
  end.
Proof.
  unfold GetProfile, NewRequest, Request_Header_Add.
  destruct (String.eqb_spec (pID provider) "github") as [Hid|_];
    [|intros [= <- <- <-]; now split].
  destruct (http_NewRequestError W _ _); [intros [= <- <- <-]; now split|].
  simpl hMethod. simpl hURL. simpl hHeader. simpl hBody. simpl app.
  destruct (http_Do W _) as [resp|e] eqn:Hdo; [|intros [= <- <- <-]; now split].
  destruct (Z.eqb_spec (StatusCode resp) 200) as [H200|_];
    [|intros [= <- <- <-]; now split].
  simpl negb. cbv iota.
  destruct (decodeGitHubEmails W _) as [emails|e] eqn:Hdec;
    [|intros [= <- <- <-]; now split].
  destruct (List.find gPrimary emails) as [primary|] eqn:Hfind;
    [|intros [= <- <- <-]; now split].
  intros [= <- <- <-]. split; [exact Hid|]. split; [reflexivity|].
  destruct (find_first _ _ _ Hfind) as (before & after & Hsplit & Hprim & Hall).
  exists resp, emails, before, primary, after. repeat split; assumption.
Qed.

Lemma GetProfile_outcome_witness :
  let W := Demo.world true [] []
             [("https://api.github.com/user/emails",
               MkHttpResponse 200 "alice@example.com")] in
  (pID Demo.github = "github" /\ "https://github.com" = pURI Demo.github
   /\ exists resp emails before primary after,
        http_Do W (MkHttpRequest "GET" "https://api.github.com/user/emails"
                                 [("Authorization", "Bearer " +:+ "access-1")] [])
        = Ok resp
        /\ StatusCode resp = 200
        /\ decodeGitHubEmails W (RespBody resp) = Ok emails
        /\ emails = before ++ primary :: after
        /\ gPrimary primary = true
        /\ Forall (fun e => gPrimary e = false) before
        /\ "alice@example.com" = gEmail primary)
  /\ ("" = "" /\ "" = "").
Proof.
  intros W. split.
  - apply (GetProfile_outcome W Demo.github "access-1" "https://github.com"
                              "alice@example.com" None).
    vm_compute. reflexivity.
  - apply (GetProfile_outcome W Demo.google "access-1" "" ""
                              (Some "Unknown GetProfile error")).
    vm_compute. reflexivity.
Defined.


(** ** Redirects *)

Lemma filter_none {A : Type} (f : A -> bool) (l : list A) :
  (forall x, In x l -> f x = false) -> List.filter f l = [].
Proof.
  induction l as [|a l IH]; intros H; simpl; [reflexivity|].
  rewrite (H a) by now left. apply IH. intros x Hx. apply H. now right.
Qed.

Lemma filter_key_after_set (k : string) (v : HeaderValue) (h : HeaderMap) :
  List.filter (fun kv => String.eqb (fst kv) k)
              (List.filter (fun kv => negb (String.eqb (fst kv) k)) h ++ [(k, v)])
  = [(k, v)].
Proof.
  rewrite List.filter_app, filter_none.
  - simpl. now rewrite String.eqb_refl.
  - intros x Hx. apply filter_In in Hx. destruct Hx as [_ Hx].
    now destruct (String.eqb (fst x) k).
Qed.

Lemma filter_key_other_set (k k' : string) (v : HeaderValue) (h : HeaderMap) :
  k' <> k ->
  List.filter (fun kv => String.eqb (fst kv) k)
              (List.filter (fun kv => negb (String.eqb (fst kv) k')) h ++ [(k', v)])
  = List.filter (fun kv => String.eqb (fst kv) k) h.
Proof.
  intros Hne. rewrite List.filter_app. simpl.
  rewrite (eqb_false_of_ne k' k Hne), app_nil_r.
  induction h as [|[a b] h IH]; simpl; [reflexivity|].
  destruct (String.eqb_spec a k') as [->|Ha]; simpl.
  - now rewrite (eqb_false_of_ne k' k Hne).
  - destruct (String.eqb a k); simpl; now rewrite IH.
Qed.

(** [http.Redirect] on a writer that has not sent its header: the status is
    the code and the [Location] is the target. *)
Lemma sentLocation_Redirect (method url : string) (code : Z) (w : ResponseWriter) :
  wrote w = None -> sentLocation (Redirect method url code w) = Some url.
Proof.
  intros Hw. unfold sentLocation, Redirect.
  assert (H1 : List.filter (fun kv => String.eqb (fst kv) "Location")
                 (header (Header_Set "Location" (HText url) w))
               = [("Location", HText url)]) by apply filter_key_after_set.
  assert (H2 : List.filter (fun kv => String.eqb (fst kv) "Location")
                 (header (Header_Set "Content-Type"
                            (HText "text/html; charset=utf-8")
                            (Header_Set "Location" (HText url) w)))
               = [("Location", HText url)]).
  { unfold Header_Set at 1. cbn [header].
    rewrite filter_key_other_set by discriminate. exact H1. }
  destruct (negb (Header_has "Content-Type" (header w))); cbn [andb].
  - destruct (String.eqb method "GET"); cbn [orb].
    + rewrite sentHeaders_Write, sentHeaders_WriteHeader.
      unfold sentHeaders. cbn [wrote Header_Set]. rewrite Hw. now rewrite H2.
    + destruct (String.eqb method "HEAD");
        rewrite sentHeaders_WriteHeader; unfold sentHeaders;
        cbn [wrote Header_Set]; rewrite Hw; [now rewrite H2 | now rewrite H1].
  - rewrite sentHeaders_WriteHeader. unfold sentHeaders.
    cbn [wrote Header_Set]. rewrite Hw. now rewrite H1.
Qed.

Lemma omap_cookie_cons (kv : string * HeaderValue) (h : HeaderMap) :
  omap cookie_of (kv :: h)
  = match cookie_of kv with
    | Some c => c :: omap cookie_of h
    | None => omap cookie_of h
    end.
Proof. reflexivity. Qed.

Lemma omap_cookie_filter (k : string) (h : HeaderMap) :
  (forall c, ~ In (k, HCookie c) h) ->
  omap cookie_of (List.filter (fun kv => negb (String.eqb (fst kv) k)) h)
  = omap cookie_of h.
Proof.
  induction h as [|[a b] h IH]; intros Hno; [reflexivity|].
  assert (IH' : omap cookie_of
                  (List.filter (fun kv => negb (String.eqb (fst kv) k)) h)
                = omap cookie_of h).
  { apply IH. intros c Hc. apply (Hno c). now right. }
  cbn [List.filter fst].
  destruct (String.eqb_spec a k) as [->|Hne]; cbn [negb].
  - destruct b as [t|c]; [exact IH' | destruct (Hno c); now left].
  - rewrite !omap_cookie_cons. now rewrite IH'.
Qed.

(** [http.Redirect] adds no cookie and drops none, when the cookie lines of
    the header map are under the key [Set-Cookie]. *)
Lemma sentCookies_Redirect (method url : string) (code : Z) (w : ResponseWriter) :
  wrote w = None ->
  (forall k c, In (k, HCookie c) (header w) -> k = "Set-Cookie") ->
  sentCookies (Redirect method url code w) = omap cookie_of (header w).
Proof.
  intros Hw Hkeys.
  assert (H1 : omap cookie_of (header (Header_Set "Location" (HText url) w))
               = omap cookie_of (header w)).
  { cbn [header Header_Set]. rewrite omap_app, omap_cookie_filter.
    - cbn. apply app_nil_r.
    - intros c Hc. apply Hkeys in Hc. discriminate. }
  assert (H2 : omap cookie_of
                 (header (Header_Set "Content-Type" (HText "text/html; charset=utf-8")
                                     (Header_Set "Location" (HText url) w)))
               = omap cookie_of (header w)).
  { rewrite <- H1. unfold Header_Set at 1. cbn [header].
    rewrite omap_app, omap_cookie_filter.
    - cbn. apply app_nil_r.
    - intros c Hc. cbn [header Header_Set] in Hc. apply in_app_or in Hc.
      destruct Hc as [Hc|[Hc|[]]]; [|discriminate].
      apply filter_In in Hc. destruct Hc as [Hc _]. apply Hkeys in Hc. discriminate. }
  unfold sentCookies, Redirect.
  destruct (negb (Header_has "Content-Type" (header w))); cbn [andb].
  - destruct (String.eqb method "GET"); cbn [orb].
    + rewrite sentHeaders_Write, sentHeaders_WriteHeader.
      unfold sentHeaders. cbn [wrote Header_Set]. rewrite Hw. exact H2.
    + destruct (String.eqb method "HEAD");
        rewrite sentHeaders_WriteHeader; unfold sentHeaders;
        cbn [wrote Header_Set]; rewrite Hw; [exact H2 | exact H1].
  - rewrite sentHeaders_WriteHeader. unfold sentHeaders.
    cbn [wrote Header_Set]. rewrite Hw. exact H1.
Qed.


(** ** [ParseAuthRequest] *)

Lemma Redirect_fresh (method url : string) (code : Z) :
  status (Redirect method url code newResponseWriter) = code
  /\ sentCookies (Redirect method url code newResponseWriter) = []
  /\ sentLocation (Redirect method url code newResponseWriter) = Some url.
Proof.
  split; [now apply status_Redirect|]. split.
  - rewrite sentCookies_Redirect; [reflexivity | reflexivity | intros k c []].
  - now apply sentLocation_Redirect.
Qed.

(** What a request returned by [ParseAuthRequest] tells. *)
Lemma ParseAuthRequest_Ok (W : World) (w w' : ResponseWriter) (r : Request)
        (ar : OAuth2AuthRequest) :
  ParseAuthRequest W w r = (w', Ok ar) ->
  w' = w
  /\ ar = MkAuthRequest (Form_Get r "client_id") (Form_Get r "redirect_uri")
                        (Form_Get r "scope") (Form_Get r "state")
                        (Form_Get r "response_type") (Form_Get r "code_challenge")
  /\ Form_Get r "client_id" <> ""
  /\ Form_Get r "redirect_uri" <> ""
  /\ Form_Get r "prompt" <> "none"
  /\ Form_Get r "response_type" <> ""
  /\ exists clientUri redirectUri,
       url_Parse W (Form_Get r "client_id") = Ok clientUri
       /\ url_Parse W (Form_Get r "redirect_uri") = Ok redirectUri
       /\ uHost clientUri = uHost redirectUri.
Proof.
  unfold ParseAuthRequest.
  destruct (String.eqb_spec (Form_Get r "client_id") "") as [|Hc]; [discriminate|].
  destruct (String.eqb_spec (Form_Get r "redirect_uri") "") as [|Hr]; [discriminate|].
  destruct (url_Parse W (Form_Get r "client_id")) as [cu|]; [|discriminate].
  destruct (url_Parse W (Form_Get r "redirect_uri")) as [ru|]; [|discriminate].
  destruct (String.eqb_spec (uHost cu) (uHost ru)) as [Hhost|]; [|discriminate].
  cbn [negb].
  destruct (String.eqb_spec (Form_Get r "prompt") "none") as [|Hp]; [discriminate|].
  destruct (String.eqb_spec (Form_Get r "response_type") "") as [|Ht]; [discriminate|].
  intros [= <- <-]. repeat split; try assumption.
  exists cu, ru. repeat split. exact Hhost.
Qed.

(** X6. When [ParseAuthRequest] returns a request it has written nothing:
    the writer is as it was.  The request holds the form values as they
    came; [client_id] and [redirect_uri] are present and parse to URIs with
    the same host, [prompt] is not [none], and [response_type] is present,
    whatever its value. *)
Theorem ParseAuthRequest_accepts (W : World) (w w' : ResponseWriter) (r : Request)
        (ar : OAuth2AuthRequest) :
  ParseAuthRequest W w r = (w', Ok ar) ->
  w' = w
  /\ ar = MkAuthRequest (Form_Get r "client_id") (Form_Get r "redirect_uri")
                        (Form_Get r "scope") (Form_Get r "state")
                        (Form_Get r "response_type") (Form_Get r "code_challenge")
  /\ Form_Get r "client_id" <> ""
  /\ Form_Get r "redirect_uri" <> ""
  /\ Form_Get r "prompt" <> "none"
  /\ Form_Get r "response_type" <> ""
  /\ exists clientUri redirectUri,
       url_Parse W (Form_Get r "client_id") = Ok clientUri
       /\ url_Parse W (Form_Get r "redirect_uri") = Ok redirectUri
       /\ uHost clientUri = uHost redirectUri.
Proof. apply ParseAuthRequest_Ok. Qed.

Lemma ParseAuthRequest_accepts_witness :
  let W := Demo.world true [] [] [] in
  let r := Demo.request "GET"
             [("client_id", "https://rp.example");
              ("redirect_uri", "https://rp.example/cb");
              ("response_type", "token id_token"); ("state", "S1")] [] in
  let ar := MkAuthRequest "https://rp.example" "https://rp.example/cb" "" "S1"
                          "token id_token" "" in
  ParseAuthRequest W newResponseWriter r = (newResponseWriter, Ok ar)
  /\ Form_Get r "prompt" <> "none"
  /\ exists clientUri redirectUri,
       url_Parse W (Form_Get r "client_id") = Ok clientUri
       /\ url_Parse W (Form_Get r "redirect_uri") = Ok redirectUri
       /\ uHost clientUri = uHost redirectUri.
Proof.
  intros W r ar.
  assert (Hrun : ParseAuthRequest W newResponseWriter r = (newResponseWriter, Ok ar))
    by (vm_compute; reflexivity).
  split; [exact Hrun|].
  destruct (ParseAuthRequest_accepts W _ _ r ar Hrun)
    as (_ & _ & _ & _ & Hprompt & _ & Hhosts).
  split; [exact Hprompt | exact Hhosts].
Defined.

(** What an error returned by [ParseAuthRequest] tells. *)
Lemma ParseAuthRequest_Err (W : World) (w' : ResponseWriter) (r : Request)
        (e : string) :
  ParseAuthRequest W newResponseWriter r = (w', Err e) ->
  sentCookies w' = []
  /\ ((status w' = 400 /\ body w' = [BText e] /\ sentLocation w' = None)
      \/ (status w' = 303
          /\ (exists clientUri redirectUri,
                 url_Parse W (Form_Get r "client_id") = Ok clientUri
                 /\ url_Parse W (Form_Get r "redirect_uri") = Ok redirectUri
                 /\ uHost clientUri = uHost redirectUri)
          /\ exists reason,
               (reason = "interaction_required" \/ reason = "unsupported_response_type")
               /\ sentLocation w'
                  = Some (Form_Get r "redirect_uri" +:+ "?error=" +:+ reason
                          +:+ "&state=" +:+ Form_Get r "state"))).
Proof.
  unfold ParseAuthRequest.
  destruct (String.eqb (Form_Get r "client_id") "");
    [intros [= <- <-]; split; [reflexivity | left; repeat split]|].
  destruct (String.eqb (Form_Get r "redirect_uri") "");
    [intros [= <- <-]; split; [reflexivity | left; repeat split]|].
  destruct (url_Parse W (Form_Get r "client_id")) as [cu|];
    [|intros [= <- <-]; split; [reflexivity | left; repeat split]].
  destruct (url_Parse W (Form_Get r "redirect_uri")) as [ru|];
    [|intros [= <- <-]; split; [reflexivity | left; repeat split]].
  destruct (String.eqb_spec (uHost cu) (uHost ru)) as [Hhost|]; cbn [negb];
    [|intros [= <- <-]; split; [reflexivity | left; repeat split]].
  destruct (String.eqb (Form_Get r "prompt") "none").
  { intros [= <- <-].
    destruct (Redirect_fresh (Method r)
                (Form_Get r "redirect_uri" +:+ "?error=interaction_required&state="
                 +:+ Form_Get r "state") StatusSeeOther) as (Hs & Hc & Hl).
    split; [exact Hc|]. right. split; [exact Hs|].
    split; [exists cu, ru; now repeat split|].
    exists "interaction_required". split; [now left|].
    rewrite Hl. reflexivity. }
  destruct (String.eqb (Form_Get r "response_type") ""); [|discriminate].
  intros [= <- <-].
  destruct (Redirect_fresh (Method r)
              (Form_Get r "redirect_uri" +:+ "?error=unsupported_response_type&state="
               +:+ Form_Get r "state") StatusSeeOther) as (Hs & Hc & Hl).
  split; [exact Hc|]. right. split; [exact Hs|].
  split; [exists cu, ru; now repeat split|].
  exists "unsupported_response_type". split; [now right|].
  rewrite Hl. reflexivity.
Qed.




(** ** [/auth] *)

Lemma In_insertLogin (l x : Login) (sorted : list Login) :
  In l (insertLogin x sorted) <-> l = x \/ In l sorted.
Proof.
  induction sorted as [|y sorted IH]; simpl.
  - intuition.
  - destruct (String.ltb (lTimestamp y) (lTimestamp x)); simpl; [intuition|].
    rewrite IH. intuition.
Qed.

Lemma In_sortLogins (l : Login) (ls : list Login) :
  In l (sortLogins ls) <-> In l ls.
Proof.
  unfold sortLogins. induction ls as [|x ls IH]; simpl; [reflexivity|].
  rewrite In_insertLogin, IH. intuition.
Qed.

Lemma loggedInBefore_false (previousLogins : list Login) (ident : Identity) :
  loggedInBefore previousLogins ident = false
  <-> forall l, In l previousLogins ->
                ~ (lId l = Id ident /\ lProviderName l = ProviderName ident).
Proof.
  unfold loggedInBefore. split.
  - intros H l Hin [H1 H2].
    assert (Ht : existsb (fun login => String.eqb (lId login) (Id ident)
                            && String.eqb (lProviderName login) (ProviderName ident))
                         previousLogins = true).
    { apply existsb_exists. exists l. split; [exact Hin|].
      rewrite H1, H2, !String.eqb_refl. reflexivity. }
    congruence.
  - intros H. apply Bool.not_true_is_false. intros Ht.
    apply existsb_exists in Ht. destruct Ht as (l & Hin & Heq).
    apply andb_prop in Heq. destruct Heq as [H1 H2].
    apply String.eqb_eq in H1, H2. now apply (H l Hin).
Qed.

(** The hash in the envelope is that of the value of the session cookie as
    presented; the identities and logins are those of a cookie that
    verifies. *)
Lemma authSession_parts (W : World) (publicJwks : KeySet) (r : Request) :
  snd (authSession W publicJwks r)
  = match Request_Cookie r (GetPrefix W +:+ "login_key") with
    | Ok value => if String.eqb value "" then "" else Hash W value
    | Err _ => ""
    end
  /\ (forall i, In i (fst (fst (authSession W publicJwks r))) ->
        exists value parsed idents,
          Request_Cookie r (GetPrefix W +:+ "login_key") = Ok value
          /\ jwt_Parse W value publicJwks = Ok parsed
          /\ tokenIdentities parsed = Some idents /\ In i idents)
  /\ (forall client ls, snd (fst (authSession W publicJwks r)) !! client = Some ls ->
        exists value parsed logins,
          Request_Cookie r (GetPrefix W +:+ "login_key") = Ok value
          /\ jwt_Parse W value publicJwks = Ok parsed
          /\ tokenLogins parsed = Some logins /\ logins !! client = Some ls).
Proof.
  unfold authSession.
  assert (Hnone : forall h : string,
             (forall i, In i (fst (fst (([] : list Identity),
                                        (∅ : gmap string (list Login)), h))) -> False)
             /\ (forall client ls,
                    snd (fst (([] : list Identity), (∅ : gmap string (list Login)), h))
                    !! client = Some ls -> False)).
  { intros h. cbn [fst snd]. split; [intros i [] |].
    intros c ls H. now rewrite lookup_empty in H. }
  destruct (Request_Cookie r _) as [value|];
    [|split; [reflexivity | split; [intros i Hi; now destruct (proj1 (Hnone "") i)
                                   | intros c ls H; now destruct (proj2 (Hnone "") c ls)]]].
  destruct (String.eqb value ""); cbn [negb];
    [split; [reflexivity | split; [intros i Hi; now destruct (proj1 (Hnone "") i)
                                  | intros c ls H; now destruct (proj2 (Hnone "") c ls)]]|].
  destruct (jwt_Parse W value publicJwks) as [parsed|] eqn:Hp;
    [|split; [reflexivity
             | split; [intros i Hi; now destruct (proj1 (Hnone (Hash W value)) i)
                      | intros c ls H; now destruct (proj2 (Hnone (Hash W value)) c ls)]]].
  split; [reflexivity|]. cbn [fst snd]. split.
  - intros i Hi. destruct (tokenIdentities parsed) as [idents|] eqn:Hids; [|destruct Hi].
    exists value, parsed, idents. repeat split; assumption.
  - intros c ls H. destruct (tokenLogins parsed) as [logins|] eqn:Hls;
      [|cbn [from_option] in H; now rewrite lookup_empty in H].
    exists value, parsed, logins. repeat split; assumption.
Qed.

(** What a response 200 of [/auth] tells. *)
Lemma auth_success (W : World) (publicJwks : KeySet) (r : Request) :
  status (authHandler W publicJwks newResponseWriter r) = 200 ->
  exists ar key signed providers clientUri page,
    let session := authSession W publicJwks r in
    let identities := fst (fst session) in
    let previousLogins := sortLogins (default [] (snd (fst session) !! arClientId ar)) in
    ParseAuthRequest W newResponseWriter r = (newResponseWriter, Ok ar)
    /\ Key0 (GetJWKSet W) = Some key
    /\ jwt_Sign W (authRequestEnvelope W r ar (snd session)) key = Ok signed
    /\ GetOAuth2Providers W = Ok providers
    /\ url_Parse W (arClientId ar) = Ok clientUri
    /\ ExecuteTemplate W "auth.html"
         (MkAuthData (GetRootUri W) (GetDisplayName W) (uHost clientUri)
            identities
            (List.filter (fun ident => negb (loggedInBefore previousLogins ident))
                         identities)
            previousLogins providers (providerLogoMap W) ""
            (match GetSmtpConfig W with Ok _ => true | Err _ => false end)
            (URLPath r +:+ "?" +:+ RawQuery r))
       = Ok page
    /\ body (authHandler W publicJwks newResponseWriter r) = [BText page]
    /\ sentCookies (authHandler W publicJwks newResponseWriter r)
       = [MkCookie (GetPrefix W +:+ "auth_request") signed 480;
          MkCookie (GetPrefix W +:+ "return_uri") (URLPath r +:+ "?" +:+ RawQuery r)
                   (returnUriMaxAge W)].
Proof.
  unfold authHandler.
  destruct (ParseAuthRequest W newResponseWriter r) as [w [ar|e]] eqn:Hparse.
  2:{ intros Hs. apply ParseAuthRequest_Err in Hparse.
      destruct Hparse as [_ [(H & _)|(H & _)]]; rewrite H in Hs; discriminate. }
  pose proof (ParseAuthRequest_Ok W _ _ r ar Hparse) as (-> & _).
  cbv zeta. fold (authSession W publicJwks r).
  destruct (authSession W publicJwks r) as [[identities logins] hashed].
  cbn [fst snd]. unfold Build. fold (authRequestEnvelope W r ar hashed).
  unfold setJwtCookie, setReturnUriCookie.
  destruct (Key0 (GetJWKSet W)) as [key|] eqn:Hkey.
  2:{ destruct (GetOAuth2Providers W); [|intros H; discriminate H].
      destruct (url_Parse W (arClientId ar)); [|intros H; discriminate H].
      destruct (ExecuteTemplate W _ _); intros H; discriminate H. }
  destruct (jwt_Sign W _ key) as [signed|] eqn:Hsign.
  2:{ destruct (GetOAuth2Providers W); [|intros H; discriminate H].
      destruct (url_Parse W (arClientId ar)); [|intros H; discriminate H].
      destruct (ExecuteTemplate W _ _); intros H; discriminate H. }
  destruct (GetOAuth2Providers W) as [providers|] eqn:Hprov;
    [|intros H; discriminate H].
  destruct (url_Parse W (arClientId ar)) as [clientUri|] eqn:Huri;
    [|intros H; discriminate H].
  destruct (ExecuteTemplate W _ _) as [page|] eqn:Hpage; [|intros H; discriminate H].
  intros _. exists ar, key, signed, providers, clientUri, page.
  cbv zeta. cbn [fst snd].
  repeat split; try reflexivity; assumption.
Qed.


(** X8. A response 200 of [/auth] sets two cookies, in this order: the
    AuthRequest cookie, living 480 seconds, with the signed envelope, and
    the return-URI cookie with the path and raw query of the request.  The
    envelope holds the parsed request, [scope], [nonce] and [code_challenge]
    as they came, [exp] 8 minutes after [iat], and as [login_key_hash] the
    hash of the value of the session cookie as presented, also when that
    cookie does not verify (the empty string without a cookie). *)
Theorem auth_envelope (W : World) (publicJwks : KeySet) (r : Request) :
  status (authHandler W publicJwks newResponseWriter r) = 200 ->
  exists ar key signed,
    let hashed := match Request_Cookie r (GetPrefix W +:+ "login_key") with
                  | Ok value => if String.eqb value "" then "" else Hash W value
                  | Err _ => ""
                  end in
    let envelope := authRequestEnvelope W r ar hashed in
    ParseAuthRequest W newResponseWriter r = (newResponseWriter, Ok ar)
    /\ Key0 (GetJWKSet W) = Some key
    /\ jwt_Sign W envelope key = Ok signed
    /\ sentCookies (authHandler W publicJwks newResponseWriter r)
       = [MkCookie (GetPrefix W +:+ "auth_request") signed 480;
          MkCookie (GetPrefix W +:+ "return_uri") (URLPath r +:+ "?" +:+ RawQuery r)
                   (returnUriMaxAge W)]
    /\ envelope !! "login_key_hash" = Some (VStr hashed)
    /\ envelope !! "client_id" = Some (VStr (Form_Get r "client_id"))
    /\ envelope !! "redirect_uri" = Some (VStr (Form_Get r "redirect_uri"))
    /\ envelope !! "state" = Some (VStr (Form_Get r "state"))
    /\ envelope !! "response_type" = Some (VStr (Form_Get r "response_type"))
    /\ envelope !! "scope" = Some (VStr (Form_Get r "scope"))
    /\ envelope !! "nonce" = Some (VStr (Form_Get r "nonce"))
    /\ envelope !! "pkce_code_challenge" = Some (VStr (Form_Get r "code_challenge"))
    /\ exists iat, envelope !! "iat" = Some (VTime iat)
                   /\ envelope !! "exp" = Some (VTime (iat + 8 * Minute)).
Proof.
  intros Hs.
  destruct (auth_success W publicJwks r Hs)
    as (ar & key & signed & providers & clientUri & page
        & Hparse & Hkey & Hsign & _ & _ & _ & _ & Hcookies).
  destruct (authSession_parts W publicJwks r) as [Hhash _].
  rewrite Hhash in Hsign.
  pose proof (ParseAuthRequest_Ok W _ _ r ar Hparse) as (_ & Har & _).
  exists ar, key, signed. cbv zeta.
  split; [exact Hparse|]. split; [exact Hkey|]. split; [exact Hsign|].
  split; [exact Hcookies|].
  rewrite Har.
  unfold authRequestEnvelope, Expiration, IssuedAt, Claim, NewBuilder, Time_Add.
  cbn [arClientId arRedirectUri arState arResponseType].
  repeat split; try (simplify_map_eq; reflexivity).
  exists (now W). split; simplify_map_eq; reflexivity.
Qed.

Lemma auth_envelope_witness :
  let W := Demo.world true [] [] [] in
  let r := MkRequest "GET" "auth.example" "/auth" "client_id=https://rp.example"
             (list_to_map
                [("client_id", ["https://rp.example"]);
                 ("redirect_uri", ["https://rp.example/cb"]);
                 ("response_type", ["code"]); ("nonce", ["N1"])])
             [("obligator_login_key", "stale-session")] in
  exists ar signed,
    let envelope := authRequestEnvelope W r ar "hash(stale-session)" in
    jwt_Sign W envelope "key-1" = Ok signed
    /\ sentCookies (authHandler W ["key-1"] newResponseWriter r)
       = [MkCookie "obligator_auth_request" signed 480;
          MkCookie "obligator_return_uri" "/auth?client_id=https://rp.example" 480]
    /\ envelope !! "login_key_hash" = Some (VStr "hash(stale-session)")
    /\ envelope !! "nonce" = Some (VStr "N1").
Proof.
  intros W r.
  destruct (auth_envelope W ["key-1"] r) as (ar & key & signed & H);
    [vm_compute; reflexivity|].
  cbv zeta in H.
  destruct H as (_ & Hkey & Hsign & Hcookies & Hhash & _ & _ & _ & _ & _ & Hnonce & _).
  injection Hkey as <-.
  exists ar, signed. cbv zeta.
  split; [exact Hsign|]. split; [exact Hcookies|]. split; [exact Hhash | exact Hnonce].
Defined.

(** X9. The page of a response 200 of [/auth] is the template [auth.html]
    over data in which every identity comes from a session cookie that
    verifies, every previous login is a login of that session for the
    [client_id] of the request, and the remaining identities are exactly the
    identities with no previous login of the same id and provider. *)
Theorem auth_page (W : World) (publicJwks : KeySet) (r : Request) :
  status (authHandler W publicJwks newResponseWriter r) = 200 ->
  exists data page,
    ExecuteTemplate W "auth.html" data = Ok page
    /\ body (authHandler W publicJwks newResponseWriter r) = [BText page]
    /\ tdReturnUri data = URLPath r +:+ "?" +:+ RawQuery r
    /\ (forall i, In i (tdIdentities data) ->
          exists value parsed idents,
            Request_Cookie r (GetPrefix W +:+ "login_key") = Ok value
            /\ jwt_Parse W value publicJwks = Ok parsed
            /\ tokenIdentities parsed = Some idents /\ In i idents)
    /\ (forall l, In l (tdPreviousLogins data) ->
          exists value parsed logins ls,
            Request_Cookie r (GetPrefix W +:+ "login_key") = Ok value
            /\ jwt_Parse W value publicJwks = Ok parsed
            /\ tokenLogins parsed = Some logins
            /\ logins !! Form_Get r "client_id" = Some ls /\ In l ls)
    /\ (forall i, In i (tdRemainingIdentities data)
                  <-> In i (tdIdentities data)
                      /\ forall l, In l (tdPreviousLogins data) ->
                                   ~ (lId l = Id i /\ lProviderName l = ProviderName i)).
Proof.
  intros Hs.
  destruct (auth_success W publicJwks r Hs)
    as (ar & key & signed & providers & clientUri & page
        & Hparse & _ & _ & _ & _ & Hpage & Hbody & _).
  destruct (authSession_parts W publicJwks r) as (_ & Hids & Hlogins).
  pose proof (ParseAuthRequest_Ok W _ _ r ar Hparse) as (_ & Har & _).
  eexists. exists page. split; [exact Hpage|]. split; [exact Hbody|].
  cbn [tdReturnUri tdIdentities tdPreviousLogins tdRemainingIdentities].
  split; [reflexivity|]. split; [exact Hids|]. split.
  - intros l Hl. apply (proj1 (In_sortLogins _ _)) in Hl.
    destruct (snd (fst (authSession W publicJwks r)) !! arClientId ar) as [ls|] eqn:Hc;
      [|destruct Hl].
    destruct (Hlogins _ _ Hc) as (value & parsed & logins & H1 & H2 & H3 & H4).
    exists value, parsed, logins, ls. rewrite Har in H4. cbn [arClientId] in H4.
    cbn [from_option] in Hl. repeat split; assumption.
  - intros i. rewrite filter_In, Bool.negb_true_iff, loggedInBefore_false. reflexivity.
Qed.

Lemma auth_page_witness :
  let bob := MkIdentity "email" "bob@example.com" "GitHub" "" "bob@example.com" true in
  let before := MkLogin "email" "alice@example.com" "Google" "2024-05-01T10:00:00Z" in
  let session : Token :=
    <["logins" := VLogins {[ "https://rp.example" := [before] ]}]>
      {[ "identities" := VIdents [Demo.alice; bob] ]} in
  let W := Demo.world true [("session-3", session)] [] [] in
  let r := Demo.request "GET"
             [("client_id", "https://rp.example");
              ("redirect_uri", "https://rp.example/cb");
              ("response_type", "code")]
             [("obligator_login_key", "session-3")] in
  exists data page,
    ExecuteTemplate W "auth.html" data = Ok page
    /\ body (authHandler W ["key-1"] newResponseWriter r) = [BText page]
    /\ (forall i, In i (tdRemainingIdentities data)
                  <-> In i (tdIdentities data)
                      /\ forall l, In l (tdPreviousLogins data) ->
                                   ~ (lId l = Id i /\ lProviderName l = ProviderName i)).
Proof.
  intros bob before session W r.
  destruct (auth_page W ["key-1"] r) as (data & page & H1 & H2 & _ & _ & _ & H3);
    [vm_compute; reflexivity|].
  exists data, page. split; [exact H1|]. split; [exact H2 | exact H3].
Defined.

(** The same request, run: Alice logged in before, Bob remains. *)
Example auth_remaining_run :
  let bob := MkIdentity "email" "bob@example.com" "GitHub" "" "bob@example.com" true in
  let before := MkLogin "email" "alice@example.com" "Google" "2024-05-01T10:00:00Z" in
  let session : Token :=
    <["logins" := VLogins {[ "https://rp.example" := [before] ]}]>
      {[ "identities" := VIdents [Demo.alice; bob] ]} in
  let W := Demo.world true [("session-3", session)] [] [] in
  let r := Demo.request "GET"
             [("client_id", "https://rp.example");
              ("redirect_uri", "https://rp.example/cb");
              ("response_type", "code")]
             [("obligator_login_key", "session-3")] in
  let s := authSession W ["key-1"] r in
  let previous := sortLogins (default [] (snd (fst s) !! "https://rp.example")) in
  previous = [before]
  /\ List.filter (fun i => negb (loggedInBefore previous i)) (fst (fst s)) = [bob].
Proof. vm_compute. split; reflexivity. Qed.


(** ** [/approve] *)




(** The response of that request. *)
Example approve_response_run :
  let W := Demo.world true [("session-1", Demo.session);
                            ("auth-1", Demo.authRequest "openid email")] [] [] in
  let r := Demo.request "POST" [("identity_id", "alice@example.com")]
             [("obligator_login_key", "session-1");
              ("obligator_auth_request", "auth-1")] in
  exists res,
    approveHandler W ["key-1"] None newResponseWriter r = Returned res
    /\ sentCookies res
       = [MkCookie "obligator_auth_request" "" (-1);
          MkCookie "obligator_login_key" "session-1@https://rp.example" 86400]
    /\ sentLocation res
       = Some ("https://rp.example/cb?client_id=https://rp.example"
               +:+ "&redirect_uri=https://rp.example/cb"
               +:+ "&code=signed(alice@example.com)&state=S1&scope=openid email").
Proof. eexists. split; [vm_compute; reflexivity|]. split; vm_compute; reflexivity. Qed.

Lemma getJwtFromCookie_agree (W : World) (publicJwks : KeySet) (name : string)
      (r1 r2 : Request) :
  Request_Cookie r1 name = Request_Cookie r2 name ->
  getJwtFromCookie W name publicJwks r1 = getJwtFromCookie W name publicJwks r2.
Proof. intros H. unfold getJwtFromCookie. now rewrite H. Qed.

Lemma claimFromToken_agreeExcept (name : string) (t1 t2 : Token) (claim : string) :
  agreeExcept name t1 t2 -> claim <> name ->
  claimFromToken claim t1 = claimFromToken claim t2.
Proof. intros H Hne. unfold claimFromToken. now rewrite (H claim Hne). Qed.

(** X11. The [login_key_hash] of the AuthRequest envelope is never read at
    [/approve]: two requests with the same method, the same [identity_id]
    and the same session cookie, whose AuthRequest cookies verify to
    envelopes that differ at most in [login_key_hash], get the same
    response.  An envelope minted for another session is accepted. *)
Theorem approve_ignores_login_key_hash (W : World) (publicJwks : KeySet)
        (capturedErr : option string) (w : ResponseWriter) (r1 r2 : Request)
        (t1 t2 : Token) :
  Method r1 = Method r2 ->
  Form_Get r1 "identity_id" = Form_Get r2 "identity_id" ->
  Request_Cookie r1 (GetPrefix W +:+ "login_key")
  = Request_Cookie r2 (GetPrefix W +:+ "login_key") ->
  getJwtFromCookie W (GetPrefix W +:+ "auth_request") publicJwks r1 = Ok t1 ->
  getJwtFromCookie W (GetPrefix W +:+ "auth_request") publicJwks r2 = Ok t2 ->
  agreeExcept "login_key_hash" t1 t2 ->
  approveHandler W publicJwks capturedErr w r1
  = approveHandler W publicJwks capturedErr w r2.
Proof.
  intros Hmethod Hid Hcookie H1 H2 Hagree.
  assert (Hclaim : forall claim, claim <> "login_key_hash" ->
                                 claimFromToken claim t1 = claimFromToken claim t2)
    by (intros claim Hne; now apply (claimFromToken_agreeExcept "login_key_hash")).
  unfold approveHandler, approveIdToken, approveCode.
  rewrite Hmethod, Hid, Hcookie, H1, H2.
  rewrite !(Hclaim "client_id"), !(Hclaim "scope"), !(Hclaim "nonce"),
    !(Hclaim "pkce_code_challenge"), !(Hclaim "response_type"),
    !(Hclaim "redirect_uri"), !(Hclaim "state") by discriminate.
  reflexivity.
Qed.

Lemma approve_ignores_login_key_hash_witness :
  let mine := Claim "login_key_hash" (VStr "hash(session-1)")
                    (Demo.authRequest "openid email") in
  let theirs := Claim "login_key_hash" (VStr "hash(session-of-mallory)")
                      (Demo.authRequest "openid email") in
  let W := Demo.world true [("session-1", Demo.session);
                            ("auth-1", mine); ("auth-2", theirs)] [] [] in
  let r1 := Demo.request "POST" [("identity_id", "alice@example.com")]
              [("obligator_login_key", "session-1");
               ("obligator_auth_request", "auth-1")] in
  let r2 := Demo.request "POST" [("identity_id", "alice@example.com")]
              [("obligator_login_key", "session-1");
               ("obligator_auth_request", "auth-2")] in
  approveHandler W ["key-1"] None newResponseWriter r1
  = approveHandler W ["key-1"] None newResponseWriter r2.
Proof.
  intros mine theirs W r1 r2.
  apply (approve_ignores_login_key_hash W ["key-1"] None newResponseWriter r1 r2
                                        mine theirs);
    try reflexivity.
  intros claim Hne. unfold mine, theirs, Claim.
  now rewrite !lookup_insert_ne by congruence.
Defined.


(** ** [/token] and [/userinfo] *)

(** What a response 200 of [/token] is made of. *)
Lemma token_success (W : World) (publicJwks : KeySet) (r : Request) :
  status (tokenHandler W publicJwks newResponseWriter r) = 200 ->
  exists code signedIdToken key signedAccessToken,
    jwt_Parse W (Form_Get r "code") publicJwks = Ok code
    /\ code !! "id_token" = Some (VStr signedIdToken)
    /\ Key0 (GetJWKSet W) = Some key
    /\ jwt_Sign W (accessTokenOf W code) key = Ok signedAccessToken
    /\ body (tokenHandler W publicJwks newResponseWriter r)
       = [BTokenResponse (MkTokenResponse signedAccessToken "bearer" 3600 signedIdToken)]
    /\ sentHeaders (tokenHandler W publicJwks newResponseWriter r)
       = [("Access-Control-Allow-Origin", HText "*");
          ("Content-Type", HText "application/json;charset=UTF-8");
          ("Cache-Control", HText "no-store")]
    /\ accessTokenOf W code !! "sub" = Some (VStr (Token_Subject code))
    /\ exists iat, accessTokenOf W code !! "iat" = Some (VTime iat)
                   /\ accessTokenOf W code !! "exp" = Some (VTime (iat + 16 * Second)).
Proof.
  unfold tokenHandler.
  destruct (jwt_Parse W _ publicJwks) as [code|] eqn:Hparse; [|intros H; discriminate H].
  unfold Token_Get.
  destruct (code !! "id_token") as [[signedIdToken| | | | | |]|] eqn:Hid;
    try (intros H; discriminate H).
  destruct (code !! "pkce_code_challenge") as [challenge|]; [|intros H; discriminate H].
  unfold Build. fold (accessTokenOf W code).
  generalize (GeneratePKCECodeChallenge (Form_Get r "code_verifier")). intros hash.
  assert (Hissue :
    forall res,
      res = match Key0 (GetJWKSet W) with
            | Some key =>
                match jwt_Sign W (accessTokenOf W code) key with
                | Ok signedAccessToken =>
                    Write (BTokenResponse
                             (MkTokenResponse signedAccessToken "bearer" 3600
                                              signedIdToken))
                      (Header_Set "Cache-Control" (HText "no-store")
                        (Header_Set "Content-Type"
                           (HText "application/json;charset=UTF-8")
                           (Header_Set "Access-Control-Allow-Origin" (HText "*")
                                       newResponseWriter)))
                | Err e => WriteString e (WriteHeader 400 newResponseWriter)
                end
            | None => WriteHeader 500 newResponseWriter
            end ->
      status res = 200 ->
      exists code0 signedIdToken0 key signedAccessToken,
        Ok code = Ok code0
        /\ code0 !! "id_token" = Some (VStr signedIdToken0)
        /\ Key0 (GetJWKSet W) = Some key
        /\ jwt_Sign W (accessTokenOf W code0) key = Ok signedAccessToken
        /\ body res
           = [BTokenResponse
                (MkTokenResponse signedAccessToken "bearer" 3600 signedIdToken0)]
        /\ sentHeaders res
           = [("Access-Control-Allow-Origin", HText "*");
              ("Content-Type", HText "application/json;charset=UTF-8");
              ("Cache-Control", HText "no-store")]
        /\ accessTokenOf W code0 !! "sub" = Some (VStr (Token_Subject code0))
        /\ exists iat, accessTokenOf W code0 !! "iat" = Some (VTime iat)
                       /\ accessTokenOf W code0 !! "exp"
                          = Some (VTime (iat + 16 * Second))).
  { intros res ->.
    destruct (Key0 (GetJWKSet W)) as [key|]; [|intros H; discriminate H].
    destruct (jwt_Sign W (accessTokenOf W code) key) as [signed|] eqn:Hsign;
      [|intros H; discriminate H].
    intros _. exists code, signedIdToken, key, signed.
    repeat split; try reflexivity; try assumption;
      unfold accessTokenOf, Subject, Expiration, IssuedAt, Claim, NewBuilder, Time_Add;
      try (simplify_map_eq; reflexivity).
    exists (now W). split; simplify_map_eq; reflexivity. }
  destruct (ifaceIsString challenge ""); cbn [negb].
  - destruct (String.eqb (Form_Get r "code_verifier") ""); cbn [negb];
      [|intros H; discriminate H].
    intros H. exact (Hissue _ eq_refl H).
  - destruct (ifaceIsString challenge hash); cbn [negb]; [|intros H; discriminate H].
    intros H. exact (Hissue _ eq_refl H).
Qed.

(** X12. A response 200 of [/token] comes only for a code that verifies and
    holds a string [id_token].  Its body is the token response with that
    [id_token] untouched, [token_type] [bearer], [expires_in] 3600 and an
    access token signed over the subject of the code with a lifetime of 16
    seconds; its headers allow every origin and forbid caching, and it sets
    no cookie. *)
Theorem token_response (W : World) (publicJwks : KeySet) (r : Request) :
  status (tokenHandler W publicJwks newResponseWriter r) = 200 ->
  exists code signedIdToken key signedAccessToken,
    jwt_Parse W (Form_Get r "code") publicJwks = Ok code
    /\ code !! "id_token" = Some (VStr signedIdToken)
    /\ Key0 (GetJWKSet W) = Some key
    /\ jwt_Sign W (accessTokenOf W code) key = Ok signedAccessToken
    /\ body (tokenHandler W publicJwks newResponseWriter r)
       = [BTokenResponse (MkTokenResponse signedAccessToken "bearer" 3600 signedIdToken)]
    /\ sentHeaders (tokenHandler W publicJwks newResponseWriter r)
       = [("Access-Control-Allow-Origin", HText "*");
          ("Content-Type", HText "application/json;charset=UTF-8");
          ("Cache-Control", HText "no-store")]
    /\ accessTokenOf W code !! "sub" = Some (VStr (Token_Subject code))
    /\ exists iat, accessTokenOf W code !! "iat" = Some (VTime iat)
                   /\ accessTokenOf W code !! "exp" = Some (VTime (iat + 16 * Second)).
Proof. exact (token_success W publicJwks r). Qed.

Lemma token_response_witness :
  let challenge := "E9Melhoa2OwvFrEMTJguCHaoeK1t8URWbuGJSstw-cM" in
  let W := Demo.world true [("code-1", Demo.code challenge)] [] [] in
  let r := Demo.request "POST"
             [("code", "code-1");
              ("code_verifier", "dBjftJeZ4CVP-mB92K27uhbUJU1p1r_wW1gFWFOEjXk")] [] in
  exists code signedIdToken key signedAccessToken,
    jwt_Parse W (Form_Get r "code") ["key-1"] = Ok code
    /\ code !! "id_token" = Some (VStr signedIdToken)
    /\ Key0 (GetJWKSet W) = Some key
    /\ jwt_Sign W (accessTokenOf W code) key = Ok signedAccessToken
    /\ body (tokenHandler W ["key-1"] newResponseWriter r)
       = [BTokenResponse (MkTokenResponse signedAccessToken "bearer" 3600 signedIdToken)]
    /\ sentHeaders (tokenHandler W ["key-1"] newResponseWriter r)
       = [("Access-Control-Allow-Origin", HText "*");
          ("Content-Type", HText "application/json;charset=UTF-8");
          ("Cache-Control", HText "no-store")]
    /\ accessTokenOf W code !! "sub" = Some (VStr (Token_Subject code))
    /\ exists iat, accessTokenOf W code !! "iat" = Some (VTime iat)
                   /\ accessTokenOf W code !! "exp" = Some (VTime (iat + 16 * Second)).
Proof.
  intros challenge W r. apply (token_response W ["key-1"] r). vm_compute. reflexivity.
Defined.

Lemma Split_spaceFree (s : string) :
  spaceFree s -> Split s " " = [s].
Proof.
  unfold spaceFree. induction s as [|c s IH]; simpl; [reflexivity|].
  intros H. apply andb_prop in H. destruct H as [Hc Hs].
  apply Bool.negb_true_iff in Hc. rewrite Hc, (IH Hs). reflexivity.
Qed.

Lemma Split_two (a b : string) :
  spaceFree a -> spaceFree b -> Split (a +:+ " " +:+ b) " " = [a; b].
Proof.
  unfold spaceFree at 1. induction a as [|c a IH]; intros Ha Hb.
  - change ("" +:+ " " +:+ b) with (String " " b). cbn [Split].
    change (Ascii.eqb " " " ") with true. cbv iota.
    now rewrite (Split_spaceFree b Hb).
  - simpl in Ha |- *. apply andb_prop in Ha. destruct Ha as [Hc Ha].
    apply Bool.negb_true_iff in Hc. rewrite Hc, (IH Ha Hb). reflexivity.
Qed.

(** X13. A response 200 of [/userinfo] comes only for an [Authorization]
    header of exactly two space-separated parts whose second part verifies
    as an envelope of the server; its body gives the subject of that
    envelope both as [sub] and as [email]. *)
Theorem userinfo_response (W : World) (O : Outside) (publicJwks : KeySet)
        (r : Incoming) :
  status (userinfoHandler W O publicJwks newResponseWriter r) = 200 ->
  exists scheme accessToken parsed,
    Split (Header_Get (inHeader r) "Authorization") " " = [scheme; accessToken]
    /\ jwt_Parse W accessToken publicJwks = Ok parsed
    /\ body (userinfoHandler W O publicJwks newResponseWriter r)
       = [BText (encodeUserinfoResponse O
                   (MkUserinfo (Token_Subject parsed) (Token_Subject parsed)))].
Proof.
  unfold userinfoHandler.
  destruct (Split _ " ") as [|scheme [|accessToken [|x rest]]];
    try (intros H; discriminate H).
  destruct (jwt_Parse W accessToken publicJwks) as [parsed|] eqn:Hp;
    [|intros H; discriminate H].
  intros _. exists scheme, accessToken, parsed. repeat split. exact Hp.
Qed.

Lemma userinfo_response_witness :
  let W := Demo.world true [("access-1", {[ "sub" := VStr "alice@example.com" ]})] [] [] in
  let O := DemoMore.outside [] [] [] None None in
  let r := MkIncoming (Demo.request "GET" [] [])
                      [("Authorization", "Bearer access-1")] "" in
  exists scheme accessToken parsed,
    Split (Header_Get (inHeader r) "Authorization") " " = [scheme; accessToken]
    /\ jwt_Parse W accessToken ["key-1"] = Ok parsed
    /\ body (userinfoHandler W O ["key-1"] newResponseWriter r)
       = [BText (encodeUserinfoResponse O
                   (MkUserinfo (Token_Subject parsed) (Token_Subject parsed)))].
Proof.
  intros W O r. apply (userinfo_response W O ["key-1"] r). vm_compute. reflexivity.
Defined.

(** X14. [/userinfo] does not look at the first word of the [Authorization]
    header: with [Basic], or any other word without a space, in the place of
    [Bearer] the response is the same.  The same holds of everything else in
    the request. *)
Theorem userinfo_scheme_ignored (W : World) (O : Outside) (publicJwks : KeySet)
        (w : ResponseWriter) (r1 r2 : Incoming) (scheme1 scheme2 accessToken : string) :
  spaceFree scheme1 -> spaceFree scheme2 -> spaceFree accessToken ->
  Header_Get (inHeader r1) "Authorization" = scheme1 +:+ " " +:+ accessToken ->
  Header_Get (inHeader r2) "Authorization" = scheme2 +:+ " " +:+ accessToken ->
  userinfoHandler W O publicJwks w r1 = userinfoHandler W O publicJwks w r2.
Proof.
  intros H1 H2 Ht Hh1 Hh2. unfold userinfoHandler.
  rewrite Hh1, Hh2, !Split_two by assumption. reflexivity.
Qed.

Lemma userinfo_scheme_ignored_witness :
  let W := Demo.world true [("access-1", {[ "sub" := VStr "alice@example.com" ]})] [] [] in
  let O := DemoMore.outside [] [] [] None None in
  let bearer := MkIncoming (Demo.request "GET" [] [])
                           [("Authorization", "Bearer access-1")] "" in
  let basic := MkIncoming (Demo.request "POST" [] [])
                          [("Authorization", "Basic access-1")] "ignored" in
  userinfoHandler W O ["key-1"] newResponseWriter bearer
  = userinfoHandler W O ["key-1"] newResponseWriter basic
  /\ body (userinfoHandler W O ["key-1"] newResponseWriter basic)
     = [BText "sub=alice@example.com;email=alice@example.com"].
Proof.
  intros W O bearer basic. split; [|reflexivity].
  apply (userinfo_scheme_ignored W O ["key-1"] newResponseWriter bearer basic
                                 "Bearer" "Basic" "access-1"); reflexivity.
Defined.

(** X15. The access token of [/token] redeemed at [/userinfo]: when the
    signed access token has no space and verifies back to the token it was
    signed over, a request to [/userinfo] with it as bearer is answered 200
    with the subject of the code as [sub] and as [email]. *)
Theorem token_then_userinfo (W : World) (O : Outside) (publicJwks : KeySet)
        (r : Request) (code : Token) :
  jwt_Parse W (Form_Get r "code") publicJwks = Ok code ->
  status (tokenHandler W publicJwks newResponseWriter r) = 200 ->
  (forall key signed,
      jwt_Sign W (accessTokenOf W code) key = Ok signed ->
      spaceFree signed /\ jwt_Parse W signed publicJwks = Ok (accessTokenOf W code)) ->
  exists tokenRes,
    body (tokenHandler W publicJwks newResponseWriter r) = [BTokenResponse tokenRes]
    /\ forall r' : Incoming,
         Header_Get (inHeader r') "Authorization" = "Bearer " +:+ AccessToken tokenRes ->
         status (userinfoHandler W O publicJwks newResponseWriter r') = 200
         /\ body (userinfoHandler W O publicJwks newResponseWriter r')
            = [BText (encodeUserinfoResponse O
                        (MkUserinfo (Token_Subject code) (Token_Subject code)))].
Proof.
  intros Hparse Hstatus Hround.
  destruct (token_success W publicJwks r Hstatus)
    as (code' & signedIdToken & key & signed & Hparse' & _ & _ & Hsign & Hbody & _
        & Hsub & _).
  rewrite Hparse in Hparse'. injection Hparse' as <-.
  destruct (Hround key signed Hsign) as [Hfree Hback].
  eexists. split; [exact Hbody|].
  intros r' Hheader. cbn [AccessToken] in Hheader.
  unfold userinfoHandler. rewrite Hheader.
  change ("Bearer " +:+ signed) with ("Bearer" +:+ " " +:+ signed).
  rewrite Split_two by (reflexivity || assumption). rewrite Hback.
  assert (Hs : Token_Subject (accessTokenOf W code) = Token_Subject code).
  { unfold Token_Subject at 1. now rewrite Hsub. }
  rewrite Hs. split; reflexivity.
Qed.

Lemma token_then_userinfo_witness :
  let challenge := "E9Melhoa2OwvFrEMTJguCHaoeK1t8URWbuGJSstw-cM" in
  let access : Token :=
    Subject "alice@example.com"
      (Expiration (1700000016 * Second) (IssuedAt (1700000000 * Second) NewBuilder)) in
  let W := Demo.world true [("code-1", Demo.code challenge);
                            ("signed(alice@example.com)", access)] [] [] in
  let O := DemoMore.outside [] [] [] None None in
  let r := Demo.request "POST"
             [("code", "code-1");
              ("code_verifier", "dBjftJeZ4CVP-mB92K27uhbUJU1p1r_wW1gFWFOEjXk")] [] in
  let r' := MkIncoming (Demo.request "GET" [] [])
                       [("Authorization", "Bearer signed(alice@example.com)")] "" in
  status (userinfoHandler W O ["key-1"] newResponseWriter r') = 200
  /\ body (userinfoHandler W O ["key-1"] newResponseWriter r')
     = [BText "sub=alice@example.com;email=alice@example.com"].
Proof.
  intros challenge access W O r r'.
  destruct (token_then_userinfo W O ["key-1"] r (Demo.code challenge))
    as (tokenRes & Hbody & Huser).
  - vm_compute. reflexivity.
  - vm_compute. reflexivity.
  - intros key signed Hsign. vm_compute in Hsign. injection Hsign as <-.
    split; vm_compute; reflexivity.
  - vm_compute in Hbody. injection Hbody as <-.
    apply (Huser r'). reflexivity.
Defined.


(** ** [/register], and what it leaves to [/auth] and [/approve] *)

(** X16. A response 201 of [/register] names as [client_id] the scheme
    [https] with the host of the FIRST redirect URI of the request, whatever
    the scheme of that URI and whatever the other URIs are.  The registration
    stores nothing: [/auth] later accepts this [client_id] with any redirect
    URI on the same host, registered or not, and answers 400 to a registered
    redirect URI on another host. *)
Theorem register_then_auth (W : World) (O : Outside) (r : Incoming)
        (regReq : OIDCRegistrationRequest) (first : string) (rest : list string) :
  decodeRegistrationRequest O (inBody r) = Ok regReq ->
  RedirectUris regReq = first :: rest ->
  status (fst (registerHandler W O newResponseWriter r)) = 201 ->
  exists uri,
    url_Parse W first = Ok uri
    /\ body (fst (registerHandler W O newResponseWriter r))
       = [BText (encodeRegistrationResponse O
                   (MkRegistrationResponse ("https://" +:+ uHost uri)))]
    /\ forall (w : ResponseWriter) (r' : Request) (clientUri redirectUri : URL),
         Form_Get r' "client_id" = "https://" +:+ uHost uri ->
         url_Parse W ("https://" +:+ uHost uri) = Ok clientUri ->
         uHost clientUri = uHost uri ->
         Form_Get r' "redirect_uri" <> "" ->
         url_Parse W (Form_Get r' "redirect_uri") = Ok redirectUri ->
         (uHost redirectUri = uHost uri ->
          Form_Get r' "prompt" <> "none" ->
          Form_Get r' "response_type" <> "" ->
          exists ar, ParseAuthRequest W w r' = (w, Ok ar)
                     /\ arClientId ar = "https://" +:+ uHost uri
                     /\ arRedirectUri ar = Form_Get r' "redirect_uri")
         /\ (uHost redirectUri <> uHost uri ->
             wrote w = None ->
             status (fst (ParseAuthRequest W w r')) = 400
             /\ snd (ParseAuthRequest W w r')
                = Err "redirect_uri must be on the same domain as client_id").
Proof.
  intros Hdec Huris. unfold registerHandler. rewrite Hdec, Huris.
  destruct (url_Parse W first) as [uri|] eqn:Hparse; [|intros H; discriminate H].
  intros _. exists uri. split; [reflexivity|]. split; [reflexivity|].
  intros w r' clientUri redirectUri Hclient Hcu Hhost Hne Hru.
  assert (Hnz : String.eqb ("https://" +:+ uHost uri) "" = false) by reflexivity.
  unfold ParseAuthRequest. rewrite Hclient, Hnz.
  rewrite (eqb_false_of_ne _ _ Hne), Hcu, Hru, Hhost. split.
  - intros Hsame Hprompt Htype.
    rewrite Hsame, String.eqb_refl. cbn [negb].
    rewrite (eqb_false_of_ne _ _ Hprompt), (eqb_false_of_ne _ _ Htype).
    eexists. split; [reflexivity|]. split; reflexivity.
  - intros Hother Hw.
    assert (Hneq : uHost uri <> uHost redirectUri) by congruence.
    rewrite (eqb_false_of_ne _ _ Hneq). cbn [negb fst snd]. split; [|reflexivity].
    unfold WriteString. rewrite status_Write. now apply status_WriteHeader.
Qed.

Lemma register_then_auth_witness :
  let W := Demo.world true [] [] [] in
  let O := DemoMore.outside
             [("body-1", ["http://rp.example/cb"; "https://elsewhere.example/cb"])]
             [] [] None None in
  let r := MkIncoming (Demo.request "POST" [] []) [] "body-1" in
  let unregistered :=
    Demo.request "GET" [("client_id", "https://rp.example");
                        ("redirect_uri", "https://rp.example/never-registered");
                        ("response_type", "code")] [] in
  let registered :=
    Demo.request "GET" [("client_id", "https://rp.example");
                        ("redirect_uri", "https://elsewhere.example/cb");
                        ("response_type", "code")] [] in
  body (fst (registerHandler W O newResponseWriter r))
  = [BText "client_id=https://rp.example"]
  /\ (exists ar, ParseAuthRequest W newResponseWriter unregistered
                 = (newResponseWriter, Ok ar)
                 /\ arClientId ar = "https://rp.example"
                 /\ arRedirectUri ar = "https://rp.example/never-registered")
  /\ status (fst (ParseAuthRequest W newResponseWriter registered)) = 400.
Proof.
  intros W O r unregistered registered.
  destruct (register_then_auth W O r
              (MkRegistrationRequest
                 ["http://rp.example/cb"; "https://elsewhere.example/cb"])
              "http://rp.example/cb" ["https://elsewhere.example/cb"])
    as (uri & Hparse & Hbody & Hauth);
    [reflexivity | reflexivity | reflexivity |].
  vm_compute in Hparse. injection Hparse as <-.
  split; [exact Hbody|]. split.
  - destruct (Hauth newResponseWriter unregistered (MkURL "rp.example")
                    (MkURL "rp.example")) as [Hyes _];
      [reflexivity | reflexivity | reflexivity | discriminate | reflexivity |].
    apply Hyes; [reflexivity | discriminate | discriminate].
  - destruct (Hauth newResponseWriter registered (MkURL "rp.example")
                    (MkURL "elsewhere.example")) as [_ Hno];
      [reflexivity | reflexivity | reflexivity | discriminate | reflexivity |].
    destruct Hno as [Hstatus _]; [discriminate | reflexivity | exact Hstatus].
Defined.

(** X17. [/approve] has no error page of its own for a request that is not a
    POST: it sends 405 and then the text of the error variable of
    [NewOIDCHandler], which only [/register] assigns.  On a server where
    [/register] was never called, and after a [/register] request whose body
    decoded, that variable is nil and the handler panics; after a
    [/register] request whose body did not decode, the body of the 405 is
    the decoding error of that earlier request of another client. *)
Theorem approve_method_after_register (W : World) (O : Outside) (publicJwks : KeySet)
        (w0 w : ResponseWriter) (registration : Incoming) (r : Request) :
  Method r <> "POST" ->
  wrote w = None ->
  (exists m, approveHandler W publicJwks None w r = Panicked m)
  /\ match decodeRegistrationRequest O (inBody registration) with
     | Ok _ =>
         exists m,
           approveHandler W publicJwks (snd (registerHandler W O w0 registration)) w r
           = Panicked m
     | Err e =>
         exists res,
           approveHandler W publicJwks (snd (registerHandler W O w0 registration)) w r
           = Returned res
           /\ status res = 405
           /\ body res = body w ++ [BText e]
     end.
Proof.
  intros Hmethod Hw. unfold approveHandler.
  rewrite (eqb_false_of_ne _ _ Hmethod). cbn [negb]. split; [eexists; reflexivity|].
  unfold registerHandler.
  destruct (decodeRegistrationRequest O (inBody registration)) as [regReq|e].
  - destruct (RedirectUris regReq) as [|first rest]; [eexists; reflexivity|].
    destruct (url_Parse W first); eexists; reflexivity.
  - cbn [snd]. eexists. split; [reflexivity|]. unfold WriteString.
    rewrite status_Write. split; [now apply status_WriteHeader|].
    unfold Write, WriteHeader. rewrite Hw. reflexivity.
Qed.

Lemma approve_method_after_register_witness :
  let W := Demo.world true [] [] [] in
  let O := DemoMore.outside [("body-1", ["https://rp.example/cb"])] [] [] None None in
  let broken := MkIncoming (Demo.request "POST" [] []) [] "{" in
  let r := Demo.request "GET" [] [("obligator_login_key", "session-1")] in
  exists res,
    approveHandler W ["key-1"]
                   (snd (registerHandler W O newResponseWriter broken))
                   newResponseWriter r
    = Returned res
    /\ status res = 405
    /\ body res = [BText "unexpected end of JSON input"].
Proof.
  intros W O broken r.
  destruct (approve_method_after_register W O ["key-1"] newResponseWriter
              newResponseWriter broken r) as [_ H];
    [discriminate | reflexivity | exact H].
Defined.


(** ** [/login-oauth2] *)






(** ** [/callback] *)





(** The two redirects, run on a server that is not public: Alice is a
    configured user, Mallory is not. *)
Example callback_redirect_run :
  let W email :=
    Demo.world false
      [("up-1", Demo.upstreamRequest "google" "state-1")]
      [("id-token-g",
        MkParsed (list_to_map [("nonce", VStr "nonce-1"); ("email", VStr email)]) true)]
      [("https://accounts.google.com/token", MkHttpResponse 200 "id-token-g")] in
  let r := Demo.request "GET" [("code", "c-1"); ("state", "state-1")]
             [("obligator_upstream_oauth2_request", "up-1");
              ("obligator_return_uri", "/auth?client_id=https://rp.example")] in
  let res email := callbackHandler (W email) newResponseWriter r in
  sentLocation (res "alice@example.com") = Some "/auth?client_id=https://rp.example"
  /\ sentCookies (res "alice@example.com")
     = [MkCookie "obligator_return_uri" "" (-1);
        MkCookie "obligator_login_key" "+[alice@example.com]" 86400;
        MkCookie "obligator_upstream_oauth2_request" "" (-1)]
  /\ sentLocation (res "mallory@example.com")
     = Some "https://auth.example/no-account?/auth?client_id=https://rp.example"
  /\ sentCookies (res "mallory@example.com") = [].
Proof. vm_compute. repeat split. Qed.


(** ** [ObligatorMux.ServeHTTP] *)

Lemma carries_WriteHeader (code : Z) (w : ResponseWriter) :
  carries w -> carries (WriteHeader code w).
Proof.
  intros H line Hline. destruct (H line Hline) as [Hh Hs].
  unfold WriteHeader, sentHeaders in *.
  destruct (wrote w) as [[c h]|] eqn:E; cbn [header wrote]; rewrite ?E; auto.
Qed.

Lemma carries_Write (chunk : BodyChunk) (w : ResponseWriter) :
  carries w -> carries (Write chunk w).
Proof.
  intros H line Hline.
  destruct (carries_WriteHeader 200 w H line Hline) as [Hh Hs].
  unfold Write, sentHeaders in *. cbn [header wrote]. auto.
Qed.

Lemma carries_WriteString (s : string) (w : ResponseWriter) :
  carries w -> carries (WriteString s w).
Proof. apply carries_Write. Qed.

Lemma carries_Header_Add (k : string) (v : HeaderValue) (w : ResponseWriter) :
  carries w -> carries (Header_Add k v w).
Proof.
  intros H line Hline. destruct (H line Hline) as [Hh Hs].
  unfold Header_Add, sentHeaders in *. cbn [header wrote].
  destruct (wrote w) as [[c h]|]; auto using in_or_app.
Qed.

Lemma carries_SetCookie (c : Cookie) (w : ResponseWriter) :
  carries w -> carries (SetCookie c w).
Proof. apply carries_Header_Add. Qed.

Lemma carries_Header_Set (k : string) (v : HeaderValue) (w : ResponseWriter) :
  existsb (fun line => String.eqb (fst line) k) securityHeaders = false ->
  carries w -> carries (Header_Set k v w).
Proof.
  intros Hk H line Hline. destruct (H line Hline) as [Hh Hs].
  assert (Hkeep : In line (List.filter (fun kv => negb (String.eqb (fst kv) k))
                                       (header w) ++ [(k, v)])).
  { apply in_or_app. left. apply filter_In. split; [exact Hh|].
    destruct (String.eqb (fst line) k) eqn:E; [|reflexivity].
    exfalso. assert (Hex : existsb (fun line => String.eqb (fst line) k)
                                   securityHeaders = true)
      by (apply existsb_exists; exists line; auto).
    congruence. }
  unfold Header_Set, sentHeaders in *. cbn [header wrote].
  destruct (wrote w) as [[c h]|]; auto.
Qed.

Lemma carries_Redirect (method url : string) (code : Z) (w : ResponseWriter) :
  carries w -> carries (Redirect method url code w).
Proof.
  intros H. unfold Redirect.
  assert (H1 : carries (Header_Set "Location" (HText url) w))
    by (apply carries_Header_Set; [reflexivity | exact H]).
  assert (H2 : carries (Header_Set "Content-Type" (HText "text/html; charset=utf-8")
                          (Header_Set "Location" (HText url) w)))
    by (apply carries_Header_Set; [reflexivity | exact H1]).
  destruct (negb (Header_has "Content-Type" (header w)));
    destruct (String.eqb method "GET"); destruct (String.eqb method "HEAD");
    cbn [andb orb];
    repeat first [assumption | apply carries_Write | apply carries_WriteHeader].
Qed.

Lemma carries_setJwtCookie (W : World) (token : Token) (cookieKey : string)
      (maxAge : Duration) (w : ResponseWriter) :
  carries w -> carries (setJwtCookie W token cookieKey maxAge w).
Proof.
  intros H. unfold setJwtCookie.
  destruct (Key0 (GetJWKSet W)); [destruct (jwt_Sign W token _)|];
    first [now apply carries_SetCookie | now apply carries_WriteHeader].
Qed.

Lemma carries_ParseAuthRequest (W : World) (w : ResponseWriter) (r : Request) :
  carries w -> carries (fst (ParseAuthRequest W w r)).
Proof.
  intros H. unfold ParseAuthRequest.
  repeat match goal with
         | |- carries (fst (if ?b then _ else _)) => destruct b
         | |- carries (fst (match ?x with Ok _ => _ | Err _ => _ end)) => destruct x
         end;
    cbn [fst];
    repeat first [assumption | apply carries_WriteString | apply carries_WriteHeader
                  | apply carries_Redirect].
Qed.

Lemma carries_start (w : ResponseWriter) :
  wrote w = None ->
  carries (Header_Set "Referrer-Policy" (HText "no-referrer")
             (Header_Set "Content-Security-Policy" (HText "frame-ancestors 'none'") w)).
Proof.
  intros Hw line Hline.
  assert (Hin : In line
                  (header (Header_Set "Referrer-Policy" (HText "no-referrer")
                             (Header_Set "Content-Security-Policy"
                                         (HText "frame-ancestors 'none'") w)))).
  { cbn [header Header_Set]. destruct Hline as [<-|[<-|[]]].
    - apply in_or_app. left. apply filter_In. split; [|reflexivity].
      apply in_or_app. right. now left.
    - apply in_or_app. right. now left. }
  split; [exact Hin|]. unfold sentHeaders. cbn [wrote Header_Set]. rewrite Hw.
  exact Hin.
Qed.

Lemma carries_serve (W : World) (O : Outside) (publicJwks : KeySet)
      (capturedErr : option string) (route : Route) (w : ResponseWriter)
      (r : Incoming) :
  carries w -> carriesRun (serve W O publicJwks capturedErr route w r).
Proof.
  intros H. destruct route; unfold serve.
  - (* /register *)
    unfold registerHandler. cbn [carriesRun].
    repeat match goal with
           | |- carries (fst (match ?x with _ => _ end)) => destruct x
           end;
      cbn [fst];
      repeat first [assumption | apply carries_WriteString | apply carries_Write
                    | apply carries_WriteHeader
                    | apply carries_Header_Set; [reflexivity|]].
  - (* /userinfo *)
    unfold userinfoHandler. cbn [carriesRun]. cbv zeta.
    repeat match goal with
           | |- carries (match ?x with _ => _ end) => destruct x
           end;
      repeat first [assumption | apply carries_WriteString | apply carries_Write
                    | apply carries_WriteHeader
                    | apply carries_Header_Set; [reflexivity|]].
  - (* /auth *)
    unfold authHandler. cbn [carriesRun].
    pose proof (carries_ParseAuthRequest W w (inRequest r) H) as HP.
    destruct (ParseAuthRequest W w (inRequest r)) as [w' [ar|e]]; cbn [fst] in HP;
      [|exact HP].
    unfold Build, setReturnUriCookie. cbv zeta.
    repeat match goal with
           | |- carries (match ?x with _ => _ end) => destruct x
           end;
      repeat first [assumption | apply carries_WriteString | apply carries_Write
                    | apply carries_WriteHeader | apply carries_SetCookie
                    | apply carries_setJwtCookie].
  - (* /approve *)
    unfold approveHandler, Build, clearCookie. cbv zeta.
    repeat match goal with
           | |- carriesRun (match ?x with _ => _ end) => destruct x
           end;
      cbn [carriesRun]; try exact I;
      repeat first [assumption | apply carries_WriteString | apply carries_Write
                    | apply carries_WriteHeader | apply carries_SetCookie
                    | apply carries_Redirect].
  - (* /token *)
    unfold tokenHandler, Build, Token_Get. cbn [carriesRun]. cbv zeta.
    repeat match goal with
           | |- carries (match ?x with _ => _ end) => destruct x
           end;
      repeat first [assumption | apply carries_WriteString | apply carries_Write
                    | apply carries_WriteHeader
                    | apply carries_Header_Set; [reflexivity|]].
  - (* /login-oauth2 *)
    unfold loginOauth2Handler, Build. cbv zeta.
    repeat match goal with
           | |- carriesRun (match ?x with _ => _ end) => destruct x
           end;
      cbn [carriesRun]; try exact I;
      repeat first [assumption | apply carries_WriteString | apply carries_Write
                    | apply carries_WriteHeader | apply carries_Redirect
                    | apply carries_setJwtCookie].
  - (* /callback *)
    unfold callbackHandler, setLoginCookie, deleteReturnUriCookie, clearCookie,
      Token_Get.
    cbn [carriesRun]. cbv zeta.
    repeat match goal with
           | |- context [setLoginCookieError W ?c] =>
               destruct (setLoginCookieError W c)
           | |- carries (match ?x with _ => _ end) => destruct x
           end;
      repeat first [assumption | apply carries_WriteString | apply carries_Write
                    | apply carries_WriteHeader | apply carries_Redirect
                    | apply carries_SetCookie].
  - (* /add-domain *)
    unfold addDomainHandler. cbn [carriesRun]. cbv zeta.
    repeat match goal with
           | |- carries (fst (match ?x with _ => _ end)) => destruct x
           end;
      cbn [fst];
      repeat first [assumption | apply carries_WriteString | apply carries_WriteHeader].
  - (* /complete-login-fedcm *)
    unfold completeLoginFedCmHandler, deleteReturnUriCookie, clearCookie.
    cbn [carriesRun]. cbv zeta.
    repeat match goal with
           | |- carries (match ?x with _ => _ end) => destruct x
           end;
      repeat first [assumption | apply carries_WriteString | apply carries_Write
                    | apply carries_WriteHeader | apply carries_Redirect
                    | apply carries_SetCookie | apply carries_Header_Add].
Qed.

(** X20. Every response of the handlers behind the [ObligatorMux] (pages,
    error pages and redirects, of [/register], [/userinfo], [/auth],
    [/approve], [/token], [/login-oauth2], [/callback], [/add-domain] and
    [/complete-login-fedcm]) is sent with the headers
    [Content-Security-Policy: frame-ancestors 'none'] and
    [Referrer-Policy: no-referrer], and so is the 500 of the mux itself when
    the address of the peer cannot be told: no handler removes or replaces
    them. *)
Theorem ServeHTTP_security_headers (W : World) (O : Outside) (publicJwks : KeySet)
        (capturedErr : option string) (behindProxy : bool) (route : Route)
        (r : Incoming) (res : ResponseWriter) :
  ObligatorMux_ServeHTTP O behindProxy
    (fun w r' => serve W O publicJwks capturedErr route w
                   (MkIncoming r' (inHeader r) (inBody r)))
    newResponseWriter (inRequest r)
  = Returned res ->
  In ("Content-Security-Policy", HText "frame-ancestors 'none'") (sentHeaders res)
  /\ In ("Referrer-Policy", HText "no-referrer") (sentHeaders res).
Proof.
  unfold ObligatorMux_ServeHTTP. cbv zeta.
  pose proof (carries_start newResponseWriter eq_refl) as Hstart.
  set (w := Header_Set "Referrer-Policy" _ _) in *. clearbody w.
  assert (Hres : carries res -> 
                 In ("Content-Security-Policy", HText "frame-ancestors 'none'")
                    (sentHeaders res)
                 /\ In ("Referrer-Policy", HText "no-referrer") (sentHeaders res)).
  { intros Hc. split; apply Hc; [now left | right; now left]. }
  destruct (getRemoteIp O (inRequest r) behindProxy) as [remoteIp|e].
  - intros Hrun.
    pose proof (carries_serve W O publicJwks capturedErr route w
                  (MkIncoming (inRequest r) (inHeader r) (inBody r)) Hstart) as Hc.
    rewrite Hrun in Hc. exact (Hres Hc).
  - intros [= <-]. apply Hres.
    now apply carries_WriteString, carries_WriteHeader.
Qed.

Lemma ServeHTTP_security_headers_witness :
  let W := Demo.world true [] [] [] in
  let O := DemoMore.outside [] [] [] None None in
  let r := MkIncoming (Demo.request "POST" [("code", "no-such-code")] []) [] "" in
  exists res,
    ObligatorMux_ServeHTTP O false
      (fun w r' => serve W O ["key-1"] None RouteToken w
                     (MkIncoming r' (inHeader r) (inBody r)))
      newResponseWriter (inRequest r)
    = Returned res
    /\ status res = 401
    /\ In ("Content-Security-Policy", HText "frame-ancestors 'none'") (sentHeaders res)
    /\ In ("Referrer-Policy", HText "no-referrer") (sentHeaders res).
Proof.
  intros W O r. eexists. split; [vm_compute; reflexivity|]. split; [reflexivity|].
  eapply (ServeHTTP_security_headers W O ["key-1"] None false RouteToken r).
  vm_compute. reflexivity.
Defined.


(** ** [/complete-login-fedcm] and [GetOidcConfiguration] *)




(** The response of the small world, as sent. *)
Example complete_login_fedcm_run :
  let W := Demo.world true []
             [("fedcm-1", MkParsed {[ "email" := VStr "alice@example.com" ]} true)] [] in
  let O := DemoMore.outside [] [("fedcm-1", {[ "iss" := VStr "https://idp.example" ]})]
             [] None None in
  let r := Demo.request "POST" [("fedcm-token", "fedcm-1")]
             [("obligator_return_uri", "/auth?client_id=https://rp.example")] in
  sentHeaders (completeLoginFedCmHandler W O newResponseWriter r)
  = [("Set-Cookie", HCookie (MkCookie "obligator_return_uri" "" (-1)));
     ("Set-Login", HText "logged-in");
     ("Set-Cookie",
      HCookie (MkCookie "obligator_login_key"
                        "+[alice@example.com@https://idp.example]" 86400));
     ("Location", HText "/auth?client_id=https://rp.example")].
Proof. vm_compute. reflexivity. Qed.

(** ** [/add-domain] *)

(** X22. [/add-domain] calls the database only for a domain that is not
    empty and parses, and only with an [owner_id] that is the id of one of
    the identities of the session, of whatever type and verified or not.
    The proxy is called only after the database accepted the domain.  When
    the proxy then fails, the answer is 500 and the domain stays in the
    database: nothing is undone. *)
Theorem addDomain_calls (W : World) (O : Outside) (w : ResponseWriter) (r : Request) :
  let domain := Form_Get r "domain" in
  let ownerId := Form_Get r "owner_id" in
  let calls := snd (addDomainHandler W O w r) in
  (In (DbAddDomain domain ownerId) calls
   <-> domain <> ""
       /\ (exists u, url_Parse W domain = Ok u)
       /\ exists ident, In ident (getIdentities O r) /\ Id ident = ownerId)
  /\ (forall call, In call calls ->
        call = DbAddDomain domain ownerId
        \/ (call = ProxyAddDomain domain /\ db_AddDomain O domain ownerId = None))
  /\ (forall e, In (DbAddDomain domain ownerId) calls ->
        db_AddDomain O domain ownerId = None ->
        proxy_AddDomain O domain = Some e ->
        wrote w = None ->
        status (fst (addDomainHandler W O w r)) = 500
        /\ calls = [DbAddDomain domain ownerId; ProxyAddDomain domain]).
Proof.
  intros domain ownerId calls. subst calls. unfold addDomainHandler.
  fold domain. fold ownerId.
  destruct (String.eqb_spec domain "") as [Hempty|Hdomain].
  { cbn [snd]. split; [|split].
    - split; [intros [] | intros (H & _); contradiction].
    - intros call [].
    - intros e []. }
  destruct (url_Parse W domain) as [u|e0] eqn:Hparse.
  2:{ cbn [snd]. split; [|split].
      - split; [intros [] | intros (_ & (u & Hu) & _); discriminate Hu].
      - intros call [].
      - intros e []. }
  destruct (existsb (fun ident => String.eqb (Id ident) ownerId) (getIdentities O r))
    eqn:Hmatch; cbn [negb].
  2:{ cbn [snd]. split; [|split].
      - split; [intros [] |].
        intros (_ & _ & ident & Hin & Hid).
        assert (Hex : existsb (fun ident => String.eqb (Id ident) ownerId)
                              (getIdentities O r) = true).
        { apply existsb_exists. exists ident. split; [exact Hin|].
          now apply String.eqb_eq. }
        congruence.
      - intros call [].
      - intros e []. }
  apply existsb_exists in Hmatch. destruct Hmatch as (ident & Hin & Hid).
  apply String.eqb_eq in Hid.
  destruct (db_AddDomain O domain ownerId) as [e1|] eqn:Hdb.
  { cbn [snd fst]. split; [|split].
    - split; [intros _ | intros _; now left].
      split; [exact Hdomain|]. split; [eauto|]. now exists ident.
    - intros call [<-|[]]. now left.
    - intros e _ Hnone. discriminate Hnone. }
  destruct (proxy_AddDomain O domain) as [e2|] eqn:Hproxy; cbn [snd fst].
  - split; [|split].
    + split; [intros _ | intros _; now left].
      split; [exact Hdomain|]. split; [eauto|]. now exists ident.
    + intros call [<-|[<-|[]]]; [now left | right; now split].
    + intros e _ _ _ Hw. split; [|reflexivity]. now apply status_respond.
  - split; [|split].
    + split; [intros _ | intros _; now left].
      split; [exact Hdomain|]. split; [eauto|]. now exists ident.
    + intros call [<-|[<-|[]]]; [now left | right; now split].
    + intros e _ _ Hsome. discriminate Hsome.
Qed.

(** The database keeps the domain of a request the proxy refused. *)
Example addDomain_run :
  let W := Demo.world true [] [] [] in
  let O := DemoMore.outside [] [] [Demo.alice] None (Some "proxy is down") in
  let r := Demo.request "POST" [("domain", "blog.example");
                                ("owner_id", "alice@example.com")] [] in
  let stranger := Demo.request "POST" [("domain", "blog.example");
                                       ("owner_id", "bob@example.com")] [] in
  status (fst (addDomainHandler W O newResponseWriter r)) = 500
  /\ snd (addDomainHandler W O newResponseWriter r)
     = [DbAddDomain "blog.example" "alice@example.com"; ProxyAddDomain "blog.example"]
  /\ status (fst (addDomainHandler W O newResponseWriter stranger)) = 403
  /\ snd (addDomainHandler W O newResponseWriter stranger) = [].
Proof. vm_compute. repeat split. Qed.


(** ** From [/approve] to [/token] *)



(** The flow run in a world where the signed code verifies back: the
    verifier of the challenge is accepted, another one is not. *)
Example approve_then_token_run :
  let challenge := "E9Melhoa2OwvFrEMTJguCHaoeK1t8URWbuGJSstw-cM" in
  let authReq : Token :=
    list_to_map
      [("client_id", VStr "https://rp.example");
       ("redirect_uri", VStr "https://rp.example/cb");
       ("state", VStr "S1"); ("scope", VStr "openid email"); ("nonce", VStr "N1");
       ("pkce_code_challenge", VStr challenge); ("response_type", VStr "code")] in
  let W0 := Demo.world true [] [] [] in
  let code :=
    approveCode W0 authReq (approveIdToken W0 "alice@example.com" authReq Demo.alice)
                "signed(alice@example.com)" in
  let W := Demo.world true [("session-1", Demo.session); ("auth-1", authReq);
                            ("signed(alice@example.com)", code)] [] [] in
  let r := Demo.request "POST" [("identity_id", "alice@example.com")]
             [("obligator_login_key", "session-1");
              ("obligator_auth_request", "auth-1")] in
  let redeem verifier :=
    tokenHandler W ["key-1"] newResponseWriter
      (Demo.request "POST" [("code", "signed(alice@example.com)");
                            ("code_verifier", verifier)] []) in
  match approveHandler W ["key-1"] None newResponseWriter r with
  | Returned res =>
      sentLocation res
      = Some ("https://rp.example/cb?client_id=https://rp.example"
              +:+ "&redirect_uri=https://rp.example/cb"
              +:+ "&code=signed(alice@example.com)&state=S1&scope=openid email")
  | Panicked _ => False
  end
  /\ jwt_Parse W "signed(alice@example.com)" ["key-1"] = Ok code
  /\ status (redeem "dBjftJeZ4CVP-mB92K27uhbUJU1p1r_wW1gFWFOEjXk") = 200
  /\ body (redeem "dBjftJeZ4CVP-mB92K27uhbUJU1p1r_wW1gFWFOEjXk")
     = [BTokenResponse (MkTokenResponse "signed(alice@example.com)" "bearer" 3600
                                        "signed(alice@example.com)")]
  /\ status (redeem "another-verifier") = 401.
Proof.
  intros challenge authReq W0 code W r redeem.
  repeat (split; [vm_compute; reflexivity|]). vm_compute. reflexivity.
Qed.
